(** * SEO backend: a shallow embedding of the crawl / analyze / score pipeline

    The development follows the Python sources under [backend/]:

    - [analyzer/analyzer.py]      ([Module Analyzer])
    - [scorer/scorer.py]          ([Module Scorer])
    - [keyword_engine/engine.py]  ([Module KeywordEngine])
    - [crawler/sitemap.py]        ([Module Sitemap])
    - [crawler/robots.py]         ([Module Robots])
    - [crawler/rate_limiter.py]   ([Module RateLimiter])
    - [crawler/crawler.py]        ([Module Crawler], [Module Fetcher],
                                   [Module Frontier])
    - [recommendations/engine.py] ([Module Recommendations])
    - [workers/crawl_worker.py]   ([Module Worker])
    - [api/schemas.py]            ([Module Schemas])

    Conventions.  Python [int] is [Z].  Python [str] is [string] (8-bit
    characters; the code points above 127 are never letters).  A [float] that
    only carries sums of small integers, quotients and fixed weights is an
    exact rational ([Q]); where the source truncates a double to an integer
    ([int(...)]) the IEEE-754 binary64 operations of [SpecFloat] are used, and
    where it calls [math.log1p] the value is a real number ([R]).  A [dict] is
    an insertion-ordered association list, a [set] of strings is a [gset]. *)

From Stdlib Require Import ZArith QArith Qround Qabs Reals Psatz.
From Stdlib Require Import List String Ascii Bool.
From Stdlib Require Import Floats.SpecFloat.
From stdpp Require Import gmap strings list.
Import ListNotations.

Close Scope Q_scope.
Close Scope R_scope.
Local Open Scope Z_scope.

(** ** Python built-ins used by the sources *)

Module Py.

(** [str.isspace] on one character (code points below 256). *)
Definition is_space (c : ascii) : bool :=
  let n := Z.of_nat (nat_of_ascii c) in
  ((9 <=? n) && (n <=? 13)) || ((28 <=? n) && (n <=? 32))
  || (n =? 133) || (n =? 160).

Definition is_upper (c : ascii) : bool :=
  let n := Z.of_nat (nat_of_ascii c) in (65 <=? n) && (n <=? 90).

Definition is_lower (c : ascii) : bool :=
  let n := Z.of_nat (nat_of_ascii c) in (97 <=? n) && (n <=? 122).

Definition is_digit (c : ascii) : bool :=
  let n := Z.of_nat (nat_of_ascii c) in (48 <=? n) && (n <=? 57).

Definition lower_char (c : ascii) : ascii :=
  if is_upper c then ascii_of_nat (nat_of_ascii c + 32) else c.

Definition chars (s : string) : list ascii := list_ascii_of_string s.
Definition str (l : list ascii) : string := string_of_list_ascii l.

(** [s.lower()] *)
Definition lower (s : string) : string := str (map lower_char (chars s)).

(** [len(s)] *)
Definition len (s : string) : Z := Z.of_nat (String.length s).

(** Truthiness of a [str]: non-empty. *)
Definition truthy (s : string) : bool :=
  match s with EmptyString => false | _ => true end.

(** Truthiness of an [Optional[str]]. *)
Definition truthy_opt (o : option string) : bool :=
  match o with Some s => truthy s | None => false end.

(** [s.split()]: maximal runs of non-whitespace characters. *)
Fixpoint split_aux (cur : list ascii) (l : list ascii) : list string :=
  match l with
  | [] => match cur with [] => [] | _ => [str (rev cur)] end
  | c :: l' =>
      if is_space c
      then match cur with
           | [] => split_aux [] l'
           | _ => str (rev cur) :: split_aux [] l'
           end
      else split_aux (c :: cur) l'
  end.

Definition split (s : string) : list string := split_aux [] (chars s).

(** [s.strip(chars)] and [s.strip()] through a character predicate. *)
Fixpoint lstrip_by (p : ascii -> bool) (l : list ascii) : list ascii :=
  match l with
  | c :: l' => if p c then lstrip_by p l' else l
  | [] => []
  end.

Definition strip_by (p : ascii -> bool) (s : string) : string :=
  str (rev (lstrip_by p (rev (lstrip_by p (chars s))))).

Definition strip (s : string) : string := strip_by is_space s.

(** [s[:n]] *)
Definition take (n : nat) (s : string) : string := String.substring 0 n s.

(** [s.startswith(p)] *)
Definition startswith (p s : string) : bool := String.prefix p s.

(** [p in s] for strings. *)
Fixpoint contains (p s : string) : bool :=
  String.prefix p s
  || match s with
     | EmptyString => false
     | String _ s' => contains p s'
     end.

(** [x in l] for a list (or set literal) of strings. *)
Definition mem (x : string) (l : list string) : bool :=
  existsb (String.eqb x) l.

(** [round(x)] on an exact value: nearest integer, ties to even. *)
Definition round_half_even (x : Q) : Z :=
  let f := Qfloor x in
  match Qcompare (x - inject_Z f)%Q (1 # 2)%Q with
  | Lt => f
  | Gt => f + 1
  | Eq => if Z.even f then f else f + 1
  end.

(** [round(x, d)] on an exact value. *)
Definition round_digits (x : Q) (d : nat) : Q :=
  (inject_Z (round_half_even (x * inject_Z (10 ^ Z.of_nat d))%Q)
   / inject_Z (10 ^ Z.of_nat d))%Q.

Definition Qltb (x y : Q) : bool :=
  match Qcompare x y with Lt => true | _ => false end.

Definition Qleb (x y : Q) : bool :=
  match Qcompare x y with Gt => false | _ => true end.

(** A [dict] with string keys: association list in insertion order;
    assignment to an existing key keeps its position. *)
Definition dict (V : Type) : Type := list (string * V).

Fixpoint dict_get {V} (d : dict V) (k : string) : option V :=
  match d with
  | [] => None
  | (k', v) :: d' => if String.eqb k k' then Some v else dict_get d' k
  end.

Fixpoint dict_set {V} (d : dict V) (k : string) (v : V) : dict V :=
  match d with
  | [] => [(k, v)]
  | (k', v') :: d' =>
      if String.eqb k k' then (k', v) :: d' else (k', v') :: dict_set d' k v
  end.

(** [collections.Counter(l)] *)
Definition counter_incr (d : dict Z) (k : string) : dict Z :=
  match dict_get d k with
  | Some n => dict_set d k (n + 1)
  | None => dict_set d k 1
  end.

Definition Counter (l : list string) : dict Z := fold_left counter_incr l [].

(** [Counter.most_common(n)]: sorted by count, largest first, ties in
    insertion order, the first [n] entries. *)
Fixpoint insert_desc (e : string * Z) (l : list (string * Z))
    : list (string * Z) :=
  match l with
  | [] => [e]
  | e' :: l' => if snd e <? snd e' then e' :: insert_desc e l' else e :: l
  end.

Definition sort_desc (l : list (string * Z)) : list (string * Z) :=
  fold_right insert_desc [] l.

Definition most_common (n : nat) (d : dict Z) : list (string * Z) :=
  firstn n (sort_desc d).

End Py.

(** ** crawler/crawler.py: the result of one fetch *)

Module Fetch.

Record CrawlResult : Type := {
  url : string;
  final_url : string;
  status_code : Z;
  html : string;
  headers : Py.dict string;
  load_time_ms : Z;
  page_size_bytes : Z;
  error : option string
}.

(** [self.is_success = error is None and 200 <= status_code < 400] *)
Definition is_success (r : CrawlResult) : bool :=
  match r.(error) with
  | None => (200 <=? r.(status_code)) && (r.(status_code) <? 400)
  | Some _ => false
  end.

End Fetch.

(** ** analyzer/analyzer.py *)

Module Analyzer.

Local Open Scope string_scope.
Local Open Scope Z_scope.

Definition STOP_WORDS : list string :=
  [ "a"; "an"; "the"; "and"; "or"; "but"; "in"; "on"; "at"; "to"; "for";
    "of"; "with"; "by"; "from"; "up"; "about"; "into"; "through"; "during";
    "is"; "are"; "was"; "were"; "be"; "been"; "being"; "have"; "has"; "had";
    "do"; "does"; "did"; "will"; "would"; "could"; "should"; "may"; "might";
    "shall"; "can"; "need"; "dare"; "ought"; "used"; "it"; "its"; "this";
    "that"; "these"; "those"; "i"; "me"; "my"; "we"; "our"; "you"; "your";
    "he"; "his"; "she"; "her"; "they"; "their"; "what"; "which"; "who";
    "when"; "where"; "why"; "how"; "all"; "each"; "every"; "both"; "few";
    "more"; "most"; "other"; "some"; "such"; "no"; "not"; "only"; "same";
    "so"; "than"; "too"; "very"; "just"; "also"; "as"; "if"; "then" ].

Definition SEO_SCHEMA_TYPES : list string :=
  [ "Article"; "NewsArticle"; "BlogPosting"; "WebPage"; "Product";
    "LocalBusiness"; "Organization"; "Person"; "Event"; "FAQPage";
    "HowTo"; "Review"; "AggregateRating"; "BreadcrumbList"; "Recipe";
    "VideoObject"; "ImageObject"; "SoftwareApplication"; "Course" ].

(** Items of the structured-data lists returned by [extruct]. *)
#[warnings="-register-all"]
Inductive json : Type :=
| JNull
| JBool (b : bool)
| JNum (n : Z)
| JStr (s : string)
| JList (l : list json)
| JDict (d : list (string * json)).

(** The [link_data] dictionaries built by [_extract_links]. *)
Record LinkData : Type := {
  link_url : string;
  anchor_text : string;
  is_nofollow : bool;
  is_internal : bool
}.

Record AnalyzedPage : Type := {
  url : string;
  canonical_url : option string;
  status_code : Z;
  title : option string;
  title_length : Z;
  meta_description : option string;
  meta_description_length : Z;
  meta_robots : option string;
  canonical_tag : option string;
  is_indexable : bool;
  is_canonical : bool;
  h1_tags : list string;
  h2_tags : list string;
  h3_tags : list string;
  h4_tags : list string;
  h5_tags : list string;
  h6_tags : list string;
  word_count : Z;
  content_text : string;
  reading_time_seconds : Z;
  text_html_ratio : Q;
  language : option string;
  load_time_ms : Z;
  page_size_bytes : Z;
  is_https : bool;
  has_viewport_meta : bool;
  has_schema_markup : bool;
  schema_types : list string;
  structured_data : Py.dict (list json);
  has_open_graph : bool;
  open_graph_data : Py.dict string;
  has_twitter_card : bool;
  twitter_card_data : Py.dict string;
  has_hreflang : bool;
  total_images : Z;
  images_missing_alt : Z;
  images_with_alt : Z;
  internal_links : list LinkData;
  external_links : list LinkData;
  internal_links_count : Z;
  external_links_count : Z;
  keyword_frequencies : Py.dict Z;
  entities : list (Py.dict string);
  raw_html : string;
  headers : Py.dict string
}.

(** [AnalyzedPage.__init__] *)
Definition AnalyzedPage_init : AnalyzedPage :=
  {| url := ""; canonical_url := None; status_code := 0;
     title := None; title_length := 0;
     meta_description := None; meta_description_length := 0;
     meta_robots := None; canonical_tag := None;
     is_indexable := true; is_canonical := true;
     h1_tags := []; h2_tags := []; h3_tags := [];
     h4_tags := []; h5_tags := []; h6_tags := [];
     word_count := 0; content_text := ""; reading_time_seconds := 0;
     text_html_ratio := 0%Q; language := None;
     load_time_ms := 0; page_size_bytes := 0;
     is_https := false; has_viewport_meta := false;
     has_schema_markup := false; schema_types := [];
     structured_data := [];
     has_open_graph := false; open_graph_data := [];
     has_twitter_card := false; twitter_card_data := [];
     has_hreflang := false;
     total_images := 0; images_missing_alt := 0; images_with_alt := 0;
     internal_links := []; external_links := [];
     internal_links_count := 0; external_links_count := 0;
     keyword_frequencies := []; entities := [];
     raw_html := ""; headers := [] |}.

(** What the analyzer asks of the parsed document ([BeautifulSoup(html,
    "lxml")]): each field is the answer to one query of the source. *)
Record Anchor : Type := {
  a_href : string;             (* tag.get("href", "") *)
  a_text : string;             (* tag.get_text(strip=True) *)
  a_rel : list string          (* tag.get("rel", []) *)
}.

Record Soup : Type := {
  (* soup.find("title").string; None without a tag or a single string *)
  title_string : option string;
  (* content of the first <meta name~"description">, when present *)
  meta_description_content : option string;
  (* content of the first <meta name~"robots">, when present *)
  meta_robots_content : option string;
  (* href of the first <link rel="canonical">, when present *)
  canonical_href : option string;
  (* lang of the <html> tag, when present *)
  html_lang : option string;
  (* len(soup.find_all("link", attrs={"hreflang": True})) *)
  hreflang_tags : Z;
  (* [tag.get_text(strip=True) for tag in soup.find_all(f"h{level}")] *)
  heading_texts : Z -> list string;
  (* soup.get_text() *)
  get_text : string;
  (* [img.get("alt", None) for img in soup.find_all("img")] *)
  img_alts : list (option string);
  (* soup.find_all("a", href=True) *)
  anchors : list Anchor;
  (* (property, content) of the <meta property~"^og:"> tags *)
  og_metas : list (string * string);
  (* (name, content) of the <meta name~"^twitter:"> tags *)
  twitter_metas : list (string * string);
  (* soup.find("meta", attrs={"name": re.compile("viewport", re.I)})
     is not None *)
  viewport_meta : bool
}.

(** The libraries the analyzer calls. *)
Record Libs : Type := {
  BeautifulSoup : string -> Soup;
  (* trafilatura.extract(raw_html, include_comments=False,
     include_tables=True); None or the extracted text *)
  trafilatura_extract : string -> option string;
  (* extruct.extract(raw_html, base_url=..., syntaxes=[...], uniform=True);
     None when it raises *)
  extruct_extract : string -> string -> option (Py.dict (list json));
  urljoin : string -> string -> string;
  urlparse_scheme : string -> string;
  urlparse_netloc : string -> string
}.

(** [s.replace(old, new)] for a non-empty [old]. *)
Fixpoint replace_aux (old new : string) (skip : nat) (s : string) : string :=
  match s with
  | EmptyString => EmptyString
  | String c s' =>
      match skip with
      | S k => replace_aux old new k s'
      | O =>
          if String.prefix old s
          then String.append new
                 (replace_aux old new (String.length old - 1) s')
          else String c (replace_aux old new 0 s')
      end
  end.

Definition replace (old new s : string) : string := replace_aux old new 0 s.

(** *** [_extract_basic_seo] *)
Definition _extract_basic_seo (page : AnalyzedPage) (soup : Soup)
    (page_url : string) : AnalyzedPage :=
  let new_title :=
    if Py.truthy_opt soup.(title_string)
    then option_map (fun s => Py.take 512 (Py.strip s)) soup.(title_string)
    else None in
  let new_desc :=
    if Py.truthy_opt soup.(meta_description_content)
    then option_map Py.strip soup.(meta_description_content)
    else None in
  let new_robots :=
    if Py.truthy_opt soup.(meta_robots_content)
    then option_map (fun s => Py.strip (Py.lower s))
           soup.(meta_robots_content)
    else None in
  let new_canonical :=
    if Py.truthy_opt soup.(canonical_href)
    then option_map Py.strip soup.(canonical_href)
    else None in
  let new_lang :=
    if Py.truthy_opt soup.(html_lang)
    then option_map (Py.take 10) soup.(html_lang)
    else None in
  let set {A B} (f : A -> B) (new : option A) (old : B) : B :=
    match new with Some x => f x | None => old end in
  let indexable (r : string) : bool := negb (Py.contains "noindex" r) in
  let canonical_flag (c : string) : bool :=
    if Py.truthy c && negb (String.eqb c page_url) then false
    else page.(is_canonical) in
  let old_desc_length := page.(meta_description_length) in
  {| url := page.(url);
     canonical_url := set Some new_canonical page.(canonical_url);
     status_code := page.(status_code);
     title := set Some new_title page.(title);
     title_length := set Py.len new_title page.(title_length);
     meta_description := set Some new_desc page.(meta_description);
     meta_description_length := set Py.len new_desc old_desc_length;
     meta_robots := set Some new_robots page.(meta_robots);
     canonical_tag := set Some new_canonical page.(canonical_tag);
     is_indexable := set indexable new_robots page.(is_indexable);
     is_canonical := set canonical_flag new_canonical page.(is_canonical);
     h1_tags := page.(h1_tags); h2_tags := page.(h2_tags);
     h3_tags := page.(h3_tags); h4_tags := page.(h4_tags);
     h5_tags := page.(h5_tags); h6_tags := page.(h6_tags);
     word_count := page.(word_count); content_text := page.(content_text);
     reading_time_seconds := page.(reading_time_seconds);
     text_html_ratio := page.(text_html_ratio);
     language := set Some new_lang page.(language);
     load_time_ms := page.(load_time_ms);
     page_size_bytes := page.(page_size_bytes); is_https := page.(is_https);
     has_viewport_meta := page.(has_viewport_meta);
     has_schema_markup := page.(has_schema_markup);
     schema_types := page.(schema_types);
     structured_data := page.(structured_data);
     has_open_graph := page.(has_open_graph);
     open_graph_data := page.(open_graph_data);
     has_twitter_card := page.(has_twitter_card);
     twitter_card_data := page.(twitter_card_data);
     has_hreflang := 0 <? soup.(hreflang_tags);
     total_images := page.(total_images);
     images_missing_alt := page.(images_missing_alt);
     images_with_alt := page.(images_with_alt);
     internal_links := page.(internal_links);
     external_links := page.(external_links);
     internal_links_count := page.(internal_links_count);
     external_links_count := page.(external_links_count);
     keyword_frequencies := page.(keyword_frequencies);
     entities := page.(entities); raw_html := page.(raw_html);
     headers := page.(headers) |}.

(** *** [_extract_headings] *)
Definition heading_level (soup : Soup) (level : Z) : list string :=
  map (Py.take 255)
    (List.filter (fun t => Py.truthy t) (soup.(heading_texts) level)).

Definition _extract_headings (page : AnalyzedPage) (soup : Soup)
    : AnalyzedPage :=
  {| url := page.(url); canonical_url := page.(canonical_url);
     status_code := page.(status_code); title := page.(title);
     title_length := page.(title_length);
     meta_description := page.(meta_description);
     meta_description_length := page.(meta_description_length);
     meta_robots := page.(meta_robots);
     canonical_tag := page.(canonical_tag);
     is_indexable := page.(is_indexable);
     is_canonical := page.(is_canonical); h1_tags := heading_level soup 1;
     h2_tags := heading_level soup 2; h3_tags := heading_level soup 3;
     h4_tags := heading_level soup 4; h5_tags := heading_level soup 5;
     h6_tags := heading_level soup 6; word_count := page.(word_count);
     content_text := page.(content_text);
     reading_time_seconds := page.(reading_time_seconds);
     text_html_ratio := page.(text_html_ratio); language := page.(language);
     load_time_ms := page.(load_time_ms);
     page_size_bytes := page.(page_size_bytes); is_https := page.(is_https);
     has_viewport_meta := page.(has_viewport_meta);
     has_schema_markup := page.(has_schema_markup);
     schema_types := page.(schema_types);
     structured_data := page.(structured_data);
     has_open_graph := page.(has_open_graph);
     open_graph_data := page.(open_graph_data);
     has_twitter_card := page.(has_twitter_card);
     twitter_card_data := page.(twitter_card_data);
     has_hreflang := page.(has_hreflang);
     total_images := page.(total_images);
     images_missing_alt := page.(images_missing_alt);
     images_with_alt := page.(images_with_alt);
     internal_links := page.(internal_links);
     external_links := page.(external_links);
     internal_links_count := page.(internal_links_count);
     external_links_count := page.(external_links_count);
     keyword_frequencies := page.(keyword_frequencies);
     entities := page.(entities); raw_html := page.(raw_html);
     headers := page.(headers) |}.

(** *** [_extract_content] *)

(** Binary64 arithmetic of [int((page.word_count / 225) * 60)]. *)
Definition float_of_int (n : Z) : spec_float :=
  binary_normalize 53 1024 n 0 false.
Definition float_div (x y : spec_float) : spec_float := SFdiv 53 1024 x y.
Definition float_mul (x y : spec_float) : spec_float := SFmul 53 1024 x y.

(** [int(x)]: truncation toward zero (the argument is finite here). *)
Definition int_of_float (x : spec_float) : Z :=
  match x with
  | S754_finite s m e =>
      let v := if 0 <=? e then Z.pos m * 2 ^ e else Z.pos m / 2 ^ (- e) in
      if s then - v else v
  | _ => 0
  end.

(** [max(1, int((word_count / 225) * 60))] *)
Definition reading_time (wc : Z) : Z :=
  Z.max 1 (int_of_float
             (float_mul (float_div (float_of_int wc) (float_of_int 225))
                        (float_of_int 60))).

Definition _extract_content (L : Libs) (page : AnalyzedPage) (soup : Soup)
    (raw : string) : AnalyzedPage :=
  let extracted := L.(trafilatura_extract) raw in
  let has_text := Py.truthy_opt extracted in
  let wc := match extracted with
            | Some e => Z.of_nat (length (Py.split e))
            | None => 0
            end in
  let html_length := Py.len raw in
  let text_length := Py.len soup.(get_text) in
  let ratio := (inject_Z text_length / inject_Z html_length)%Q in
  let keep {A} (cond : bool) (new old : A) : A := if cond then new else old in
  let rounded := Py.round_digits ratio 3 in
  let old_time := page.(reading_time_seconds) in
  let old_ratio := page.(text_html_ratio) in
  {| url := page.(url); canonical_url := page.(canonical_url);
     status_code := page.(status_code); title := page.(title);
     title_length := page.(title_length);
     meta_description := page.(meta_description);
     meta_description_length := page.(meta_description_length);
     meta_robots := page.(meta_robots);
     canonical_tag := page.(canonical_tag);
     is_indexable := page.(is_indexable);
     is_canonical := page.(is_canonical); h1_tags := page.(h1_tags);
     h2_tags := page.(h2_tags); h3_tags := page.(h3_tags);
     h4_tags := page.(h4_tags); h5_tags := page.(h5_tags);
     h6_tags := page.(h6_tags);
     word_count := keep has_text wc page.(word_count);
     content_text := keep has_text (default "" extracted) page.(content_text);
     reading_time_seconds := keep has_text (reading_time wc) old_time;
     text_html_ratio := keep (0 <? html_length) rounded old_ratio;
     language := page.(language); load_time_ms := page.(load_time_ms);
     page_size_bytes := page.(page_size_bytes); is_https := page.(is_https);
     has_viewport_meta := page.(has_viewport_meta);
     has_schema_markup := page.(has_schema_markup);
     schema_types := page.(schema_types);
     structured_data := page.(structured_data);
     has_open_graph := page.(has_open_graph);
     open_graph_data := page.(open_graph_data);
     has_twitter_card := page.(has_twitter_card);
     twitter_card_data := page.(twitter_card_data);
     has_hreflang := page.(has_hreflang);
     total_images := page.(total_images);
     images_missing_alt := page.(images_missing_alt);
     images_with_alt := page.(images_with_alt);
     internal_links := page.(internal_links);
     external_links := page.(external_links);
     internal_links_count := page.(internal_links_count);
     external_links_count := page.(external_links_count);
     keyword_frequencies := page.(keyword_frequencies);
     entities := page.(entities); raw_html := page.(raw_html);
     headers := page.(headers) |}.

(** *** [_extract_images] *)
Definition alt_missing (alt : option string) : bool :=
  match alt with
  | None => true
  | Some a => String.eqb (Py.strip a) ""
  end.

Definition _extract_images (page : AnalyzedPage) (soup : Soup)
    : AnalyzedPage :=
  let images := soup.(img_alts) in
  let count (p : option string -> bool) : Z :=
    Z.of_nat (length (List.filter p images)) in
  {| url := page.(url); canonical_url := page.(canonical_url);
     status_code := page.(status_code); title := page.(title);
     title_length := page.(title_length);
     meta_description := page.(meta_description);
     meta_description_length := page.(meta_description_length);
     meta_robots := page.(meta_robots);
     canonical_tag := page.(canonical_tag);
     is_indexable := page.(is_indexable);
     is_canonical := page.(is_canonical); h1_tags := page.(h1_tags);
     h2_tags := page.(h2_tags); h3_tags := page.(h3_tags);
     h4_tags := page.(h4_tags); h5_tags := page.(h5_tags);
     h6_tags := page.(h6_tags); word_count := page.(word_count);
     content_text := page.(content_text);
     reading_time_seconds := page.(reading_time_seconds);
     text_html_ratio := page.(text_html_ratio); language := page.(language);
     load_time_ms := page.(load_time_ms);
     page_size_bytes := page.(page_size_bytes); is_https := page.(is_https);
     has_viewport_meta := page.(has_viewport_meta);
     has_schema_markup := page.(has_schema_markup);
     schema_types := page.(schema_types);
     structured_data := page.(structured_data);
     has_open_graph := page.(has_open_graph);
     open_graph_data := page.(open_graph_data);
     has_twitter_card := page.(has_twitter_card);
     twitter_card_data := page.(twitter_card_data);
     has_hreflang := page.(has_hreflang);
     total_images := Z.of_nat (length images);
     images_missing_alt := count alt_missing;
     images_with_alt := count (fun a => negb (alt_missing a));
     internal_links := page.(internal_links);
     external_links := page.(external_links);
     internal_links_count := page.(internal_links_count);
     external_links_count := page.(external_links_count);
     keyword_frequencies := page.(keyword_frequencies);
     entities := page.(entities); raw_html := page.(raw_html);
     headers := page.(headers) |}.

(** *** [_extract_links] *)
Definition skipped_href (href : string) : bool :=
  negb (Py.truthy href) || Py.startswith "#" href
  || Py.startswith "mailto:" href || Py.startswith "tel:" href.

Definition link_of_anchor (L : Libs) (page_url : string) (tag : Anchor)
    : option LinkData :=
  let base_netloc := replace "www." "" (L.(urlparse_netloc) page_url) in
  let href := Py.strip tag.(a_href) in
  if skipped_href href then None
  else
    let absolute_url := L.(urljoin) page_url href in
    let scheme := L.(urlparse_scheme) absolute_url in
    if negb (Py.mem scheme ["http"; "https"]) then None
    else
      let target_netloc :=
        replace "www." "" (L.(urlparse_netloc) absolute_url) in
      Some {| link_url := absolute_url;
              anchor_text := Py.take 255 tag.(a_text);
              is_nofollow := Py.mem "nofollow" tag.(a_rel);
              is_internal := String.eqb target_netloc base_netloc |}.

Definition _extract_links (L : Libs) (page : AnalyzedPage) (soup : Soup)
    (page_url : string) : AnalyzedPage :=
  let links : list LinkData :=
    omap (link_of_anchor L page_url) soup.(anchors) in
  let internal :=
    app page.(internal_links) (List.filter (fun l => l.(is_internal)) links) in
  let external :=
    app page.(external_links)
        (List.filter (fun l => negb l.(is_internal)) links) in
  {| url := page.(url); canonical_url := page.(canonical_url);
     status_code := page.(status_code); title := page.(title);
     title_length := page.(title_length);
     meta_description := page.(meta_description);
     meta_description_length := page.(meta_description_length);
     meta_robots := page.(meta_robots);
     canonical_tag := page.(canonical_tag);
     is_indexable := page.(is_indexable);
     is_canonical := page.(is_canonical); h1_tags := page.(h1_tags);
     h2_tags := page.(h2_tags); h3_tags := page.(h3_tags);
     h4_tags := page.(h4_tags); h5_tags := page.(h5_tags);
     h6_tags := page.(h6_tags); word_count := page.(word_count);
     content_text := page.(content_text);
     reading_time_seconds := page.(reading_time_seconds);
     text_html_ratio := page.(text_html_ratio); language := page.(language);
     load_time_ms := page.(load_time_ms);
     page_size_bytes := page.(page_size_bytes); is_https := page.(is_https);
     has_viewport_meta := page.(has_viewport_meta);
     has_schema_markup := page.(has_schema_markup);
     schema_types := page.(schema_types);
     structured_data := page.(structured_data);
     has_open_graph := page.(has_open_graph);
     open_graph_data := page.(open_graph_data);
     has_twitter_card := page.(has_twitter_card);
     twitter_card_data := page.(twitter_card_data);
     has_hreflang := page.(has_hreflang);
     total_images := page.(total_images);
     images_missing_alt := page.(images_missing_alt);
     images_with_alt := page.(images_with_alt); internal_links := internal;
     external_links := external;
     internal_links_count := Z.of_nat (length internal);
     external_links_count := Z.of_nat (length external);
     keyword_frequencies := page.(keyword_frequencies);
     entities := page.(entities); raw_html := page.(raw_html);
     headers := page.(headers) |}.

(** *** [_extract_structured_data] *)
Definition data_get (data : Py.dict (list json)) (k : string) : list json :=
  match Py.dict_get data k with Some l => l | None => [] end.

Definition hashable (j : json) : bool :=
  match j with JList _ | JDict _ => false | _ => true end.

Definition json_truthy (j : json) : bool :=
  match j with
  | JNull => false
  | JBool b => b
  | JNum n => negb (n =? 0)
  | JStr s => Py.truthy s
  | JList l => match l with [] => false | _ => true end
  | JDict d => match d with [] => false | _ => true end
  end.

Definition strings_of (l : list json) : list string :=
  omap (fun j => match j with JStr s => Some s | _ => None end) l.

(** The [@type] strings one JSON-LD item adds to [schema_types]; [None]
    when an unhashable value makes the set operation raise. *)
Definition item_types (item : json) : option (list string) :=
  match item with
  | JDict d =>
      match Py.dict_get d "@type" with
      | None => Some []
      | Some (JList ts) =>
          if forallb hashable ts then Some (strings_of ts) else None
      | Some t =>
          if json_truthy t
          then (if hashable t then Some (strings_of [t]) else None)
          else Some []
      end
  | _ => Some []
  end.

Fixpoint collect_types (items : list json) : option (list string) :=
  match items with
  | [] => Some []
  | i :: rest =>
      match item_types i with
      | None => None
      | Some ts =>
          match collect_types rest with
          | None => None
          | Some ts' => Some (app ts ts')
          end
      end
  end.

Definition nonempty {A} (l : list A) : bool :=
  match l with [] => false | _ => true end.

Definition _extract_structured_data (L : Libs) (page : AnalyzedPage)
    (soup : Soup) (raw page_url : string) : AnalyzedPage :=
  match L.(extruct_extract) raw page_url with
  | None => page
  | Some data =>
      if nonempty (data_get data "json-ld")
         || nonempty (data_get data "microdata")
         || nonempty (data_get data "rdfa")
      then
        let blobs := [ ("json_ld", data_get data "json-ld");
                       ("microdata", data_get data "microdata");
                       ("rdfa", data_get data "rdfa") ] in
        let types :=
          match collect_types (data_get data "json-ld") with
          | Some ts => List.filter (fun t => Py.mem t ts) SEO_SCHEMA_TYPES
          | None => page.(schema_types)
          end in
        {| url := page.(url); canonical_url := page.(canonical_url);
           status_code := page.(status_code); title := page.(title);
           title_length := page.(title_length);
           meta_description := page.(meta_description);
           meta_description_length := page.(meta_description_length);
           meta_robots := page.(meta_robots);
           canonical_tag := page.(canonical_tag);
           is_indexable := page.(is_indexable);
           is_canonical := page.(is_canonical); h1_tags := page.(h1_tags);
           h2_tags := page.(h2_tags); h3_tags := page.(h3_tags);
           h4_tags := page.(h4_tags); h5_tags := page.(h5_tags);
           h6_tags := page.(h6_tags); word_count := page.(word_count);
           content_text := page.(content_text);
           reading_time_seconds := page.(reading_time_seconds);
           text_html_ratio := page.(text_html_ratio);
           language := page.(language); load_time_ms := page.(load_time_ms);
           page_size_bytes := page.(page_size_bytes);
           is_https := page.(is_https);
           has_viewport_meta := page.(has_viewport_meta);
           has_schema_markup := true; schema_types := types;
           structured_data := blobs; has_open_graph := page.(has_open_graph);
           open_graph_data := page.(open_graph_data);
           has_twitter_card := page.(has_twitter_card);
           twitter_card_data := page.(twitter_card_data);
           has_hreflang := page.(has_hreflang);
           total_images := page.(total_images);
           images_missing_alt := page.(images_missing_alt);
           images_with_alt := page.(images_with_alt);
           internal_links := page.(internal_links);
           external_links := page.(external_links);
           internal_links_count := page.(internal_links_count);
           external_links_count := page.(external_links_count);
           keyword_frequencies := page.(keyword_frequencies);
           entities := page.(entities); raw_html := page.(raw_html);
           headers := page.(headers) |}
      else page
  end.

(** *** [_extract_social_meta] *)
Definition meta_dict (prefix : string) (metas : list (string * string))
    : Py.dict string :=
  fold_left
    (fun d pc =>
       let prop := replace prefix "" (fst pc) in
       if Py.truthy prop && Py.truthy (snd pc)
       then Py.dict_set d prop (snd pc) else d)
    metas [].

Definition _extract_social_meta (page : AnalyzedPage) (soup : Soup)
    : AnalyzedPage :=
  let og_data := meta_dict "og:" soup.(og_metas) in
  let twitter_data := meta_dict "twitter:" soup.(twitter_metas) in
  let keep {A} (cond : bool) (new old : A) : A := if cond then new else old in
  let og := nonempty og_data in
  let tw := nonempty twitter_data in
  {| url := page.(url); canonical_url := page.(canonical_url);
     status_code := page.(status_code); title := page.(title);
     title_length := page.(title_length);
     meta_description := page.(meta_description);
     meta_description_length := page.(meta_description_length);
     meta_robots := page.(meta_robots);
     canonical_tag := page.(canonical_tag);
     is_indexable := page.(is_indexable);
     is_canonical := page.(is_canonical); h1_tags := page.(h1_tags);
     h2_tags := page.(h2_tags); h3_tags := page.(h3_tags);
     h4_tags := page.(h4_tags); h5_tags := page.(h5_tags);
     h6_tags := page.(h6_tags); word_count := page.(word_count);
     content_text := page.(content_text);
     reading_time_seconds := page.(reading_time_seconds);
     text_html_ratio := page.(text_html_ratio); language := page.(language);
     load_time_ms := page.(load_time_ms);
     page_size_bytes := page.(page_size_bytes); is_https := page.(is_https);
     has_viewport_meta := page.(has_viewport_meta);
     has_schema_markup := page.(has_schema_markup);
     schema_types := page.(schema_types);
     structured_data := page.(structured_data);
     has_open_graph := keep og true page.(has_open_graph);
     open_graph_data := keep og og_data page.(open_graph_data);
     has_twitter_card := keep tw true page.(has_twitter_card);
     twitter_card_data := keep tw twitter_data page.(twitter_card_data);
     has_hreflang := page.(has_hreflang);
     total_images := page.(total_images);
     images_missing_alt := page.(images_missing_alt);
     images_with_alt := page.(images_with_alt);
     internal_links := page.(internal_links);
     external_links := page.(external_links);
     internal_links_count := page.(internal_links_count);
     external_links_count := page.(external_links_count);
     keyword_frequencies := page.(keyword_frequencies);
     entities := page.(entities); raw_html := page.(raw_html);
     headers := page.(headers) |}.

(** *** [_extract_technical_signals] *)
Definition _extract_technical_signals (page : AnalyzedPage) (soup : Soup)
    : AnalyzedPage :=
  {| url := page.(url); canonical_url := page.(canonical_url);
     status_code := page.(status_code); title := page.(title);
     title_length := page.(title_length);
     meta_description := page.(meta_description);
     meta_description_length := page.(meta_description_length);
     meta_robots := page.(meta_robots);
     canonical_tag := page.(canonical_tag);
     is_indexable := page.(is_indexable);
     is_canonical := page.(is_canonical); h1_tags := page.(h1_tags);
     h2_tags := page.(h2_tags); h3_tags := page.(h3_tags);
     h4_tags := page.(h4_tags); h5_tags := page.(h5_tags);
     h6_tags := page.(h6_tags); word_count := page.(word_count);
     content_text := page.(content_text);
     reading_time_seconds := page.(reading_time_seconds);
     text_html_ratio := page.(text_html_ratio); language := page.(language);
     load_time_ms := page.(load_time_ms);
     page_size_bytes := page.(page_size_bytes); is_https := page.(is_https);
     has_viewport_meta := soup.(viewport_meta);
     has_schema_markup := page.(has_schema_markup);
     schema_types := page.(schema_types);
     structured_data := page.(structured_data);
     has_open_graph := page.(has_open_graph);
     open_graph_data := page.(open_graph_data);
     has_twitter_card := page.(has_twitter_card);
     twitter_card_data := page.(twitter_card_data);
     has_hreflang := page.(has_hreflang);
     total_images := page.(total_images);
     images_missing_alt := page.(images_missing_alt);
     images_with_alt := page.(images_with_alt);
     internal_links := page.(internal_links);
     external_links := page.(external_links);
     internal_links_count := page.(internal_links_count);
     external_links_count := page.(external_links_count);
     keyword_frequencies := page.(keyword_frequencies);
     entities := page.(entities); raw_html := page.(raw_html);
     headers := page.(headers) |}.

(** *** [_compute_keyword_frequencies] *)

(** [re.sub(r"[^a-z0-9\s\-']", " ", text)] *)
Definition keeps (c : ascii) : bool :=
  Py.is_lower c || Py.is_digit c || Py.is_space c
  || Ascii.eqb c "-" || Ascii.eqb c "'".

Definition clean (text : string) : string :=
  Py.str (map (fun c => if keeps c then c else " "%char) (Py.chars text)).

(** [t.strip("'-")] *)
Definition strip_quotes (t : string) : string :=
  Py.strip_by (fun c => Ascii.eqb c "'" || Ascii.eqb c "-") t.

(** [[t.strip("'-") for t in tokens
      if len(t) > 2 and t not in STOP_WORDS and t.strip("'-")]] *)
Definition meaningful (tokens : list string) : list string :=
  map strip_quotes
    (List.filter (fun t => (2 <? Py.len t) && negb (Py.mem t STOP_WORDS)
                      && Py.truthy (strip_quotes t)) tokens).

(** [[f"{ts[i]} {ts[i+1]}" for i in range(len(ts) - 1)]] *)
Fixpoint bigrams_of (ts : list string) : list string :=
  match ts with
  | a :: ((b :: _) as rest) =>
      String.append a (String.append " " b) :: bigrams_of rest
  | _ => []
  end.

Definition combine_counts (unigram_counts bigram_counts : Py.dict Z)
    : Py.dict Z :=
  let combined :=
    fold_left (fun d tc => Py.dict_set d (fst tc) (snd tc))
      (Py.most_common 150 unigram_counts) [] in
  fold_left
    (fun d tc => if 2 <=? snd tc then Py.dict_set d (fst tc) (snd tc) else d)
    (Py.most_common 50 bigram_counts) combined.

Definition keyword_frequencies_of (content : string) : Py.dict Z :=
  let tokens := Py.split (clean (Py.lower content)) in
  let meaningful_tokens := meaningful tokens in
  combine_counts (Py.Counter meaningful_tokens)
                 (Py.Counter (bigrams_of meaningful_tokens)).

Definition _compute_keyword_frequencies (page : AnalyzedPage) : AnalyzedPage :=
  if negb (Py.truthy page.(content_text)) then page
  else
    {| url := page.(url); canonical_url := page.(canonical_url);
       status_code := page.(status_code); title := page.(title);
       title_length := page.(title_length);
       meta_description := page.(meta_description);
       meta_description_length := page.(meta_description_length);
       meta_robots := page.(meta_robots);
       canonical_tag := page.(canonical_tag);
       is_indexable := page.(is_indexable);
       is_canonical := page.(is_canonical); h1_tags := page.(h1_tags);
       h2_tags := page.(h2_tags); h3_tags := page.(h3_tags);
       h4_tags := page.(h4_tags); h5_tags := page.(h5_tags);
       h6_tags := page.(h6_tags); word_count := page.(word_count);
       content_text := page.(content_text);
       reading_time_seconds := page.(reading_time_seconds);
       text_html_ratio := page.(text_html_ratio);
       language := page.(language); load_time_ms := page.(load_time_ms);
       page_size_bytes := page.(page_size_bytes);
       is_https := page.(is_https);
       has_viewport_meta := page.(has_viewport_meta);
       has_schema_markup := page.(has_schema_markup);
       schema_types := page.(schema_types);
       structured_data := page.(structured_data);
       has_open_graph := page.(has_open_graph);
       open_graph_data := page.(open_graph_data);
       has_twitter_card := page.(has_twitter_card);
       twitter_card_data := page.(twitter_card_data);
       has_hreflang := page.(has_hreflang);
       total_images := page.(total_images);
       images_missing_alt := page.(images_missing_alt);
       images_with_alt := page.(images_with_alt);
       internal_links := page.(internal_links);
       external_links := page.(external_links);
       internal_links_count := page.(internal_links_count);
       external_links_count := page.(external_links_count);
       keyword_frequencies := keyword_frequencies_of page.(content_text);
       entities := page.(entities); raw_html := page.(raw_html);
       headers := page.(headers) |}.

(** *** [SEOAnalyzer.analyze] *)
Definition analyze (L : Libs) (crawl_result : Fetch.CrawlResult)
    : AnalyzedPage :=
  let page :=
    {| url := crawl_result.(Fetch.url);
       canonical_url := AnalyzedPage_init.(canonical_url);
       status_code := crawl_result.(Fetch.status_code);
       title := AnalyzedPage_init.(title);
       title_length := AnalyzedPage_init.(title_length);
       meta_description := AnalyzedPage_init.(meta_description);
       meta_description_length := AnalyzedPage_init.(meta_description_length);
       meta_robots := AnalyzedPage_init.(meta_robots);
       canonical_tag := AnalyzedPage_init.(canonical_tag);
       is_indexable := AnalyzedPage_init.(is_indexable);
       is_canonical := AnalyzedPage_init.(is_canonical);
       h1_tags := AnalyzedPage_init.(h1_tags);
       h2_tags := AnalyzedPage_init.(h2_tags);
       h3_tags := AnalyzedPage_init.(h3_tags);
       h4_tags := AnalyzedPage_init.(h4_tags);
       h5_tags := AnalyzedPage_init.(h5_tags);
       h6_tags := AnalyzedPage_init.(h6_tags);
       word_count := AnalyzedPage_init.(word_count);
       content_text := AnalyzedPage_init.(content_text);
       reading_time_seconds := AnalyzedPage_init.(reading_time_seconds);
       text_html_ratio := AnalyzedPage_init.(text_html_ratio);
       language := AnalyzedPage_init.(language);
       load_time_ms := crawl_result.(Fetch.load_time_ms);
       page_size_bytes := crawl_result.(Fetch.page_size_bytes);
       is_https := Py.startswith "https://" crawl_result.(Fetch.url);
       has_viewport_meta := AnalyzedPage_init.(has_viewport_meta);
       has_schema_markup := AnalyzedPage_init.(has_schema_markup);
       schema_types := AnalyzedPage_init.(schema_types);
       structured_data := AnalyzedPage_init.(structured_data);
       has_open_graph := AnalyzedPage_init.(has_open_graph);
       open_graph_data := AnalyzedPage_init.(open_graph_data);
       has_twitter_card := AnalyzedPage_init.(has_twitter_card);
       twitter_card_data := AnalyzedPage_init.(twitter_card_data);
       has_hreflang := AnalyzedPage_init.(has_hreflang);
       total_images := AnalyzedPage_init.(total_images);
       images_missing_alt := AnalyzedPage_init.(images_missing_alt);
       images_with_alt := AnalyzedPage_init.(images_with_alt);
       internal_links := AnalyzedPage_init.(internal_links);
       external_links := AnalyzedPage_init.(external_links);
       internal_links_count := AnalyzedPage_init.(internal_links_count);
       external_links_count := AnalyzedPage_init.(external_links_count);
       keyword_frequencies := AnalyzedPage_init.(keyword_frequencies);
       entities := AnalyzedPage_init.(entities);
       raw_html := crawl_result.(Fetch.html);
       headers := crawl_result.(Fetch.headers) |} in
  if negb (Py.truthy crawl_result.(Fetch.html)) then page
  else
    let soup := L.(BeautifulSoup) crawl_result.(Fetch.html) in
    let page := _extract_basic_seo page soup crawl_result.(Fetch.final_url) in
    let page := _extract_headings page soup in
    let page := _extract_content L page soup crawl_result.(Fetch.html) in
    let page := _extract_images page soup in
    let page := _extract_links L page soup crawl_result.(Fetch.final_url) in
    let page := _extract_structured_data L page soup crawl_result.(Fetch.html)
                  crawl_result.(Fetch.final_url) in
    let page := _extract_social_meta page soup in
    let page := _extract_technical_signals page soup in
    _compute_keyword_frequencies page.

(** *** The wording of the specification, for comparison *)

(** [max(1, round(word_count/225 * 60))] *)
Definition spec_reading_time (wc : Z) : Z :=
  Z.max 1 (Py.round_half_even (inject_Z wc / 225 * 60)%Q).

(** Strip the quotes and hyphens of each token first, then drop the tokens
    of length at most 2 and the stop words. *)
Definition spec_meaningful (tokens : list string) : list string :=
  List.filter (fun t => (2 <? Py.len t) && negb (Py.mem t STOP_WORDS))
    (map strip_quotes tokens).

Definition spec_keyword_frequencies (content : string) : Py.dict Z :=
  let tokens := Py.split (clean (Py.lower content)) in
  let meaningful_tokens := spec_meaningful tokens in
  combine_counts (Py.Counter meaningful_tokens)
                 (Py.Counter (bigrams_of meaningful_tokens)).

End Analyzer.

(** ** core/config.py: the settings the core reads (default values) *)

Module Config.

Local Open Scope string_scope.

Record Settings : Type := {
  CRAWLER_MAX_CONCURRENT : Z;
  CRAWLER_USER_AGENT : string;
  SCORE_TECHNICAL_WEIGHT : Q;
  SCORE_CONTENT_WEIGHT : Q;
  SCORE_AUTHORITY_WEIGHT : Q;
  SCORE_LINKING_WEIGHT : Q;
  SCORE_AI_VISIBILITY_WEIGHT : Q
}.

Definition settings : Settings :=
  {| CRAWLER_MAX_CONCURRENT := 100;
     CRAWLER_USER_AGENT := "SEOBot/1.0 (+https://yourdomain.com/bot)";
     SCORE_TECHNICAL_WEIGHT := (35 # 100)%Q;
     SCORE_CONTENT_WEIGHT := (30 # 100)%Q;
     SCORE_AUTHORITY_WEIGHT := (20 # 100)%Q;
     SCORE_LINKING_WEIGHT := (10 # 100)%Q;
     SCORE_AI_VISIBILITY_WEIGHT := (5 # 100)%Q |}.

End Config.

(** ** scorer/scorer.py *)

Module Scorer.

Import Analyzer.
Local Open Scope string_scope.
Local Open Scope Z_scope.

(** One entry of a breakdown dictionary: the component's points and its
    maximum (the observed value kept next to them is not modelled). *)
Record Component : Type := { score : Z; max_score : Z }.

Definition Breakdown : Type := Py.dict Component.

Definition entry (d : Breakdown) (k : string) (pts mx : Z) : Breakdown :=
  Py.dict_set d k {| score := pts; max_score := mx |}.

Record PageScore : Type := {
  overall_score : Q;
  technical_score : Q;
  content_score : Q;
  authority_score : Q;
  linking_score : Q;
  ai_visibility_score : Q;
  technical_breakdown : Breakdown;
  content_breakdown : Breakdown;
  linking_breakdown : Breakdown
}.

(** Python's [min(a, b)] and [max(a, b)]: the first argument unless the
    second is strictly smaller (larger). *)
Definition py_min (a b : Q) : Q := if Py.Qltb b a then b else a.
Definition py_max (a b : Q) : Q := if Py.Qltb a b then b else a.

(** [clamp(value, min_val=0.0, max_val=100.0)] *)
Definition clamp_between (value min_val max_val : Q) : Q :=
  py_max min_val (py_min max_val value).

Definition clamp (value : Q) : Q := clamp_between value 0%Q 100%Q.

(** *** [_score_technical] *)
Definition status_pts (sc : Z) : Z :=
  if sc =? 200 then 10
  else if (200 <? sc) && (sc <? 400) then 5 else 0.

Definition load_time_pts (lt : Z) : Z :=
  if lt <=? 1000 then 10
  else if lt <=? 2000 then 7
  else if lt <=? 3000 then 5
  else if lt <=? 5000 then 2
  else 0.

Definition page_size_pts (bytes : Z) : Z :=
  let size_kb := (inject_Z bytes / 1024)%Q in
  if Py.Qltb size_kb 500%Q then 10
  else if Py.Qltb size_kb 1024%Q then 7
  else if Py.Qltb size_kb 2048%Q then 3
  else 0.

Definition flag (b : bool) (pts : Z) : Z := if b then pts else 0.

Definition _score_technical (page : AnalyzedPage) : Q * Breakdown :=
  let https_pts := flag page.(is_https) 10 in
  let status := status_pts page.(status_code) in
  let index_pts := flag page.(is_indexable) 15 in
  let viewport_pts := flag page.(has_viewport_meta) 5 in
  let lt_pts := load_time_pts page.(load_time_ms) in
  let size_pts := page_size_pts page.(page_size_bytes) in
  let canonical_pts := flag (Py.truthy_opt page.(canonical_tag)) 5 in
  let schema_pts := flag page.(has_schema_markup) 10 in
  let og_pts := flag page.(has_open_graph) 5 in
  let tc_pts := flag page.(has_twitter_card) 5 in
  let hl_pts := flag page.(has_hreflang) 5 in
  let total := https_pts + status + index_pts + viewport_pts + lt_pts
               + size_pts + canonical_pts + schema_pts + og_pts + tc_pts
               + hl_pts in
  let b := entry [] "https" https_pts 10 in
  let b := entry b "status_code" status 10 in
  let b := entry b "indexable" index_pts 15 in
  let b := entry b "viewport" viewport_pts 5 in
  let b := entry b "load_time" lt_pts 10 in
  let b := entry b "page_size" size_pts 10 in
  let b := entry b "canonical" canonical_pts 5 in
  let b := entry b "schema_markup" schema_pts 10 in
  let b := entry b "open_graph" og_pts 5 in
  let b := entry b "twitter_card" tc_pts 5 in
  let b := entry b "hreflang" hl_pts 5 in
  let max_possible := 90%Q in
  ((inject_Z total / max_possible * 100)%Q, b).

(** *** [_score_content] *)
Definition title_pts (page : AnalyzedPage) : Z :=
  let n := page.(title_length) in
  if Py.truthy_opt page.(title) then
    if (50 <=? n) && (n <=? 60) then 20
    else if (30 <=? n) && (n <=? 70) then 15
    else if 0 <? n then 8
    else 0
  else 0.

Definition desc_pts (page : AnalyzedPage) : Z :=
  let n := page.(meta_description_length) in
  if Py.truthy_opt page.(meta_description) then
    if (150 <=? n) && (n <=? 160) then 15
    else if (100 <=? n) && (n <=? 180) then 10
    else 5
  else 0.

Definition h1_pts (page : AnalyzedPage) : Z :=
  let h1_count := Z.of_nat (length page.(h1_tags)) in
  if h1_count =? 1 then 15 else if 1 <? h1_count then 8 else 0.

Definition h2_pts (page : AnalyzedPage) : Z :=
  let n := Z.of_nat (length page.(h2_tags)) in
  if 2 <=? n then 5 else if n =? 1 then 2 else 0.

Definition word_count_pts (wc : Z) : Z :=
  if 1500 <=? wc then 20
  else if 800 <=? wc then 15
  else if 400 <=? wc then 10
  else if 200 <=? wc then 5
  else 0.

Definition alt_pts (page : AnalyzedPage) : Z :=
  if 0 <? page.(total_images) then
    let alt_ratio :=
      (inject_Z page.(images_with_alt) / inject_Z page.(total_images))%Q in
    Py.round_half_even (alt_ratio * 10)%Q
  else 10.

Definition ratio_pts (ratio : Q) : Z :=
  if Py.Qleb (3 # 10)%Q ratio then 10
  else if Py.Qleb (15 # 100)%Q ratio then 5
  else 0.

Definition _score_content (page : AnalyzedPage) : Q * Breakdown :=
  let t := title_pts page in
  let d := desc_pts page in
  let h1 := h1_pts page in
  let h2 := h2_pts page in
  let wc := word_count_pts page.(word_count) in
  let alt := alt_pts page in
  let r := ratio_pts page.(text_html_ratio) in
  let total := t + d + h1 + h2 + wc + alt + r in
  let b := entry [] "title" t 20 in
  let b := entry b "meta_description" d 15 in
  let b := entry b "h1" h1 15 in
  let b := entry b "h2" h2 5 in
  let b := entry b "word_count" wc 20 in
  let b := entry b "image_alt" alt 10 in
  let b := entry b "text_ratio" r 10 in
  let max_possible := 95%Q in
  ((inject_Z total / max_possible * 100)%Q, b).

(** *** [_score_linking] *)
Definition out_pts (out_count : Z) : Z :=
  if 5 <=? out_count then 30
  else if 2 <=? out_count then 20
  else if 1 <=? out_count then 10
  else 0.

Definition link_quality_pts (out_count : Z) : Z :=
  if (1 <=? out_count) && (out_count <=? 50) then 20
  else if 100 <? out_count then 5
  else 0.

Definition in_pts (inbound_count : Z) : Z :=
  if 10 <=? inbound_count then 50
  else if 5 <=? inbound_count then 35
  else if 2 <=? inbound_count then 20
  else if 1 <=? inbound_count then 10
  else 0.

Definition _score_linking (page : AnalyzedPage) (inbound_count : Z)
    : Q * Breakdown :=
  let out_count := page.(internal_links_count) in
  let o := out_pts out_count in
  let q := link_quality_pts out_count in
  let i := in_pts inbound_count in
  let b := entry [] "outgoing_internal" o 30 in
  let b := entry b "link_count_quality" q 20 in
  let b := entry b "inbound_links" i 50 in
  (inject_Z (o + q + i), b).

(** *** [_score_authority] *)
Definition _score_authority (inbound_link_count : Z) : Q :=
  if 50 <=? inbound_link_count then 90%Q
  else if 20 <=? inbound_link_count then 75%Q
  else if 10 <=? inbound_link_count then 60%Q
  else if 5 <=? inbound_link_count then 45%Q
  else if 2 <=? inbound_link_count then 30%Q
  else if 1 <=? inbound_link_count then 15%Q
  else 5%Q.

(** *** [_score_ai_visibility] *)
Definition high_value_schemas : list string :=
  [ "FAQPage"; "HowTo"; "Article"; "Product"; "LocalBusiness" ].

(** [len(set(page.schema_types) & high_value_schemas)] *)
Definition matching (schema_types : list string) : Z :=
  Z.of_nat
    (length (List.filter (fun h => Py.mem h schema_types) high_value_schemas)).

Definition _score_ai_visibility (page : AnalyzedPage) : Q :=
  let schema :=
    if page.(has_schema_markup)
    then 40 + matching page.(schema_types) * 10 else 0 in
  let h1 := flag (Z.of_nat (length page.(h1_tags)) =? 1) 15 in
  let h2 := flag (2 <=? Z.of_nat (length page.(h2_tags))) 15 in
  let og := flag page.(has_open_graph) 10 in
  let wc := flag (1000 <=? page.(word_count)) 10 in
  clamp (inject_Z (schema + h1 + h2 + og + wc)).

(** *** [score_page] *)
Definition weighted (S : Config.Settings) (t c a l v : Q) : Q :=
  (t * S.(Config.SCORE_TECHNICAL_WEIGHT)
   + c * S.(Config.SCORE_CONTENT_WEIGHT)
   + a * S.(Config.SCORE_AUTHORITY_WEIGHT)
   + l * S.(Config.SCORE_LINKING_WEIGHT)
   + v * S.(Config.SCORE_AI_VISIBILITY_WEIGHT))%Q.

Definition score_page (page : AnalyzedPage) (inbound_link_count : Z)
    : PageScore :=
  let '(tech_score, tech_breakdown) := _score_technical page in
  let '(content, content_bd) := _score_content page in
  let '(linking, linking_bd) := _score_linking page inbound_link_count in
  let authority := _score_authority inbound_link_count in
  let ai_score := _score_ai_visibility page in
  let t := clamp tech_score in
  let c := clamp content in
  let a := clamp authority in
  let l := clamp linking in
  let v := clamp ai_score in
  {| overall_score := clamp (weighted Config.settings t c a l v);
     technical_score := t;
     content_score := c;
     authority_score := a;
     linking_score := l;
     ai_visibility_score := v;
     technical_breakdown := tech_breakdown;
     content_breakdown := content_bd;
     linking_breakdown := linking_bd |}.

(** The weighted sum of the five dimensions as the specification writes
    it. *)
Definition claimed_overall (s : PageScore) : Q :=
  ((35 # 100) * s.(technical_score) + (30 # 100) * s.(content_score)
   + (20 # 100) * s.(authority_score) + (10 # 100) * s.(linking_score)
   + (5 # 100) * s.(ai_visibility_score))%Q.

End Scorer.

(** ** keyword_engine/engine.py *)

Module KeywordEngine.

Local Open Scope R_scope.

(** [math.log1p] *)
Definition log1p (x : R) : R := ln (1 + x).

(** [round(x)] on a real: nearest integer, ties to even. *)
Definition round_half_even (x : R) : Z :=
  let f := Int_part x in
  let r := frac_part x in
  if Rlt_dec r (1 / 2) then f
  else if Rlt_dec (1 / 2) r then (f + 1)%Z
  else if Z.even f then f else (f + 1)%Z.

(** [round(x, 2)] *)
Definition round2 (x : R) : R := IZR (round_half_even (x * 100)) / 100.

(** [x / y]; [None] stands for [ZeroDivisionError]. *)
Definition divide (x y : R) : option R :=
  if Req_EM_T y 0 then None else Some (x / y).

(** The divisor after [if difficulty <= 0: difficulty = 1.0]. *)
Definition effective_difficulty (difficulty : R) : R :=
  if Rle_dec difficulty 0 then 1 else difficulty.

(** [min(100.0, x)] *)
Definition min_100 (x : R) : R := if Rlt_dec x 100 then x else 100.

Definition compute_opportunity_score
    (volume : Z) (ctr : R) (rank_gap : Z) (difficulty : R) : option R :=
  let difficulty := effective_difficulty difficulty in
  if (volume <=? 0)%Z then Some 0
  else if Rle_dec ctr 0 then Some 0
  else if (rank_gap <=? 0)%Z then Some 0
  else
    match divide (IZR volume * ctr * IZR rank_gap) difficulty with
    | None => None
    | Some raw_score =>
        let normalized := min_100 (log1p raw_score * 8) in
        Some (round2 normalized)
    end.

(** The normalisation applied to a raw score. *)
Definition normalize (raw : R) : R := round2 (min_100 (log1p raw * 8)).

(** The raw score [volume * ctr * rank_gap / difficulty]. *)
Definition raw_of (volume : Z) (ctr : R) (rank_gap : Z) (difficulty : R) : R :=
  IZR volume * ctr * IZR rank_gap / effective_difficulty difficulty.

(** The value [compute_opportunity_score] returns. *)
Definition returned (volume : Z) (ctr : R) (rank_gap : Z) (difficulty : R)
    : R :=
  if (volume <=? 0)%Z then 0
  else if Rle_dec ctr 0 then 0
  else if (rank_gap <=? 0)%Z then 0
  else normalize (raw_of volume ctr rank_gap difficulty).

End KeywordEngine.

(** ** The HTTP client seen by the crawler components *)

Module Http.

Record Response : Type := {
  status_code : Z;
  body : string;                (* response.text / response.content *)
  headers : Py.dict string
}.

(** A request either gets a response or raises ([None]). *)
Record Client : Type := {
  head : string -> option Response;
  get : string -> option Response
}.

End Http.

(** ** crawler/sitemap.py *)

Module Sitemap.

Local Open Scope string_scope.
Local Open Scope Z_scope.

Definition COMMON_SITEMAP_PATHS : list string :=
  [ "/sitemap.xml"; "/sitemap_index.xml"; "/sitemap-index.xml";
    "/sitemaps.xml"; "/sitemap/sitemap.xml"; "/wp-sitemap.xml" ].

(** The parsed document ([BeautifulSoup(xml_content, "xml")]). *)
#[warnings="-register-all"]
Inductive xml : Type :=
| Text (s : string)
| Elem (name : string) (children : list xml).

(** What the parser needs from outside. *)
Record Libs : Type := {
  http_client : Http.Client;
  parse_xml : string -> list xml;
  (* gzip decompression; None when it raises *)
  gunzip : string -> option string
}.

(** [tag.text]: all the strings below the tag, concatenated. *)
Fixpoint text (x : xml) : string :=
  match x with
  | Text s => s
  | Elem _ cs => fold_right (fun c acc => String.append (text c) acc) "" cs
  end.

(** The element itself and its descendants named [name], in document order. *)
Fixpoint named (name : string) (x : xml) : list xml :=
  match x with
  | Text _ => []
  | Elem n cs =>
      app (if String.eqb n name then [x] else [])
          (flat_map (named name) cs)
  end.

(** [soup.find_all(name)] *)
Definition find_all (soup : list xml) (name : string) : list xml :=
  flat_map (named name) soup.

(** [tag.find(name)]: the first descendant with that name. *)
Definition find (tag : xml) (name : string) : option xml :=
  match tag with
  | Text _ => None
  | Elem _ cs => head (flat_map (named name) cs)
  end.

(** [loc = tag.find("loc")] and, [if loc and loc.text], [loc.text.strip()]. *)
Definition loc_of (tag : xml) : option string :=
  match find tag "loc" with
  | Some loc =>
      if Py.truthy (text loc) then Some (Py.strip (text loc)) else None
  | None => None
  end.

Definition locs (tags : list xml) : list string := omap loc_of tags.

(** [_parse_xml] *)
Definition _parse_xml (L : Libs) (xml_content : string) : list string :=
  let soup := L.(parse_xml) xml_content in
  let sitemap_tags := find_all soup "sitemap" in
  match sitemap_tags with
  | _ :: _ => locs sitemap_tags
  | [] => locs (find_all soup "url")
  end.

(** [s.endswith(suffix)] *)
Definition endswith (suffix s : string) : bool :=
  String.prefix (Py.str (rev (Py.chars suffix))) (Py.str (rev (Py.chars s))).

(** [_parse_sitemap]: the URLs and the updated [_processed] set. *)
Definition _parse_sitemap (L : Libs) (processed : gset string)
    (sitemap_url : string) : list string * gset string :=
  if bool_decide (sitemap_url ∈ processed) then ([], processed)
  else
    let processed := processed ∪ {[ sitemap_url ]} in
    match L.(http_client).(Http.get) sitemap_url with
    | None => ([], processed)
    | Some response =>
        if negb (response.(Http.status_code) =? 200) then ([], processed)
        else
          let content := response.(Http.body) in
          let encoding :=
            Py.dict_get response.(Http.headers) "content-encoding" in
          let gzipped :=
            endswith ".gz" sitemap_url
            || match encoding with
               | Some e => String.eqb e "gzip"
               | None => false
               end in
          if gzipped
          then match L.(gunzip) content with
               | Some content => (_parse_xml L content, processed)
               | None => ([], processed)
               end
          else (_parse_xml L content, processed)
    end.

(** [base_url.rstrip("/")] *)
Definition rstrip_slash (s : string) : string :=
  Py.str (rev (Py.lstrip_by (fun c => Ascii.eqb c "/") (rev (Py.chars s)))).

(** [_discover_sitemaps] *)
Definition _discover_sitemaps (L : Libs) (base_url : string) : list string :=
  List.filter
    (fun url =>
       match L.(http_client).(Http.head) url with
       | Some response => response.(Http.status_code) =? 200
       | None => false
       end)
    (map (String.append base_url) COMMON_SITEMAP_PATHS).

(** The loop of [fetch_all]: [discovered_urls] and [_processed] are threaded
    through the candidates. *)
Fixpoint parse_each (L : Libs) (processed : gset string)
    (sitemap_urls : list string) : list string :=
  match sitemap_urls with
  | [] => []
  | u :: rest =>
      let '(urls, processed) := _parse_sitemap L processed u in
      app urls (parse_each L processed rest)
  end.

(** [fetch_all]; [list(set(...))] is the set of its elements (Python leaves
    the order of that list unspecified). *)
Definition fetch_all (L : Libs) (base_url : string) : gset string :=
  let base_url := rstrip_slash base_url in
  list_to_set (parse_each L ∅ (_discover_sitemaps L base_url)).

(** The reading of the specification, for comparison: a [<sitemap>] entry
    of an index is itself fetched and parsed (one level), and the result is
    the union of the [<loc>] entries of the referenced url-sets. *)
Definition spec_urlset_locs (L : Libs) (sitemap_url : string) : list string :=
  match L.(http_client).(Http.get) sitemap_url with
  | Some response =>
      if response.(Http.status_code) =? 200
      then locs (find_all (L.(parse_xml) response.(Http.body)) "url")
      else []
  | None => []
  end.

Definition spec_parse_index (L : Libs) (xml_content : string) : gset string :=
  let soup := L.(parse_xml) xml_content in
  list_to_set (flat_map (spec_urlset_locs L) (locs (find_all soup "sitemap"))).

End Sitemap.

(** ** crawler/robots.py *)

Module Robots.

Local Open Scope string_scope.
Local Open Scope Z_scope.

(** The robots.txt rule parser ([RobotExclusionRulesParser]) and Python's
    [float(...)] on a string. *)
Record Libs : Type := {
  Parser : Type;
  (* the parser object after [parse(content)] *)
  parse : string -> Parser;
  (* whether [parse(content)] raises *)
  parse_raises : string -> bool;
  (* [parser.is_allowed(user_agent, url)]; None when it raises *)
  parser_is_allowed : Parser -> string -> string -> option bool;
  (* [float(s)]; None for ValueError *)
  float_of_string : string -> option Q
}.

Record RobotsChecker (L : Libs) : Type := {
  base_url : string;
  _parser : option L.(Parser);
  crawl_delay : Q;
  raw_content : option string;
  _fetched : bool
}.
Arguments base_url {L}.
Arguments _parser {L}.
Arguments crawl_delay {L}.
Arguments raw_content {L}.
Arguments _fetched {L}.

(** [RobotsChecker.__init__] *)
Definition init (L : Libs) (url : string) : RobotsChecker L :=
  {| base_url := Sitemap.rstrip_slash url;
     _parser := None;
     crawl_delay := 0%Q;
     raw_content := None;
     _fetched := false |}.

(** [s.splitlines()] *)
Definition is_linebreak (c : ascii) : bool :=
  let n := Z.of_nat (nat_of_ascii c) in
  ((10 <=? n) && (n <=? 13)) || ((28 <=? n) && (n <=? 30)) || (n =? 133).

Fixpoint splitlines_aux (after_cr : bool) (cur : list ascii) (l : list ascii)
    : list string :=
  match l with
  | [] => match cur with [] => [] | _ => [Py.str (rev cur)] end
  | c :: l' =>
      if after_cr && Ascii.eqb c "010" then splitlines_aux false cur l'
      else if is_linebreak c
      then Py.str (rev cur) :: splitlines_aux (Ascii.eqb c "013") [] l'
      else splitlines_aux false (c :: cur) l'
  end.

Definition splitlines (s : string) : list string :=
  splitlines_aux false [] (Py.chars s).

(** [line.split(":", 1)[1]] for a line that holds a colon. *)
Fixpoint after_colon (s : string) : string :=
  match s with
  | EmptyString => EmptyString
  | String c s' => if Ascii.eqb c ":" then s' else after_colon s'
  end.

(** The loop over the lines that sets [crawl_delay]. *)
Definition delay_of_line (L : Libs) (delay : Q) (line : string) : Q :=
  if Py.startswith "crawl-delay:" (Py.lower line)
  then match L.(float_of_string) (Py.strip (after_colon line)) with
       | Some d => Scorer.py_max 0%Q d
       | None => delay
       end
  else delay.

(** [fetch]: the checker afterwards and the URLs it requested. *)
Definition fetch (L : Libs) (http_client : Http.Client) (self : RobotsChecker L)
    : RobotsChecker L * list string :=
  let robots_url := String.append self.(base_url) "/robots.txt" in
  let fetched (p : option L.(Parser)) (d : Q) (raw : option string) :=
    {| base_url := self.(base_url); _parser := p; crawl_delay := d;
       raw_content := raw; _fetched := true |} in
  let self' :=
    match http_client.(Http.get) robots_url with
    | Some response =>
        if response.(Http.status_code) =? 200 then
          let content := response.(Http.body) in
          if L.(parse_raises) content
          then fetched (Some (L.(parse) content)) self.(crawl_delay)
                 (Some content)
          else fetched (Some (L.(parse) content))
                 (fold_left (delay_of_line L) (splitlines content)
                    self.(crawl_delay))
                 (Some content)
        else fetched self.(_parser) self.(crawl_delay) self.(raw_content)
    | None => fetched self.(_parser) self.(crawl_delay) self.(raw_content)
    end in
  (self', [robots_url]).

(** [is_allowed] *)
Definition is_allowed {L : Libs} (self : RobotsChecker L) (url : string)
    : bool :=
  let user_agent := Config.settings.(Config.CRAWLER_USER_AGENT) in
  match self.(_fetched), self.(_parser) with
  | true, Some p =>
      match L.(parser_is_allowed) p user_agent url with
      | Some b => b
      | None => true
      end
  | _, _ => true
  end.

(** [get_sitemaps] *)
Definition get_sitemaps {L : Libs} (self : RobotsChecker L) : list string :=
  match self.(raw_content) with
  | Some content =>
      if Py.truthy content then
        map (fun line => Py.strip (after_colon line))
          (List.filter (fun line => Py.startswith "sitemap:" (Py.lower line))
             (splitlines content))
      else []
  | None => []
  end.

(** The calls a job makes on its checker, and the requests each one sends. *)
Inductive call : Type :=
| Fetch
| IsAllowed (url : string)
| GetSitemaps.

Definition perform {L : Libs} (http_client : Http.Client)
    (st : RobotsChecker L * list string) (c : call)
    : RobotsChecker L * list string :=
  match c with
  | Fetch =>
      let '(self', sent) := fetch L http_client (fst st) in
      (self', app (snd st) sent)
  | IsAllowed _ | GetSitemaps => st
  end.

Definition is_query (c : call) : bool :=
  match c with Fetch => false | _ => true end.

End Robots.

(** ** crawler/rate_limiter.py *)

Module RateLimiter.

Local Open Scope Q_scope.

(** The monotonic clock and the event loop, as the limiter observes them.
    [clock] is the reading [time.monotonic()] would return now. *)
Record World : Type := { clock : Q }.

(** Time passing between two statements ([dt] seconds). *)
Definition elapse (dt : Q) (w : World) : World := {| clock := w.(clock) + dt |}.

(** [await asyncio.sleep(d)]: the loop resumes the task [over] seconds
    after the requested delay ([over] is negative when the timer fires
    early; the clock does not run backwards). *)
Definition sleep (d over : Q) (w : World) : World :=
  elapse (if Py.Qltb (d + over) 0 then 0 else d + over) w.

Record DomainRateLimiter : Type := {
  rate : Q;
  min_interval : Q;
  (* defaultdict(float): absent hosts read 0.0 *)
  _last_request : gmap string Q
}.

(** [DomainRateLimiter.__init__]; [None] for the [ZeroDivisionError] of
    [1.0 / rate_per_second]. *)
Definition init (rate_per_second : Q) : option DomainRateLimiter :=
  if Qeq_bool rate_per_second 0 then None
  else Some {| rate := rate_per_second;
               min_interval := 1 / rate_per_second;
               _last_request := ∅ |}.

Definition last (self : DomainRateLimiter) (domain : string) : Q :=
  default 0 (self.(_last_request) !! domain).

(** What the environment decides during one [acquire]: the time that
    passes before the call reads the clock, the error of the sleep, and the
    time between waking up and the second clock reading. *)
Record Timing : Type := { before : Q; over : Q; after : Q }.

(** [acquire(domain)] under the per-host lock, calls one after the other. *)
Definition acquire (self : DomainRateLimiter) (domain : string)
    (t : Timing) (w : World) : DomainRateLimiter * World :=
  let w := elapse t.(before) w in
  let now := w.(clock) in
  let elapsed := now - last self domain in
  let wait_time := self.(min_interval) - elapsed in
  let w := if Py.Qltb 0 wait_time then sleep wait_time t.(over) w else w in
  let w := elapse t.(after) w in
  ({| rate := self.(rate);
      min_interval := self.(min_interval);
      _last_request := <[ domain := w.(clock) ]> self.(_last_request) |}, w).

(** The environment is admissible for a clock of resolution [eps]: time
    never runs backwards and a sleep ends at most [eps] early. *)
Definition admissible (eps : Q) (t : Timing) : Prop :=
  0 <= t.(before) /\ - eps <= t.(over) /\ 0 <= t.(after).

(** A sequence of calls; the completion time of each is recorded. *)
Fixpoint run (self : DomainRateLimiter) (w : World)
    (calls : list (string * Timing)) : list (string * Q) :=
  match calls with
  | [] => []
  | (domain, t) :: rest =>
      let '(self', w') := acquire self domain t w in
      (domain, w'.(clock)) :: run self' w' rest
  end.

(** The completion times of the calls for one host. *)
Definition times_of (domain : string) (trace : list (string * Q)) : list Q :=
  map snd (List.filter (fun e => String.eqb (fst e) domain) trace).

(** Consecutive entries are at least [gap] apart. *)
Fixpoint spaced (gap : Q) (ts : list Q) : Prop :=
  match ts with
  | a :: ((b :: _) as rest) => a + gap <= b /\ spaced gap rest
  | _ => True
  end.

End RateLimiter.

(** ** crawler/crawler.py: the crawler *)

Module Crawler.

Local Open Scope string_scope.
Local Open Scope Z_scope.

(** The libraries and collaborators of one crawl. *)
Record Libs : Type := {
  (* urlparse(url) raises *)
  urlparse_raises : string -> bool;
  urlparse_scheme : string -> string;
  urlparse_path : string -> string;
  (* urlunparse(urlparse(url)._replace(fragment="")) *)
  without_fragment : string -> string;
  (* the "domain.suffix" of tldextract.extract(url); None when it raises *)
  registered_domain_of : string -> option string;
  (* not (respect_robots and robots_checker)
     or robots_checker.is_allowed(url) *)
  robots_allows : string -> bool;
  (* _fetch_url(url); None when the task ends with an exception *)
  _fetch_url : string -> option Fetch.CrawlResult;
  (* urljoin(page_url, href) for the <a href> tags of the page whose href
     is not empty and does not start with "#", "mailto:" or "tel:" *)
  resolved_hrefs : string -> string -> list string;
  (* SitemapParser(base_url, client).fetch_all() *)
  sitemap_urls : list string
}.

Record Crawler : Type := {
  start_url : string;
  max_depth : Z;
  max_pages : Z;
  max_concurrent : Z;
  registered_domain : string
}.

(** [AsyncCrawler.__init__]: [max_concurrent] is capped by the settings. *)
Definition init (L : Libs) (start : string) (depth pages concurrent : Z)
    : Crawler :=
  {| start_url := start;
     max_depth := depth;
     max_pages := pages;
     max_concurrent :=
       Z.min concurrent Config.settings.(Config.CRAWLER_MAX_CONCURRENT);
     registered_domain := default "" (L.(registered_domain_of) start) |}.

(** [normalize_url] *)
Definition normalize_url (L : Libs) (url : string) : option string :=
  if negb (Py.truthy url) then None
  else if L.(urlparse_raises) url then None
  else
    let normalized := L.(without_fragment) url in
    if Sitemap.endswith "/" normalized
       && negb (String.eqb (L.(urlparse_path) url) "/")
    then Some (Sitemap.rstrip_slash normalized)
    else Some normalized.

(** [is_internal_url] *)
Definition is_internal_url (L : Libs) (self : Crawler) (url : string) : bool :=
  match L.(registered_domain_of) url with
  | Some target_domain => String.eqb target_domain self.(registered_domain)
  | None => false
  end.

Definition excluded_extensions : list string :=
  [ ".jpg"; ".jpeg"; ".png"; ".gif"; ".svg"; ".webp"; ".ico";
    ".pdf"; ".zip"; ".tar"; ".gz"; ".mp4"; ".mp3"; ".avi";
    ".css"; ".js"; ".woff"; ".woff2"; ".ttf"; ".eot";
    ".xlsx"; ".docx"; ".pptx"; ".csv" ].

Definition excluded_patterns : list string :=
  [ "wp-json"; "wp-admin"; ".xml"; "feed/"; "/api/"; "/__"; "/cdn-cgi/" ].

(** [is_crawlable_url] *)
Definition is_crawlable_url (L : Libs) (url : string) : bool :=
  if negb (Py.mem (L.(urlparse_scheme) url) ["http"; "https"]) then false
  else
    let path_lower := Py.lower (L.(urlparse_path) url) in
    if existsb (fun ext => Sitemap.endswith ext path_lower) excluded_extensions
    then false
    else negb (existsb (fun p => Py.contains p (Py.lower url))
                 excluded_patterns).

(** [extract_links]: the normalized links that are not empty. *)
Definition extract_links (L : Libs) (html page_url : string) : list string :=
  List.filter Py.truthy
    (omap (normalize_url L) (L.(resolved_hrefs) html page_url)).

(** What [asyncio.gather(..., return_exceptions=True)] holds for one task. *)
Inductive Outcome : Type :=
| Raised
| Returned (crawl_result : option Fetch.CrawlResult)
           (discovered_links : list string).

(** [_crawl_page] (the rate limiter only delays the call). *)
Definition _crawl_page (L : Libs) (self : Crawler) (url : string) (depth : Z)
    : Outcome :=
  if negb (L.(robots_allows) url) then Returned None []
  else
    match L.(_fetch_url) url with
    | None => Raised
    | Some result =>
        if Fetch.is_success result && Py.truthy result.(Fetch.html)
        then
          let raw_links :=
            extract_links L result.(Fetch.html) result.(Fetch.final_url) in
          Returned (Some result)
            (List.filter
               (fun link =>
                  is_internal_url L self link && is_crawlable_url L link)
               raw_links)
        else Returned (Some result) []
    end.

(** The mutable state of [crawl]. *)
Record State : Type := {
  visited_urls : gset string;
  queued_urls : gset string;
  failed_urls : gset string;
  url_queue : list (string * Z);
  pages_crawled : Z;
  pages_failed : Z
}.

Definition initial_state : State :=
  {| visited_urls := ∅; queued_urls := ∅; failed_urls := ∅;
     url_queue := []; pages_crawled := 0; pages_failed := 0 |}.

(** [self.url_queue.append((url, depth)); self.queued_urls.add(url)] *)
Definition enqueue (st : State) (url : string) (depth : Z) : State :=
  {| visited_urls := st.(visited_urls);
     queued_urls := st.(queued_urls) ∪ {[ url ]};
     failed_urls := st.(failed_urls);
     url_queue := app st.(url_queue) [(url, depth)];
     pages_crawled := st.(pages_crawled);
     pages_failed := st.(pages_failed) |}.

(** The queue initialisation of [crawl]. *)
Definition seed (L : Libs) (self : Crawler) : State :=
  let initial_urls :=
    normalize_url L self.(start_url)
    :: map Some
         (List.filter
            (fun u => is_internal_url L self u && is_crawlable_url L u)
            L.(sitemap_urls)) in
  fold_left
    (fun st o =>
       match o with
       | Some url =>
           if Py.truthy url && negb (bool_decide (url ∈ st.(queued_urls)))
           then enqueue st url 0 else st
       | None => st
       end)
    initial_urls initial_state.

(** The inner [while] that drains the queue into [batch]. *)
Fixpoint fill_batch (max_concurrent : Z) (queue : list (string * Z))
    (visited : gset string) (batch : list (string * Z))
    : list (string * Z) * list (string * Z) * gset string :=
  match queue with
  | [] => (batch, [], visited)
  | (url, depth) :: queue' =>
      if Z.of_nat (length batch) <? max_concurrent then
        if bool_decide (url ∈ visited)
        then fill_batch max_concurrent queue' visited batch
        else fill_batch max_concurrent queue' (visited ∪ {[ url ]})
               (app batch [(url, depth)])
      else (batch, queue, visited)
  end.

Definition count_crawled (st : State) : State :=
  {| visited_urls := st.(visited_urls);
     queued_urls := st.(queued_urls);
     failed_urls := st.(failed_urls);
     url_queue := st.(url_queue);
     pages_crawled := st.(pages_crawled) + 1;
     pages_failed := st.(pages_failed) |}.

Definition count_failed (st : State) (url : string) : State :=
  {| visited_urls := st.(visited_urls);
     queued_urls := st.(queued_urls);
     failed_urls := st.(failed_urls) ∪ {[ url ]};
     url_queue := st.(url_queue);
     pages_crawled := st.(pages_crawled);
     pages_failed := st.(pages_failed) + 1 |}.

(** The body of [for i, result_data in enumerate(results)] (the
    [on_page_crawled] callback cannot change the crawler's state). *)
Definition handle_result (L : Libs) (self : Crawler) (st : State)
    (item : string * Z) (result_data : Outcome) : State :=
  let '(url, depth) := item in
  match result_data with
  | Raised => count_failed st url
  | Returned None _ => st
  | Returned (Some crawl_result) discovered_links =>
      let st := if Fetch.is_success crawl_result
                then count_crawled st else count_failed st url in
      if depth <? self.(max_depth) then
        fold_left
          (fun st link =>
             match normalize_url L link with
             | Some normalized =>
                 if Py.truthy normalized
                    && negb (bool_decide (normalized ∈ st.(queued_urls)))
                    && negb (bool_decide (normalized ∈ st.(visited_urls)))
                 then enqueue st normalized (depth + 1) else st
             | None => st
             end)
          discovered_links st
      else st
  end.

Fixpoint handle_results (L : Libs) (self : Crawler) (st : State)
    (batch : list (string * Z)) (results : list Outcome) : State :=
  match batch, results with
  | item :: batch', r :: results' =>
      handle_results L self (handle_result L self st item r) batch' results'
  | _, _ => st
  end.

(** One iteration of the outer [while]: either the loop goes on with a
    new state, or it ends (condition false, or [break] on an empty
    batch). *)
Inductive Step : Type :=
| Continue (st : State)
| Stop (st : State).

Definition iteration (L : Libs) (self : Crawler) (st : State) : Step :=
  match st.(url_queue) with
  | [] => Stop st
  | _ :: _ =>
      if st.(pages_crawled) <? self.(max_pages) then
        let '(batch, queue, visited) :=
          fill_batch self.(max_concurrent) st.(url_queue)
            st.(visited_urls) [] in
        let st := {| visited_urls := visited;
                     queued_urls := st.(queued_urls);
                     failed_urls := st.(failed_urls);
                     url_queue := queue;
                     pages_crawled := st.(pages_crawled);
                     pages_failed := st.(pages_failed) |} in
        match batch with
        | [] => Stop st
        | _ :: _ =>
            let results :=
              map (fun item => _crawl_page L self (fst item) (snd item))
                batch in
            Continue (handle_results L self st batch results)
        end
      else Stop st
  end.

(** The outer [while], at most [fuel] iterations; [None] when the fuel
    does not suffice. *)
Fixpoint loop (L : Libs) (self : Crawler) (fuel : nat) (st : State)
    : option State :=
  match fuel with
  | O => None
  | S fuel' =>
      match iteration L self st with
      | Stop st' => Some st'
      | Continue st' => loop L self fuel' st'
      end
  end.

(** The state after at most [n] iterations of the outer [while] (the state
    the loop ended in, when it ended earlier). *)
Fixpoint iterate (L : Libs) (self : Crawler) (n : nat) (st : State) : State :=
  match n with
  | O => st
  | S n' =>
      match iteration L self st with
      | Stop st' => st'
      | Continue st' => iterate L self n' st'
      end
  end.

(** [crawl]: the final state, whose counters are the returned [stats]. *)
Definition crawl (L : Libs) (self : Crawler) (fuel : nat) : option State :=
  loop L self fuel (seed L self).

(** [len(self.visited_urls)] *)
Definition visited_count (st : State) : Z := Z.of_nat (size st.(visited_urls)).

(** [st'] has the visited set of [st] and counters that grew by at most
    [k] in total. *)
Definition counters_step (st st' : State) (k : Z) : Prop :=
  st'.(visited_urls) = st.(visited_urls)
  /\ st.(pages_crawled) <= st'.(pages_crawled) <= st.(pages_crawled) + k
  /\ st.(pages_failed) <= st'.(pages_failed)
  /\ st'.(pages_crawled) + st'.(pages_failed)
     <= st.(pages_crawled) + st.(pages_failed) + k.

(** A task that did not fetch a page successfully reports no link. *)
Definition quiet_on_failure (r : Outcome) : Prop :=
  match r with
  | Returned (Some result) links =>
      Fetch.is_success result = false -> links = []
  | _ => True
  end.

(** Either a page was crawled, or the counter and the queue are as
    before. *)
Definition progress (st st' : State) : Prop :=
  st.(pages_crawled) < st'.(pages_crawled)
  \/ (st'.(pages_crawled) = st.(pages_crawled)
      /\ st'.(url_queue) = st.(url_queue)).

(** What holds of the counters at every point of a crawl. *)
Definition counters_ok (self : Crawler) (st : State) : Prop :=
  0 <= st.(pages_crawled)
  /\ 0 <= st.(pages_failed)
  /\ st.(pages_crawled) + st.(pages_failed) <= visited_count st
  /\ st.(pages_crawled)
     <= Z.max 0 (self.(max_pages) - 1 + self.(max_concurrent)).

End Crawler.

(** ** Concrete pages, sites and libraries used in the examples *)

Module Examples.

Local Open Scope string_scope.
Local Open Scope Z_scope.

(** A document without any of the tags the analyzer looks for. *)
Definition plain_soup : Analyzer.Soup :=
  {| Analyzer.title_string := None;
     Analyzer.meta_description_content := None;
     Analyzer.meta_robots_content := None;
     Analyzer.canonical_href := None;
     Analyzer.html_lang := None;
     Analyzer.hreflang_tags := 0;
     Analyzer.heading_texts := fun _ => [];
     Analyzer.get_text := "one two three four five six";
     Analyzer.img_alts := [];
     Analyzer.anchors := [];
     Analyzer.og_metas := [];
     Analyzer.twitter_metas := [];
     Analyzer.viewport_meta := false |}.

(** Libraries that read every non-empty document as six plain words. *)
Definition six_words : Analyzer.Libs :=
  {| Analyzer.BeautifulSoup := fun _ => plain_soup;
     Analyzer.trafilatura_extract :=
       fun _ => Some "one two three four five six";
     Analyzer.extruct_extract := fun _ _ => Some [];
     Analyzer.urljoin := fun _ href => href;
     Analyzer.urlparse_scheme := fun _ => "https";
     Analyzer.urlparse_netloc := fun _ => "example.test" |}.

Definition fetched (html : string) : Fetch.CrawlResult :=
  {| Fetch.url := "https://example.test/";
     Fetch.final_url := "https://example.test/";
     Fetch.status_code := 200;
     Fetch.html := html;
     Fetch.headers := [];
     Fetch.load_time_ms := 120;
     Fetch.page_size_bytes := Py.len html;
     Fetch.error := None |}.

(** A fetch that returned an empty body. *)
Definition empty_page : Fetch.CrawlResult := fetched "".

(** A fetch that returned a short document. *)
Definition short_page : Fetch.CrawlResult :=
  fetched "<p>one two three four five six</p>".

(** *** A site with a sitemap index *)

Definition index_text : string :=
  String.append "<sitemapindex><sitemap>"
    (String.append "<loc>https://example.test/sitemap-pages.xml</loc>"
       "</sitemap></sitemapindex>").

Definition urlset_text : string :=
  String.append "<urlset><url><loc>https://example.test/a</loc></url>"
    "<url><loc>https://example.test/b</loc></url></urlset>".

Definition index_doc : list Sitemap.xml :=
  [ Sitemap.Elem "sitemapindex"
      [ Sitemap.Elem "sitemap"
          [ Sitemap.Elem "loc"
              [ Sitemap.Text "https://example.test/sitemap-pages.xml" ] ] ] ].

Definition urlset_doc : list Sitemap.xml :=
  [ Sitemap.Elem "urlset"
      [ Sitemap.Elem "url"
          [ Sitemap.Elem "loc" [ Sitemap.Text "https://example.test/a" ] ];
        Sitemap.Elem "url"
          [ Sitemap.Elem "loc" [ Sitemap.Text "https://example.test/b" ] ] ] ].

Definition respond (status : Z) (text : string) : option Http.Response :=
  Some {| Http.status_code := status; Http.body := text; Http.headers := [] |}.

(** /sitemap.xml is an index that refers to /sitemap-pages.xml, a url-set
    with the pages /a and /b; every other path answers 404. *)
Definition indexed_site : Http.Client :=
  {| Http.head := fun url =>
       if String.eqb url "https://example.test/sitemap.xml"
       then respond 200 "" else respond 404 "";
     Http.get := fun url =>
       if String.eqb url "https://example.test/sitemap.xml"
       then respond 200 index_text
       else if String.eqb url "https://example.test/sitemap-pages.xml"
       then respond 200 urlset_text
       else respond 404 "" |}.

Definition sitemap_libs : Sitemap.Libs :=
  {| Sitemap.http_client := indexed_site;
     Sitemap.parse_xml := fun content =>
       if String.eqb content index_text then index_doc
       else if String.eqb content urlset_text then urlset_doc
       else [];
     Sitemap.gunzip := fun _ => None |}.

(** *** Robots *)

(** A rule parser that forbids everything it is asked about, and a
    [float] that reads nothing. *)
Definition strict_rules : Robots.Libs :=
  {| Robots.Parser := unit;
     Robots.parse := fun _ => tt;
     Robots.parse_raises := fun _ => false;
     Robots.parser_is_allowed := fun _ _ _ => Some false;
     Robots.float_of_string := fun _ => None |}.

(** *** Rate limiter *)

(** Two requests per second, a clock that reads 10 s, timers that fire up
    to 10 ms early. *)
Definition two_per_second : RateLimiter.DomainRateLimiter :=
  {| RateLimiter.rate := 2;
     RateLimiter.min_interval := (1 / 2)%Q;
     RateLimiter._last_request := ∅ |}.

Definition at_ten : RateLimiter.World := {| RateLimiter.clock := 10 |}.

Definition punctual : RateLimiter.Timing :=
  {| RateLimiter.before := 0; RateLimiter.over := 0; RateLimiter.after := 0 |}.

Definition early : RateLimiter.Timing :=
  {| RateLimiter.before := 0;
     RateLimiter.over := (- (1 # 100))%Q;
     RateLimiter.after := 0 |}.

Definition three_calls : list (string * RateLimiter.Timing) :=
  [ ("a.test", punctual); ("b.test", punctual); ("a.test", early) ].

(** *** Crawls of https://example.test/ *)

Definition home : string := "https://example.test/".

Definition home_html : string := "<a href='/a'>A</a> <a href='/b'>B</a>".

Definition page_result (url : string) (status : Z) (html : string)
    : option Fetch.CrawlResult :=
  Some {| Fetch.url := url; Fetch.final_url := url;
          Fetch.status_code := status; Fetch.html := html;
          Fetch.headers := []; Fetch.load_time_ms := 80;
          Fetch.page_size_bytes := Py.len html; Fetch.error := None |}.

Definition crawl_libs (fetch : string -> option Fetch.CrawlResult)
    (sitemap : list string) : Crawler.Libs :=
  {| Crawler.urlparse_raises := fun _ => false;
     Crawler.urlparse_scheme := fun _ => "https";
     (* what follows "https://example.test" *)
     Crawler.urlparse_path := fun url =>
       String.substring 20 (String.length url - 20) url;
     Crawler.without_fragment := fun url => url;
     Crawler.registered_domain_of := fun _ => Some "example.test";
     Crawler.robots_allows := fun _ => true;
     Crawler._fetch_url := fetch;
     Crawler.resolved_hrefs := fun html _ =>
       if String.eqb html home_html
       then ["https://example.test/a"; "https://example.test/b"] else [];
     Crawler.sitemap_urls := sitemap |}.

(** The home page links to /a and /b; all three answer 200. *)
Definition healthy_site : Crawler.Libs :=
  crawl_libs
    (fun url => if String.eqb url home
                then page_result url 200 home_html
                else page_result url 200 "<p>leaf</p>")
    [].

(** The home page answers 500; the sitemap lists /a, which answers 200. *)
Definition broken_home : Crawler.Libs :=
  crawl_libs
    (fun url => if String.eqb url home
                then page_result url 500 "<p>error</p>"
                else page_result url 200 "<p>leaf</p>")
    ["https://example.test/a"].

Definition crawler_for (L : Crawler.Libs) (pages concurrent : Z)
    : Crawler.Crawler :=
  Crawler.init L home 5 pages concurrent.

End Examples.

(** ** What the properties of the analyzed page say *)

Module AnalyzerFacts.

Import Analyzer.
Local Open Scope string_scope.
Local Open Scope Z_scope.

(** [len(s)] of an optional string, 0 for [None]. *)
Definition opt_len (o : option string) : Z :=
  match o with Some s => Py.len s | None => 0 end.

(** A stored heading: not empty, at most 255 characters. *)
Definition heading_ok (h : string) : Prop :=
  Py.truthy h = true /\ Py.len h <= 255.

(** A stored link: an http(s) URL with an anchor text of at most 255
    characters. *)
Definition link_ok (L : Libs) (l : LinkData) : Prop :=
  Py.mem (L.(urlparse_scheme) l.(link_url)) ["http"; "https"] = true
  /\ Py.len l.(anchor_text) <= 255.

(** The key holds a white-space character (a bigram does, a single token
    does not). *)
Definition has_space (k : string) : bool := existsb Py.is_space (Py.chars k).

(** What holds of every entry of the keyword map: it was counted at least
    once, and a key with a space at least twice. *)
Definition keyword_entry_ok (e : string * Z) : Prop :=
  1 <= snd e /\ (has_space (fst e) = true -> 2 <= snd e).

End AnalyzerFacts.

(** ** scorer/scorer.py: the breakdowns and the site score *)

Module Breakdowns.

Import Scorer.
Local Open Scope string_scope.
Local Open Scope Z_scope.

(** The points of a breakdown and the points it could hold at most. *)
Definition points (b : Breakdown) : Z :=
  fold_right (fun e acc => (snd e).(score) + acc) 0 b.

Definition max_points (b : Breakdown) : Z :=
  fold_right (fun e acc => (snd e).(max_score) + acc) 0 b.

(** A component holds between 0 and its maximum. *)
Definition component_ok (e : string * Component) : Prop :=
  0 <= (snd e).(score) <= (snd e).(max_score).

(** [100 * points / max_points] *)
Definition percentage (b : Breakdown) : Q :=
  (inject_Z (points b) / inject_Z (max_points b) * 100)%Q.

(** The maximum that goes with each key of a breakdown. *)
Definition max_of (weights : Py.dict Z) (key : string) : Z :=
  default 0 (Py.dict_get weights key).

Definition technical_weights : Py.dict Z :=
  [ ("https", 10); ("status_code", 10); ("indexable", 15); ("viewport", 5);
    ("load_time", 10); ("page_size", 10); ("canonical", 5);
    ("schema_markup", 10); ("open_graph", 5); ("twitter_card", 5);
    ("hreflang", 5) ].

Definition content_weights : Py.dict Z :=
  [ ("title", 20); ("meta_description", 15); ("h1", 15); ("h2", 5);
    ("word_count", 20); ("image_alt", 10); ("text_ratio", 10) ].

Definition linking_weights : Py.dict Z :=
  [ ("outgoing_internal", 30); ("link_count_quality", 20);
    ("inbound_links", 50) ].

(** The entry carries the maximum of its key and a score within it. *)
Definition entry_under (M : string -> Z) (e : string * Component) : Prop :=
  (snd e).(max_score) = M (fst e) /\ 0 <= (snd e).(score) <= M (fst e).

End Breakdowns.

Module SiteScore.

Local Open Scope string_scope.
Local Open Scope Z_scope.

(** One entry of an aggregated breakdown. *)
Record Aggregated : Type := { avg_score : Q; max : Z; pct : Q }.

Record SiteScore : Type := {
  overall_score : Q;
  technical_score : Q;
  content_score : Q;
  authority_score : Q;
  linking_score : Q;
  ai_visibility_score : Q;
  technical_breakdown : Py.dict Aggregated;
  content_breakdown : Py.dict Aggregated;
  linking_breakdown : Py.dict Aggregated;
  page_count : Z
}.

(** [SiteScore()] *)
Definition SiteScore_init : SiteScore :=
  {| overall_score := 0; technical_score := 0;
     content_score := 0; authority_score := 0;
     linking_score := 0; ai_visibility_score := 0;
     technical_breakdown := []; content_breakdown := [];
     linking_breakdown := []; page_count := 0 |}.

(** [sum(xs)] and [sum(xs) / len(xs)] *)
Definition sum (xs : list Q) : Q := fold_left Qplus xs 0%Q.

Definition mean (xs : list Q) : Q :=
  (sum xs / inject_Z (Z.of_nat (length xs)))%Q.

Definition isum (xs : list Z) : Z := fold_left Z.add xs 0.

(** The loop of [_aggregate_breakdowns]: per key, the scores seen so far
    and the maximum of the first entry with that key. *)
Definition collect (aggregated : Py.dict (list Z * Z))
    (e : string * Scorer.Component) : Py.dict (list Z * Z) :=
  let '(key, data) := e in
  match Py.dict_get aggregated key with
  | None => Py.dict_set aggregated key ([data.(Scorer.score)], data.(Scorer.max_score))
  | Some (scores, mx) =>
      Py.dict_set aggregated key (app scores [data.(Scorer.score)], mx)
  end.

Definition summarize (v : list Z * Z) : Aggregated :=
  let '(scores, mx) := v in
  let avg := (inject_Z (isum scores)
              / inject_Z (Z.of_nat (length scores)))%Q in
  {| avg_score := Py.round_digits avg 2;
     max := mx;
     pct := Py.round_digits (avg / inject_Z (Z.max mx 1) * 100)%Q 1 |}.

(** [_aggregate_breakdowns] *)
Definition _aggregate_breakdowns (breakdowns : list Scorer.Breakdown)
    : Py.dict Aggregated :=
  let aggregated :=
    fold_left (fun agg breakdown => fold_left collect breakdown agg)
      breakdowns [] in
  map (fun kv => (fst kv, summarize (snd kv))) aggregated.

(** [aggregate_site_score] *)
Definition aggregate_site_score (page_scores : list Scorer.PageScore) : SiteScore :=
  match page_scores with
  | [] => SiteScore_init
  | _ :: _ =>
      let avg (f : Scorer.PageScore -> Q) : Q :=
        Py.round_digits (mean (map f page_scores)) 2 in
      {| overall_score := avg Scorer.overall_score;
         technical_score := avg Scorer.technical_score;
         content_score := avg Scorer.content_score;
         authority_score := avg Scorer.authority_score;
         linking_score := avg Scorer.linking_score;
         ai_visibility_score := avg Scorer.ai_visibility_score;
         technical_breakdown :=
           _aggregate_breakdowns (map Scorer.technical_breakdown page_scores);
         content_breakdown :=
           _aggregate_breakdowns (map Scorer.content_breakdown page_scores);
         linking_breakdown :=
           _aggregate_breakdowns (map Scorer.linking_breakdown page_scores);
         page_count := Z.of_nat (length page_scores) |}
  end.

(** An aggregated entry is in range: the average lies between 0 and the
    maximum, the percentage between 0 and 100. *)
Definition aggregated_ok (e : string * Aggregated) : Prop :=
  (0 <= (snd e).(avg_score) <= inject_Z (snd e).(max))%Q
  /\ (0 <= (snd e).(pct) <= 100)%Q.

(** The pages of a site as the worker scores them: each analyzed page with
    its inbound link count. *)
Definition score_site (pages : list (Analyzer.AnalyzedPage * Z)) : SiteScore :=
  aggregate_site_score (map (fun pn => Scorer.score_page (fst pn) (snd pn)) pages).

(** The scores collected under a key: at least one, each within the
    maximum [M] gives the key. *)
Definition collected_under (M : string -> Z) (kv : string * (list Z * Z))
    : Prop :=
  snd (snd kv) = M (fst kv)
  /\ fst (snd kv) <> []
  /\ Forall (fun s => 0 <= s <= M (fst kv)) (fst (snd kv)).

End SiteScore.

(** ** keyword_engine/engine.py: the CTR curve and the site keywords *)

Module Keywords.

Import KeywordEngine.
Local Open Scope string_scope.
Local Open Scope Z_scope.

(** [POSITION_CTR_MAP]; the keys are written in increasing order, so
    [sorted(POSITION_CTR_MAP.keys())] lists them as they stand. *)
Definition POSITION_CTR_MAP : list (Z * Q) :=
  [ (1, 0.284%Q); (2, 0.152%Q); (3, 0.099%Q); (4, 0.073%Q); (5, 0.058%Q);
    (6, 0.046%Q); (7, 0.036%Q); (8, 0.031%Q); (9, 0.027%Q); (10, 0.024%Q);
    (11, 0.018%Q); (12, 0.015%Q); (13, 0.013%Q); (14, 0.011%Q);
    (15, 0.009%Q); (20, 0.006%Q); (30, 0.003%Q); (50, 0.001%Q) ].

(** [POSITION_CTR_MAP[position]], when the key is present. *)
Fixpoint ctr_at (m : list (Z * Q)) (position : Z) : option Q :=
  match m with
  | [] => None
  | (p, ctr) :: m' => if position =? p then Some ctr else ctr_at m' position
  end.

(** The interpolation loop over consecutive keys. *)
Fixpoint interpolate (m : list (Z * Q)) (position : Z) : option Q :=
  match m with
  | (p1, ctr1) :: (((p2, ctr2) :: _) as rest) =>
      if (p1 <=? position) && (position <=? p2) then
        let ratio := (inject_Z (position - p1) / inject_Z (p2 - p1))%Q in
        Some (ctr1 + ratio * (ctr2 - ctr1))%Q
      else interpolate rest position
  | _ => None
  end.

(** [get_ctr_for_position] *)
Definition get_ctr_for_position (position : Z) : Q :=
  if position <=? 0 then 0%Q
  else
    match ctr_at POSITION_CTR_MAP position with
    | Some ctr => ctr
    | None =>
        if 50 <? position then 0.0005%Q
        else
          match interpolate POSITION_CTR_MAP position with
          | Some ctr => ctr
          | None => 0.001%Q
          end
    end.

(** Whether the interpolation loop ends without a [return], so that the
    final [return 0.001] runs. *)
Definition falls_through (position : Z) : bool :=
  (0 <? position) && (position <=? 50)
  && match ctr_at POSITION_CTR_MAP position,
           interpolate POSITION_CTR_MAP position with
     | None, None => true
     | _, _ => false
     end.

Record KeywordOpportunity : Type := {
  keyword : string;
  frequency : Z;
  density : Q;
  estimated_volume : Z;
  estimated_difficulty : Q;
  estimated_ctr : Q;
  current_rank : option Z;
  rank_gap : option Z;
  opportunity_score : R;
  is_opportunity : bool;
  page_urls : list string
}.

(** [len(keyword.split())] selects the multiplier and the difficulty. *)
Definition _estimate_volume (keyword : string) (site_frequency : Z) : Z :=
  let word_count := Z.of_nat (length (Py.split keyword)) in
  let base_volume := 1000 in
  let multiplier :=
    if word_count =? 1 then 10
    else if word_count =? 2 then 4
    else if word_count =? 3 then 2
    else 1 in
  let freq_bonus := Z.min (site_frequency * 50) 5000 in
  base_volume * multiplier + freq_bonus.

Definition _estimate_difficulty (keyword : string) : Q :=
  let word_count := Z.of_nat (length (Py.split keyword)) in
  if word_count =? 1 then 75%Q
  else if word_count =? 2 then 55%Q
  else if word_count =? 3 then 40%Q
  else 25%Q.

Definition _estimate_current_rank (keyword : string) (site_frequency : Z)
    : option Z :=
  if 50 <=? site_frequency then Some 8
  else if 20 <=? site_frequency then Some 15
  else if 10 <=? site_frequency then Some 25
  else if 5 <=? site_frequency then Some 40
  else Some 60.

(** [str.isdigit]: not empty and every character a digit (the superscript
    digits of Latin-1 count). *)
Definition isdigit_char (c : ascii) : bool :=
  let n := Z.of_nat (nat_of_ascii c) in
  Py.is_digit c || (n =? 178) || (n =? 179) || (n =? 185).

Definition isdigit (s : string) : bool :=
  Py.truthy s && forallb isdigit_char (Py.chars s).

(** The first loop of [aggregate_site_keywords]: [keyword_pages],
    [total_freq] and [total_words]. *)
Record Totals : Type := {
  keyword_pages : Py.dict (list string);
  total_freq : Py.dict Z;
  total_words : Z
}.

Definition add_count (page_url : string) (t : Totals) (kc : string * Z)
    : Totals :=
  let '(kw, count) := kc in
  let pages := default [] (Py.dict_get t.(keyword_pages) kw) in
  let old := default 0 (Py.dict_get t.(total_freq) kw) in
  {| keyword_pages := Py.dict_set t.(keyword_pages) kw (app pages [page_url]);
     total_freq := Py.dict_set t.(total_freq) kw (old + count);
     total_words := t.(total_words) + count |}.

Definition add_page (t : Totals) (page : string * Py.dict Z) : Totals :=
  fold_left (add_count (fst page)) (snd page) t.

Definition totals (page_keyword_data : list (string * Py.dict Z)) : Totals :=
  fold_left add_page page_keyword_data
    {| keyword_pages := []; total_freq := []; total_words := 0 |}.

(** The body of the second loop for one keyword that passes the filter;
    [None] when [compute_opportunity_score] raises. *)
Definition opportunity_of (target_rank : Z) (t : Totals) (kw : string)
    (freq : Z) : option KeywordOpportunity :=
  let volume := _estimate_volume kw freq in
  let difficulty := _estimate_difficulty kw in
  let rank := _estimate_current_rank kw freq in
  let target_ctr := get_ctr_for_position target_rank in
  let gap :=
    match rank with
    | Some r => if negb (r =? 0) && (target_rank <? r)
                then Some (r - target_rank) else None
    | None => None
    end in
  let score :=
    match gap with
    | Some g =>
        if negb (g =? 0) && (0 <? g)
        then compute_opportunity_score volume (Q2R target_ctr) g
               (Q2R difficulty)
        else Some 0%R
    | None => Some 0%R
    end in
  let dens :=
    (inject_Z freq / inject_Z (Z.max t.(total_words) 1) * 100)%Q in
  match score with
  | None => None
  | Some s =>
      Some {| keyword := kw;
              frequency := freq;
              density := Py.round_digits dens 4;
              estimated_volume := volume;
              estimated_difficulty := difficulty;
              estimated_ctr := target_ctr;
              current_rank := rank;
              rank_gap := gap;
              opportunity_score := s;
              is_opportunity := if Rlt_dec 15 s then true else false;
              page_urls :=
                firstn 5 (default [] (Py.dict_get t.(keyword_pages) kw)) |}
  end.

(** [len(keyword) < 3 or keyword.isdigit()] *)
Definition skipped (kw : string) : bool := (Py.len kw <? 3) || isdigit kw.

(** The second loop: the opportunities in the order of [most_common]. *)
Fixpoint opportunities_of (target_rank : Z) (t : Totals)
    (ranked : list (string * Z)) : option (list KeywordOpportunity) :=
  match ranked with
  | [] => Some []
  | (kw, freq) :: rest =>
      if skipped kw then opportunities_of target_rank t rest
      else
        match opportunity_of target_rank t kw freq,
              opportunities_of target_rank t rest with
        | Some opp, Some opps => Some (opp :: opps)
        | _, _ => None
        end
  end.

(** [opportunities.sort(key=lambda x: x.opportunity_score, reverse=True)]:
    a stable sort, largest score first. *)
Fixpoint insert_by_score (o : KeywordOpportunity)
    (l : list KeywordOpportunity) : list KeywordOpportunity :=
  match l with
  | [] => [o]
  | o' :: l' =>
      if Rlt_dec o.(opportunity_score) o'.(opportunity_score)
      then o' :: insert_by_score o l'
      else o :: l
  end.

Definition sort_by_score (l : list KeywordOpportunity)
    : list KeywordOpportunity :=
  fold_right insert_by_score [] l.

(** [aggregate_site_keywords] *)
Definition aggregate_site_keywords (target_rank : Z)
    (page_keyword_data : list (string * Py.dict Z))
    : option (list KeywordOpportunity) :=
  let t := totals page_keyword_data in
  option_map sort_by_score
    (opportunities_of target_rank t (Py.most_common 500 t.(total_freq))).


(** *** What the properties of the engine say *)

(** What is checked at each position of the table's range. *)
Definition ctr_checked (p : Z) : bool :=
  Py.Qleb (get_ctr_for_position (p + 1)) (get_ctr_for_position p)
  && Py.Qltb 0 (get_ctr_for_position p)
  && Py.Qleb (get_ctr_for_position p) 0.284
  && negb (falls_through p).

(** The rank [_estimate_current_rank] returns. *)
Definition rank_of (kw : string) (f : Z) : Z :=
  match _estimate_current_rank kw f with Some r => r | None => 0 end.


(** Flagged as an opportunity, with a score of at least 16. *)
Definition flagged (o : KeywordOpportunity) : Prop :=
  o.(is_opportunity) = true /\ (16 <= o.(opportunity_score) <= 100)%R.

End Keywords.

(** ** workers/crawl_worker.py: how the worker calls the analysis *)

Module Worker.

Import Analyzer.
Local Open Scope string_scope.
Local Open Scope Z_scope.

(** [[(p.url, p.keyword_frequencies) for p in analyzed_pages
      if p.keyword_frequencies]] *)
Definition page_kw_data (analyzed_pages : list AnalyzedPage)
    : list (string * Py.dict Z) :=
  map (fun p => (p.(url), p.(keyword_frequencies)))
    (List.filter (fun p => nonempty p.(keyword_frequencies)) analyzed_pages).

(** [KeywordEngine().aggregate_site_keywords(page_kw_data)]; the default
    [target_rank] is 3. *)
Definition keyword_opportunities (analyzed_pages : list AnalyzedPage)
    : option (list Keywords.KeywordOpportunity) :=
  Keywords.aggregate_site_keywords 3 (page_kw_data analyzed_pages).

(** [analyzer.analyze(crawl_result, depth)] for every page the crawler
    hands to [on_page_crawled]. *)
Definition analyzed_pages (L : Libs) (results : list Fetch.CrawlResult)
    : list AnalyzedPage :=
  map (analyze L) results.

(** [scorer.score_page(analyzed, inbound_link_count=0)] *)
Definition page_score (L : Libs) (crawl_result : Fetch.CrawlResult)
    : Scorer.PageScore :=
  Scorer.score_page (analyze L crawl_result) 0.

End Worker.

(** ** recommendations/engine.py *)

Module Recommendations.

Import Analyzer.
Local Open Scope string_scope.
Local Open Scope Z_scope.

Inductive Priority : Type := CRITICAL | HIGH | MEDIUM | LOW | INFO.

(** A recommendation: the issue, its severity and the page it is tagged
    with (the message texts that go with each issue are not modelled). *)
Record Recommendation : Type := {
  issue_type : string;
  severity : Priority;
  page_url : option string
}.

Definition rec (issue : string) (sev : Priority) : Recommendation :=
  {| issue_type := issue; severity := sev; page_url := None |}.

Definition _check_title (page : AnalyzedPage) : list Recommendation :=
  if negb (Py.truthy_opt page.(title)) then [rec "missing_title" CRITICAL]
  else if 60 <? page.(title_length) then [rec "title_too_long" MEDIUM]
  else if page.(title_length) <? 30 then [rec "title_too_short" MEDIUM]
  else [].

Definition _check_meta_description (page : AnalyzedPage)
    : list Recommendation :=
  if negb (Py.truthy_opt page.(meta_description))
  then [rec "missing_meta_description" HIGH]
  else if 160 <? page.(meta_description_length)
  then [rec "meta_description_too_long" LOW]
  else [].

Definition _check_headings (page : AnalyzedPage) : list Recommendation :=
  let h1_count := Z.of_nat (length page.(h1_tags)) in
  if h1_count =? 0 then [rec "missing_h1" HIGH]
  else if 1 <? h1_count then [rec "multiple_h1" MEDIUM]
  else [].

Definition _check_content (page : AnalyzedPage) : list Recommendation :=
  if (page.(word_count) <? 300) && page.(is_indexable) then
    let severity := if page.(word_count) <? 150 then HIGH else MEDIUM in
    [rec "thin_content" severity]
  else [].

Definition _check_images (page : AnalyzedPage) : list Recommendation :=
  if 0 <? page.(images_missing_alt) then
    let severity := if 5 <? page.(images_missing_alt) then HIGH else MEDIUM in
    [rec "images_missing_alt" severity]
  else [].

Definition _check_technical (page : AnalyzedPage) : list Recommendation :=
  app (if negb page.(is_https) then [rec "not_https" CRITICAL] else [])
    (app (if negb page.(has_viewport_meta)
          then [rec "missing_viewport" HIGH] else [])
         (if (3000 <? page.(load_time_ms)) && (0 <? page.(load_time_ms))
          then [rec "slow_page_load" HIGH] else [])).

Definition _check_structured_data (page : AnalyzedPage)
    : list Recommendation :=
  app (if negb page.(has_schema_markup)
       then [rec "missing_schema" MEDIUM] else [])
      (if negb page.(has_open_graph)
       then [rec "missing_open_graph" LOW] else []).

Definition _check_links (page : AnalyzedPage) : list Recommendation :=
  if (page.(internal_links_count) =? 0) && (100 <? page.(word_count))
  then [rec "no_internal_links" MEDIUM]
  else [].

(** [rec.page_url = page.url] *)
Definition tag (url : string) (r : Recommendation) : Recommendation :=
  {| issue_type := r.(issue_type); severity := r.(severity);
     page_url := Some url |}.

Definition generate_page_recommendations (page : AnalyzedPage)
    : list Recommendation :=
  let recommendations :=
    app (_check_title page)
      (app (_check_meta_description page)
        (app (_check_headings page)
          (app (_check_content page)
            (app (_check_images page)
              (app (_check_technical page)
                (app (_check_structured_data page)
                     (_check_links page))))))) in
  map (tag page.(url)) recommendations.

(** [sum(1 for p in pages if cond(p))] *)
Definition count (cond : AnalyzedPage -> bool) (pages : list AnalyzedPage)
    : Z :=
  Z.of_nat (length (List.filter cond pages)).

(** Comparison of an [int] with a [float] and the float literals of the
    thresholds: 0.3 and 0.8 are the doubles nearest to 3/10 and 8/10, which
    is what the correctly rounded quotients are. *)
Definition float_gt (x y : spec_float) : bool := SFltb y x.

Definition float_03 : spec_float := float_div (float_of_int 3) (float_of_int 10).
Definition float_08 : spec_float := float_div (float_of_int 8) (float_of_int 10).

Definition generate_site_recommendations (pages : list AnalyzedPage)
    : list Recommendation :=
  let total_pages := Z.of_nat (length pages) in
  if total_pages =? 0 then []
  else
    let pages_no_title := count (fun p => negb (Py.truthy_opt p.(title))) pages in
    let pages_no_meta :=
      count (fun p => negb (Py.truthy_opt p.(meta_description))) pages in
    let pages_no_schema := count (fun p => negb p.(has_schema_markup)) pages in
    let pages_thin_content := count (fun p => p.(word_count) <? 300) pages in
    let pages_not_https := count (fun p => negb p.(is_https)) pages in
    let pct (n : Z) : spec_float :=
      float_mul (float_div (float_of_int n) (float_of_int total_pages))
                (float_of_int 100) in
    let pct_no_title := pct pages_no_title in
    let pct_no_meta := pct pages_no_meta in
    app (if 0 <? pages_not_https then [rec "https_mixed" CRITICAL] else [])
      (app (if float_gt pct_no_title (float_of_int 5)
            then [rec "missing_titles_bulk" CRITICAL] else [])
        (app (if float_gt pct_no_meta (float_of_int 10)
              then [rec "missing_meta_bulk" HIGH] else [])
          (app (if float_gt (float_of_int pages_thin_content)
                     (float_mul (float_of_int total_pages) float_03)
                then [rec "thin_content_bulk" HIGH] else [])
               (if float_gt (float_of_int pages_no_schema)
                     (float_mul (float_of_int total_pages) float_08)
                then [rec "missing_schema_bulk" MEDIUM] else [])))).

(** The issue types the page checks can report, in the order of the
    checks. *)
Definition page_issue_types : list string :=
  [ "missing_title"; "title_too_long"; "title_too_short";
    "missing_meta_description"; "meta_description_too_long";
    "missing_h1"; "multiple_h1"; "thin_content"; "images_missing_alt";
    "not_https"; "missing_viewport"; "slow_page_load";
    "missing_schema"; "missing_open_graph"; "no_internal_links" ].

Definition site_issue_types : list string :=
  [ "https_mixed"; "missing_titles_bulk"; "missing_meta_bulk";
    "thin_content_bulk"; "missing_schema_bulk" ].

Definition issues (recs : list Recommendation) : list string :=
  map issue_type recs.

(** The issue and its severity. *)
Definition issue_of (r : Recommendation) : string * Priority :=
  (r.(issue_type), r.(severity)).

End Recommendations.

(** ** crawler/crawler.py: the HTTP fetch *)

Module Fetcher.

Local Open Scope string_scope.
Local Open Scope Z_scope.

(** The [httpx] response as [_fetch_with_http] reads it. *)
Record Response : Type := {
  response_url : string;        (* str(response.url) *)
  status_code : Z;
  text : string;
  headers : Py.dict string;     (* dict(response.headers) *)
  content_length : Z            (* len(response.content) *)
}.

(** [_fetch_with_http]; a request either returns a response or raises an
    exception, given by its message [str(e)].  [load_time] is the time
    measured, [int((time.time() - start) * 1000)]. *)
Definition _fetch_with_http (get : string -> Response + string)
    (load_time : Z) (url : string) : Fetch.CrawlResult :=
  match get url with
  | inl response =>
      {| Fetch.url := url;
         Fetch.final_url := response.(response_url);
         Fetch.status_code := response.(status_code);
         Fetch.html := response.(text);
         Fetch.headers := response.(headers);
         Fetch.load_time_ms := load_time;
         Fetch.page_size_bytes := response.(content_length);
         Fetch.error := None |}
  | inr e =>
      {| Fetch.url := url; Fetch.final_url := url; Fetch.status_code := 0;
         Fetch.html := ""; Fetch.headers := []; Fetch.load_time_ms := load_time;
         Fetch.page_size_bytes := 0; Fetch.error := Some e |}
  end.

End Fetcher.

(** ** crawler/crawler.py: the frontier of a crawl *)

Module Frontier.

Import Crawler.
Local Open Scope string_scope.
Local Open Scope Z_scope.

(** The batch an iteration of the main loop draws from the queue. *)
Definition batch_of (self : Crawler) (st : State) : list (string * Z) :=
  fst (fst (fill_batch self.(max_concurrent) st.(url_queue)
              st.(visited_urls) [])).

(** The URLs for which the first [n] iterations create a [_crawl_page]
    task, in order. *)
Fixpoint requested (L : Libs) (self : Crawler) (n : nat) (st : State)
    : list string :=
  match n with
  | O => []
  | S n' =>
      match iteration L self st with
      | Continue st' =>
          app (map fst (batch_of self st)) (requested L self n' st')
      | Stop _ => []
      end
  end.

(** The queue holds each URL once; its URLs are registered in
    [queued_urls], not yet visited, and at a depth between 0 and
    [max_depth]; every visited URL was queued. *)
Definition frontier_ok (self : Crawler) (st : State) : Prop :=
  NoDup (map fst st.(url_queue))
  /\ Forall (fun item => (fst item ∈ st.(queued_urls))
                         /\ (fst item ∉ st.(visited_urls))
                         /\ 0 <= snd item <= Z.max 0 self.(max_depth))
       st.(url_queue)
  /\ st.(visited_urls) ⊆ st.(queued_urls).

End Frontier.

(** ** crawler/sitemap.py: what a sitemap lists *)

Module SitemapFacts.

Import Sitemap.
Local Open Scope string_scope.

(** What a successful download of one sitemap yields: the [<loc>] entries
    of the body, or of the unzipped body. *)
Definition listed_in (L : Libs) (response : Http.Response) (u : string)
    : Prop :=
  In u (_parse_xml L response.(Http.body))
  \/ exists content, L.(gunzip) response.(Http.body) = Some content
                     /\ In u (_parse_xml L content).

End SitemapFacts.

(** ** crawler/robots.py: robots.txt texts *)

Module RobotsText.

Import Robots.
Local Open Scope string_scope.
Local Open Scope Z_scope.

(** A robots.txt made of lines, each ended by a line feed. *)
Definition robots_text (lines : list string) : string :=
  fold_right (fun line rest => String.append line (String "010" rest)) ""
    lines.

(** A [Sitemap:] directive for [u]. *)
Definition sitemap_line (u : string) : string := String.append "Sitemap: " u.

(** A URL that holds no line break and no white space at either end. *)
Definition plain_url (u : string) : bool :=
  forallb (fun c => negb (is_linebreak c)) (Py.chars u)
  && String.eqb (Py.strip u) u.

End RobotsText.

(** ** api/schemas.py *)

Module Schemas.

Local Open Scope string_scope.

(** [CrawlRequest.validate_url] *)
Definition has_scheme (v : string) : bool :=
  Py.startswith "http://" v || Py.startswith "https://" v.

Definition validate_url (v : string) : string :=
  let v := if negb (has_scheme v) then String.append "https://" v else v in
  Sitemap.rstrip_slash v.

End Schemas.

(** ** Concrete pages and sites used in the examples of the properties *)

Module Cases.

Import Analyzer.
Local Open Scope string_scope.
Local Open Scope Z_scope.

(** A page that earns full marks for its title, description, first
    heading and technical signals. *)
Definition perfect_page : AnalyzedPage :=
  {| url := "https://example.test/guide"; canonical_url := None;
     status_code := 200;
     title := Some "Technical SEO audits explained for growing web shops";
     title_length := 52;
     meta_description :=
       Some (String.append
               "Learn how to audit a web shop for technical search problems: "
               (String.append
                  "crawling, indexing, page speed, structured data and "
                  "internal links, with a checklist to follow"));
     meta_description_length := 155;
     meta_robots := None; canonical_tag := Some "https://example.test/guide";
     is_indexable := true; is_canonical := true;
     h1_tags := ["Technical SEO audits"]; h2_tags := []; h3_tags := [];
     h4_tags := []; h5_tags := []; h6_tags := [];
     word_count := 900; content_text := ""; reading_time_seconds := 240;
     text_html_ratio := 0%Q; language := None;
     load_time_ms := 300; page_size_bytes := 2048;
     is_https := true; has_viewport_meta := true;
     has_schema_markup := true; schema_types := [];
     structured_data := [];
     has_open_graph := true; open_graph_data := [];
     has_twitter_card := true; twitter_card_data := [];
     has_hreflang := true;
     total_images := 0; images_missing_alt := 0; images_with_alt := 0;
     internal_links := []; external_links := [];
     internal_links_count := 0; external_links_count := 0;
     keyword_frequencies := []; entities := [];
     raw_html := ""; headers := [] |}.

(** Two sitemaps announced in a robots.txt. *)
Definition listed : list string :=
  [ "https://example.test/sitemap.xml";
    "https://example.test/news/sitemap.xml" ].

Definition serves_robots : Http.Client :=
  {| Http.head := fun _ => None;
     Http.get := fun u =>
       if String.eqb u "https://example.test/robots.txt"
       then Some {| Http.status_code := 200;
                    Http.body :=
                      RobotsText.robots_text
                        (map RobotsText.sitemap_line listed);
                    Http.headers := [] |}
       else None |}.

(** A server that cannot be reached: every request raises after five
    seconds. *)
Definition timing_out (u : string) : Fetcher.Response + string :=
  inr "timed out".

Definition unreachable_site : Crawler.Libs :=
  Examples.crawl_libs
    (fun u => Some (Fetcher._fetch_with_http timing_out 5000 u)) [].

End Cases.

(** * Properties of the scorer *)

Section ScorerProps.
Import Scorer.
Local Open Scope Q_scope.

Lemma Qltb_spec (x y : Q) : reflect (x < y) (Py.Qltb x y).
Proof.
  unfold Py.Qltb. destruct (x ?= y) eqn:E; constructor.
  - apply Qeq_alt in E. rewrite E. apply Qlt_irrefl.
  - apply Qlt_alt, E.
  - apply Qgt_alt in E. apply Qle_not_lt, Qlt_le_weak, E.
Qed.

Lemma clamp_range (v : Q) : 0 <= clamp v <= 100.
Proof.
  unfold clamp, clamp_between, py_max, py_min.
  destruct (Qltb_spec v 100); destruct (Qltb_spec 0 v);
    destruct (Qltb_spec 0 100); lra.
Qed.

Lemma clamp_fixes (v : Q) : 0 <= v <= 100 -> clamp v == v.
Proof.
  intros [H0 H1]. unfold clamp, clamp_between, py_max, py_min.
  destruct (Qltb_spec v 100); destruct (Qltb_spec 0 v);
    destruct (Qltb_spec 0 100); lra.
Qed.

(** The weighted sum of five clamped dimensions needs no clamping. *)
Lemma weighted_range (t c a l v : Q) :
  0 <= t <= 100 -> 0 <= c <= 100 -> 0 <= a <= 100 ->
  0 <= l <= 100 -> 0 <= v <= 100 ->
  0 <= weighted Config.settings t c a l v <= 100.
Proof. intros. unfold weighted. cbn. lra. Qed.

(** C1.  For every analyzed page and every inbound link count,
    [score_page] returns five dimension scores in [0,100]; the overall
    score is the weighted sum 0.35 technical + 0.30 content + 0.20
    authority + 0.10 linking + 0.05 ai_visibility (exactly, hence within
    0.01) and lies in [0,100]. *)
Theorem score_page_dimensions_and_overall
    (page : Analyzer.AnalyzedPage) (inbound_link_count : Z) :
  let s := score_page page inbound_link_count in
  (0 <= s.(technical_score) <= 100)
  /\ (0 <= s.(content_score) <= 100)
  /\ (0 <= s.(authority_score) <= 100)
  /\ (0 <= s.(linking_score) <= 100)
  /\ (0 <= s.(ai_visibility_score) <= 100)
  /\ s.(overall_score) == claimed_overall s
  /\ Qabs (s.(overall_score) - claimed_overall s) <= 1 # 100
  /\ (0 <= s.(overall_score) <= 100).
Proof.
  unfold score_page.
  destruct (_score_technical page) as [t tb].
  destruct (_score_content page) as [c cb].
  destruct (_score_linking page inbound_link_count) as [l lb].
  cbv zeta. unfold claimed_overall.
  cbn [technical_score content_score authority_score linking_score
       ai_visibility_score overall_score].
  set (a := _score_authority inbound_link_count).
  set (v := _score_ai_visibility page).
  pose proof (clamp_range t) as Ht.
  pose proof (clamp_range c) as Hc.
  pose proof (clamp_range a) as Ha.
  pose proof (clamp_range l) as Hl.
  pose proof (clamp_range v) as Hv.
  pose proof (weighted_range _ _ _ _ _ Ht Hc Ha Hl Hv) as Hr.
  assert (Heq : clamp (weighted Config.settings (clamp t) (clamp c)
                         (clamp a) (clamp l) (clamp v))
                == (35 # 100) * clamp t + (30 # 100) * clamp c
                   + (20 # 100) * clamp a + (10 # 100) * clamp l
                   + (5 # 100) * clamp v).
  { rewrite (clamp_fixes _ Hr). unfold weighted. cbn. ring. }
  assert (Habs : Qabs (clamp (weighted Config.settings (clamp t) (clamp c)
                                (clamp a) (clamp l) (clamp v))
                       - ((35 # 100) * clamp t + (30 # 100) * clamp c
                          + (20 # 100) * clamp a + (10 # 100) * clamp l
                          + (5 # 100) * clamp v)) <= 1 # 100).
  { rewrite Heq.
    match goal with
    | |- Qabs ?e <= _ => assert (He : e == 0) by ring; rewrite He
    end.
    cbn. discriminate. }
  pose proof (clamp_range (weighted Config.settings (clamp t) (clamp c)
                             (clamp a) (clamp l) (clamp v))) as Ho.
  tauto.
Qed.

End ScorerProps.

(** * Properties of the analyzer *)

Section AnalyzerProps.
Import Analyzer.
Local Open Scope string_scope.
Local Open Scope Z_scope.

(** C10.  For a crawl result whose html is empty, [analyze] copies url,
    status_code, load_time_ms, page_size_bytes, headers, raw_html and
    is_https (whether the url starts with "https://") and returns; every
    other field keeps the value [__init__] gave it: word_count 0, the six
    heading lists empty, no keyword frequencies, total_images 0,
    is_indexable true, and so on. *)
Theorem analyze_empty_html (L : Libs) (cr : Fetch.CrawlResult) :
  cr.(Fetch.html) = "" ->
  analyze L cr =
  {| url := cr.(Fetch.url);
     canonical_url := None;
     status_code := cr.(Fetch.status_code);
     title := None; title_length := 0;
     meta_description := None; meta_description_length := 0;
     meta_robots := None; canonical_tag := None;
     is_indexable := true; is_canonical := true;
     h1_tags := []; h2_tags := []; h3_tags := [];
     h4_tags := []; h5_tags := []; h6_tags := [];
     word_count := 0; content_text := ""; reading_time_seconds := 0;
     text_html_ratio := 0%Q; language := None;
     load_time_ms := cr.(Fetch.load_time_ms);
     page_size_bytes := cr.(Fetch.page_size_bytes);
     is_https := Py.startswith "https://" cr.(Fetch.url);
     has_viewport_meta := false;
     has_schema_markup := false; schema_types := [];
     structured_data := [];
     has_open_graph := false; open_graph_data := [];
     has_twitter_card := false; twitter_card_data := [];
     has_hreflang := false;
     total_images := 0; images_missing_alt := 0; images_with_alt := 0;
     internal_links := []; external_links := [];
     internal_links_count := 0; external_links_count := 0;
     keyword_frequencies := []; entities := [];
     raw_html := "";
     headers := cr.(Fetch.headers) |}.
Proof.
  intros Hhtml. unfold analyze. rewrite Hhtml. reflexivity.
Qed.

Lemma analyze_empty_html_witness :
  Examples.empty_page.(Fetch.html) = ""
  /\ (analyze Examples.six_words Examples.empty_page).(is_https) = true
  /\ (analyze Examples.six_words Examples.empty_page).(word_count) = 0
  /\ (analyze Examples.six_words Examples.empty_page).(is_indexable) = true.
Proof.
  split; [reflexivity|].
  rewrite (analyze_empty_html Examples.six_words Examples.empty_page);
    [|reflexivity].
  repeat split; reflexivity.
Defined.

(** The steps that follow [_extract_content] leave the content metrics
    alone. *)
Lemma later_steps_keep_content (L : Libs) (p : AnalyzedPage) (soup : Soup)
    (raw final : string) :
  let q := _compute_keyword_frequencies
             (_extract_technical_signals
                (_extract_social_meta
                   (_extract_structured_data L
                      (_extract_links L (_extract_images p soup) soup final)
                      soup raw final) soup) soup) in
  q.(word_count) = p.(word_count)
  /\ q.(reading_time_seconds) = p.(reading_time_seconds).
Proof.
  cbv zeta.
  unfold _compute_keyword_frequencies, _extract_structured_data.
  split;
    repeat match goal with
           | |- context [match ?x with _ => _ end] => destruct x
           end; reflexivity.
Qed.

Lemma reading_time_positive (wc : Z) : 1 <= reading_time wc.
Proof. unfold reading_time. apply Z.le_max_l. Qed.

(** C4, as the code has it.  When the content extraction yields a
    non-empty text, word_count is the number of whitespace-separated words
    and reading_time_seconds = max(1, int((word_count / 225) * 60)), the
    double-precision product truncated toward zero, which is at least 1.
    When the html is empty or the extraction yields nothing, both
    word_count and reading_time_seconds keep their initial value 0. *)
Theorem analyzed_reading_time (L : Libs) (cr : Fetch.CrawlResult) :
  let page := analyze L cr in
  let extracted :=
    if Py.truthy cr.(Fetch.html)
    then L.(trafilatura_extract) cr.(Fetch.html) else None in
  if Py.truthy_opt extracted then
    page.(word_count) = Z.of_nat (length (Py.split (default "" extracted)))
    /\ page.(reading_time_seconds) = reading_time page.(word_count)
    /\ 1 <= page.(reading_time_seconds)
  else
    page.(word_count) = 0 /\ page.(reading_time_seconds) = 0.
Proof.
  cbv zeta. unfold analyze.
  destruct (Py.truthy (Fetch.html cr)) eqn:Hhtml; cbn [negb].
  2: { cbn. split; reflexivity. }
  match goal with
  | |- context [_compute_keyword_frequencies
                  (_extract_technical_signals
                     (_extract_social_meta
                        (_extract_structured_data L
                           (_extract_links L (_extract_images ?p ?s) ?s ?f)
                           ?s ?r ?f) ?s) ?s)] =>
      destruct (later_steps_keep_content L p s r f) as [Hwc Hrt]
  end.
  cbv zeta in Hwc, Hrt. rewrite Hwc, Hrt. clear Hwc Hrt.
  unfold _extract_content. cbn [word_count reading_time_seconds].
  destruct (trafilatura_extract L (Fetch.html cr)) as [e|];
    cbn [Py.truthy_opt].
  - destruct (Py.truthy e); cbn.
    + split; [reflexivity|]. split; [reflexivity|].
      apply reading_time_positive.
    + split; reflexivity.
  - cbn. split; reflexivity.
Qed.

(** C4 as stated fails twice: the page analyzed from an empty body has
    word_count 0 and reading_time_seconds 0, not 1; and a page of six
    words gets 1 second where rounding 1.6 would give 2. *)
Lemma reading_time_is_not_rounded :
  let empty := analyze Examples.six_words Examples.empty_page in
  let short := analyze Examples.six_words Examples.short_page in
  empty.(word_count) = 0
  /\ empty.(reading_time_seconds) = 0
  /\ empty.(reading_time_seconds) <> spec_reading_time empty.(word_count)
  /\ short.(word_count) = 6
  /\ short.(reading_time_seconds) = 1
  /\ short.(reading_time_seconds) <> spec_reading_time short.(word_count).
Proof. vm_compute. repeat split; discriminate. Qed.

(** The double-precision product is the exact quotient word_count*60/225
    rounded down, except that at a multiple of 15 (where the quotient is an
    integer) it can fall one short: 1845 words give 491 seconds, not 492. *)
Definition truncation_agrees (wc : Z) : bool :=
  let r := reading_time wc in
  let exact := Z.max 1 (wc * 60 / 225) in
  if wc mod 15 =? 0
  then (Z.max 1 (exact - 1) <=? r) && (r <=? exact)
  else r =? exact.

Lemma reading_time_truncates (wc : Z) :
  0 <= wc <= 5000 -> truncation_agrees wc = true.
Proof.
  intros H.
  assert (Hall : forallb truncation_agrees (seqZ 0 5001) = true)
    by (vm_compute; reflexivity).
  rewrite forallb_forall in Hall. apply Hall.
  apply list_elem_of_In, elem_of_seqZ. lia.
Qed.

Example reading_time_1845 : reading_time 1845 = 491.
Proof. vm_compute. reflexivity. Qed.

(** C5 fails on a quoted stop word.  The source tests the length and the
    stop-word set on the token before it strips the quotes, so in
               the 'at' plan
    the token 'at' (four characters, not a stop word as written) is kept
    and becomes the keyword at; stripping first, as C5 describes, drops
    it. *)
Theorem keyword_filter_runs_before_strip :
  keyword_frequencies_of "the 'at' plan" = [("at", 1); ("plan", 1)]
  /\ spec_keyword_frequencies "the 'at' plan" = [("plan", 1)]
  /\ Py.mem "at" STOP_WORDS = true
  /\ Py.len "at" <= 2.
Proof. vm_compute. repeat split; discriminate. Qed.

(** The two orders agree on tokens that carry no quote or hyphen at either
    end; the difference is confined to the tokens that stripping changes. *)
Lemma meaningful_agrees (tokens : list string) :
  Forall (fun t => strip_quotes t = t) tokens ->
  meaningful tokens = spec_meaningful tokens.
Proof.
  unfold meaningful, spec_meaningful.
  induction 1 as [|t tokens Ht Hts IH]; [reflexivity|].
  cbn [map List.filter]. rewrite Ht.
  assert (Hlen : (2 <? Py.len t) = true -> Py.truthy t = true).
  { destruct t; [discriminate|reflexivity]. }
  destruct (2 <? Py.len t) eqn:Hl; cbn [andb]; [|exact IH].
  rewrite (Hlen eq_refl), andb_true_r.
  destruct (negb (Py.mem t STOP_WORDS)); [|exact IH].
  cbn [map]. rewrite Ht, IH. reflexivity.
Qed.

(** The parts of C5 that do not depend on the order of the filter: an
    empty content_text leaves the map empty. *)
Lemma keyword_frequencies_empty (p : AnalyzedPage) :
  p.(content_text) = "" ->
  (_compute_keyword_frequencies p).(keyword_frequencies)
  = p.(keyword_frequencies).
Proof.
  intros H. unfold _compute_keyword_frequencies. rewrite H. reflexivity.
Qed.

End AnalyzerProps.

(** * Properties of the keyword engine *)

Section KeywordProps.
Import KeywordEngine.
Local Open Scope R_scope.

Lemma Int_part_bounds (x : R) : IZR (Int_part x) <= x < IZR (Int_part x) + 1.
Proof. destruct (base_Int_part x) as [H1 H2]. lra. Qed.

Lemma Int_part_mono (x y : R) : x <= y -> (Int_part x <= Int_part y)%Z.
Proof.
  intros H. pose proof (Int_part_bounds x). pose proof (Int_part_bounds y).
  assert (Hlt : IZR (Int_part x) < IZR (Int_part y + 1)) by (rewrite plus_IZR; lra).
  apply lt_IZR in Hlt. lia.
Qed.

Lemma Int_part_IZR (n : Z) : Int_part (IZR n) = n.
Proof. symmetry. apply Int_part_spec. lra. Qed.

Lemma frac_part_eq (x : R) : frac_part x = x - IZR (Int_part x).
Proof. reflexivity. Qed.

Lemma round_half_even_bounds (x : R) :
  (Int_part x <= round_half_even x <= Int_part x + 1)%Z.
Proof.
  unfold round_half_even.
  repeat match goal with |- context [if ?c then _ else _] => destruct c end; lia.
Qed.

Lemma round_half_even_mono (x y : R) :
  x <= y -> (round_half_even x <= round_half_even y)%Z.
Proof.
  intros H. pose proof (Int_part_mono x y H) as Hm.
  destruct (Z.eq_dec (Int_part x) (Int_part y)) as [He|Hne].
  - unfold round_half_even. rewrite !frac_part_eq, He.
    repeat match goal with |- context [if ?c then _ else _] => destruct c end;
      try lia; lra.
  - pose proof (round_half_even_bounds x). pose proof (round_half_even_bounds y).
    lia.
Qed.

Lemma round_half_even_IZR (n : Z) : round_half_even (IZR n) = n.
Proof.
  unfold round_half_even. rewrite frac_part_eq, Int_part_IZR.
  destruct (Rlt_dec (IZR n - IZR n) (1 / 2)); [reflexivity|lra].
Qed.

Lemma round2_mono (x y : R) : x <= y -> round2 x <= round2 y.
Proof.
  intros H. unfold round2.
  assert (Hz : (round_half_even (x * 100) <= round_half_even (y * 100))%Z)
    by (apply round_half_even_mono; lra).
  apply IZR_le in Hz. lra.
Qed.

Lemma round2_0 : round2 0 = 0.
Proof.
  unfold round2. replace (0 * 100) with (IZR 0) by lra.
  rewrite round_half_even_IZR. lra.
Qed.

Lemma round2_100 : round2 100 = 100.
Proof.
  unfold round2. replace (100 * 100) with (IZR 10000) by lra.
  rewrite round_half_even_IZR. lra.
Qed.


Lemma log1p_nonneg (x : R) : 0 <= x -> 0 <= log1p x.
Proof.
  intros H. unfold log1p. destruct (Req_dec x 0) as [->|Hne].
  - rewrite Rplus_0_r, ln_1. lra.
  - rewrite <- ln_1. left. apply ln_increasing; lra.
Qed.

Lemma log1p_mono (x y : R) : 0 <= x -> x <= y -> log1p x <= log1p y.
Proof.
  intros Hx H. unfold log1p. destruct (Req_dec x y) as [->|Hne]; [lra|].
  left. apply ln_increasing; lra.
Qed.


Lemma min_100_mono (x y : R) : x <= y -> min_100 x <= min_100 y.
Proof.
  intros H. unfold min_100.
  destruct (Rlt_dec x 100); destruct (Rlt_dec y 100); lra.
Qed.

Lemma min_100_range (x : R) : 0 <= x -> 0 <= min_100 x <= 100.
Proof. intros H. unfold min_100. destruct (Rlt_dec x 100); lra. Qed.

Lemma normalize_mono (x y : R) : 0 <= x -> x <= y -> normalize x <= normalize y.
Proof.
  intros Hx H. unfold normalize. apply round2_mono, min_100_mono.
  pose proof (log1p_mono x y Hx H). lra.
Qed.

Lemma normalize_range (x : R) : 0 <= x -> 0 <= normalize x <= 100.
Proof.
  intros Hx. unfold normalize.
  pose proof (log1p_nonneg x Hx) as Hl.
  assert (Hm : 0 <= min_100 (log1p x * 8) <= 100) by (apply min_100_range; lra).
  split.
  - apply Rle_trans with (round2 0); [rewrite round2_0; lra|].
    apply round2_mono. lra.
  - apply Rle_trans with (round2 100); [|rewrite round2_100; lra].
    apply round2_mono. lra.
Qed.

Lemma effective_difficulty_positive (d : R) : 0 < effective_difficulty d.
Proof. unfold effective_difficulty. destruct (Rle_dec d 0); lra. Qed.

Lemma compute_returns (v : Z) (c : R) (g : Z) (d : R) :
  compute_opportunity_score v c g d = Some (returned v c g d).
Proof.
  unfold compute_opportunity_score, returned, divide.
  destruct (v <=? 0)%Z; [reflexivity|].
  destruct (Rle_dec c 0); [reflexivity|].
  destruct (g <=? 0)%Z; [reflexivity|].
  pose proof (effective_difficulty_positive d).
  destruct (Req_EM_T (effective_difficulty d) 0); [lra|reflexivity].
Qed.

Lemma raw_of_positive (v : Z) (c : R) (g : Z) (d : R) :
  (0 < v)%Z -> 0 < c -> (0 < g)%Z -> 0 < raw_of v c g d.
Proof.
  intros Hv Hc Hg. unfold raw_of.
  apply IZR_lt in Hv, Hg. pose proof (effective_difficulty_positive d).
  apply Rdiv_lt_0_compat; [|assumption].
  apply Rmult_lt_0_compat; [apply Rmult_lt_0_compat|]; assumption.
Qed.

Lemma returned_range (v : Z) (c : R) (g : Z) (d : R) : 0 <= returned v c g d <= 100.
Proof.
  unfold returned.
  destruct (Z.leb_spec v 0); [lra|].
  destruct (Rle_dec c 0); [lra|].
  destruct (Z.leb_spec g 0); [lra|].
  apply normalize_range. left. apply raw_of_positive; [lia|lra|lia].
Qed.













End KeywordProps.

(** * Properties of the sitemap parser *)

Section SitemapProps.
Import Sitemap.
Local Open Scope string_scope.

(** C2 on a site whose /sitemap.xml is an index with one [<sitemap>] child.
    [fetch_all] returns the [<loc>] of that child, the URL of the referenced
    sitemap, as if it were a page; the url-set behind it is never fetched.
    The union of the [<loc>] entries of the referenced url-set is the two
    pages /a and /b. *)
Theorem sitemap_index_is_not_followed :
  fetch_all Examples.sitemap_libs Examples.home
  = {[ "https://example.test/sitemap-pages.xml" ]}
  /\ spec_parse_index Examples.sitemap_libs Examples.index_text
     = {[ "https://example.test/a"; "https://example.test/b" ]}
  /\ fetch_all Examples.sitemap_libs Examples.home
     <> spec_parse_index Examples.sitemap_libs Examples.index_text.
Proof.
  assert (H1 : fetch_all Examples.sitemap_libs Examples.home
               = {[ "https://example.test/sitemap-pages.xml" ]})
    by (vm_compute; reflexivity).
  assert (H2 : spec_parse_index Examples.sitemap_libs Examples.index_text
               = {[ "https://example.test/a"; "https://example.test/b" ]})
    by (vm_compute; reflexivity).
  split; [exact H1|]. split; [exact H2|].
  rewrite H1, H2. intros H.
  assert (Hin : "https://example.test/a"
                ∈ ({[ "https://example.test/sitemap-pages.xml" ]} : gset string))
    by (rewrite H; set_solver).
  apply elem_of_singleton in Hin. discriminate.
Qed.

(** A document with [<sitemap>] children is never read as a url-set: its
    own [<loc>] entries are the result. *)
Lemma parse_xml_of_index (L : Libs) (xml_content : string) :
  find_all (L.(parse_xml) xml_content) "sitemap" <> [] ->
  _parse_xml L xml_content
  = locs (find_all (L.(parse_xml) xml_content) "sitemap").
Proof.
  intros H. unfold _parse_xml.
  destruct (find_all (parse_xml L xml_content) "sitemap"); [contradiction|].
  reflexivity.
Qed.

(** The crawler then drops such an entry: a URL that contains ".xml" is
    not crawlable, so nothing of an index reaches the queue. *)
Lemma index_entry_is_not_crawlable (L : Crawler.Libs) :
  Crawler.is_crawlable_url L "https://example.test/sitemap-pages.xml" = false.
Proof.
  unfold Crawler.is_crawlable_url.
  destruct (negb _); [reflexivity|].
  destruct (existsb _ Crawler.excluded_extensions); [reflexivity|].
  vm_compute. reflexivity.
Qed.

End SitemapProps.

(** * Properties of the robots policy *)

Section RobotsProps.
Import Robots.
Local Open Scope string_scope.
Local Open Scope Z_scope.

(** The queries of a job never send a request and never change the
    checker. *)
Lemma queries_send_nothing {L : Libs} (client : Http.Client)
    (calls : list call) (st : RobotsChecker L * list string) :
  forallb is_query calls = true ->
  fold_left (perform client) calls st = st.
Proof.
  revert st. induction calls as [|c calls IH]; intros st H; [reflexivity|].
  cbn in H. apply andb_prop in H as [Hc Hcs].
  cbn [fold_left]. destruct c; [discriminate| |]; cbn [perform]; apply IH, Hcs.
Qed.

(** C7.  When the request for robots.txt raises or is answered with a
    status other than 200, [fetch] sends that one request and leaves a
    policy that allows every URL, lists no sitemap and has crawl delay 0;
    the queries made afterwards ([is_allowed], [get_sitemaps]) send no
    request and do not change the policy, so robots.txt is not fetched
    again. *)
Theorem robots_failure_allows_all (L : Libs) (client : Http.Client)
    (base : string) :
  let self := init L base in
  let robots_url := String.append self.(base_url) "/robots.txt" in
  match client.(Http.get) robots_url with
  | Some response => response.(Http.status_code) <> 200
  | None => True
  end ->
  let policy := fst (fetch L client self) in
  let sent := snd (fetch L client self) in
  sent = [robots_url]
  /\ policy.(_fetched) = true
  /\ (forall url, is_allowed policy url = true)
  /\ get_sitemaps policy = []
  /\ policy.(crawl_delay) = 0%Q
  /\ (forall calls, forallb is_query calls = true ->
        fold_left (perform client) calls (policy, sent) = (policy, sent)).
Proof.
  cbv zeta. intros Hfail.
  assert (Hpolicy : fst (fetch L client (init L base))
                    = {| base_url := (init L base).(base_url);
                         _parser := None; crawl_delay := 0%Q;
                         raw_content := None; _fetched := true |}).
  { unfold fetch.
    destruct (Http.get client _) as [response|]; cbn [fst].
    - destruct (Z.eqb_spec (Http.status_code response) 200); [contradiction|].
      reflexivity.
    - reflexivity. }
  rewrite Hpolicy.
  split; [reflexivity|]. split; [reflexivity|].
  split; [intros url; reflexivity|].
  split; [reflexivity|]. split; [reflexivity|].
  intros calls Hq. apply queries_send_nothing, Hq.
Qed.

Lemma robots_failure_allows_all_witness :
  match Examples.indexed_site.(Http.get) "https://example.test/robots.txt" with
  | Some response => response.(Http.status_code) <> 200
  | None => True
  end
  /\ is_allowed
       (fst (fetch Examples.strict_rules Examples.indexed_site
               (init Examples.strict_rules "https://example.test/")))
       "https://example.test/private" = true.
Proof.
  assert (H : match Examples.indexed_site.(Http.get)
                      "https://example.test/robots.txt" with
              | Some response => response.(Http.status_code) <> 200
              | None => True
              end) by (cbn; discriminate).
  split; [exact H|].
  exact (proj1 (proj2 (proj2 (robots_failure_allows_all Examples.strict_rules
                                Examples.indexed_site "https://example.test/" H)))
           "https://example.test/private").
Defined.

End RobotsProps.

(** * Properties of the rate limiter *)

Section RateLimiterProps.
Import RateLimiter.
Local Open Scope Q_scope.

Lemma sleep_forward (d over : Q) (w : World) :
  w.(clock) <= (sleep d over w).(clock).
Proof.
  unfold sleep, elapse. cbn [clock].
  destruct (Qltb_spec (d + over) 0); lra.
Qed.

Lemma sleep_long_enough (eps d over : Q) (w : World) :
  - eps <= over -> w.(clock) + d - eps <= (sleep d over w).(clock).
Proof.
  intros H. unfold sleep, elapse. cbn [clock].
  destruct (Qltb_spec (d + over) 0); lra.
Qed.

(** One call: the clock only moves forward, the completion time is recorded
    for the host and is at least [min_interval - eps] after the previous
    one, and the other hosts are left alone. *)
Lemma acquire_step (eps : Q) (self : DomainRateLimiter) (h : string)
    (t : Timing) (w : World) :
  0 <= eps -> admissible eps t ->
  let '(self', w') := acquire self h t w in
  w.(clock) <= w'.(clock)
  /\ last self' h = w'.(clock)
  /\ last self h + (self.(min_interval) - eps) <= w'.(clock)
  /\ self'.(min_interval) = self.(min_interval)
  /\ (forall h', h' <> h -> last self' h' = last self h').
Proof.
  intros He (Hb & Ho & Ha). unfold acquire.
  set (w1 := elapse (before t) w).
  set (wait_time := min_interval self - (clock w1 - last self h)).
  set (w2 := if Py.Qltb 0 wait_time then sleep wait_time (over t) w1 else w1).
  assert (H1 : clock w <= clock w1) by (unfold w1, elapse; cbn [clock]; lra).
  assert (H2 : clock w1 <= clock w2).
  { unfold w2. destruct (Py.Qltb 0 wait_time); [apply sleep_forward|lra]. }
  assert (H3 : last self h + (min_interval self - eps) <= clock w2).
  { unfold w2. destruct (Qltb_spec 0 wait_time) as [Hw|Hw].
    - pose proof (sleep_long_enough eps wait_time (over t) w1 Ho) as Hs.
      unfold wait_time in Hs at 1. lra.
    - unfold wait_time in Hw. lra. }
  cbn [clock elapse min_interval].
  split; [lra|]. split.
  - unfold last. cbn [_last_request]. rewrite lookup_insert_eq. reflexivity.
  - split; [lra|]. split; [reflexivity|].
    intros h' Hne. unfold last. cbn [_last_request].
    rewrite lookup_insert_ne by congruence.
    reflexivity.
Qed.

(** Along a run, every completion time is at or after the starting clock,
    the times of one host are spaced, and the first of them comes at least
    the interval after the host's previous request. *)
Lemma run_spaced (eps : Q) (h : string) (calls : list (string * Timing)) :
  0 <= eps ->
  Forall (fun c => admissible eps (snd c)) calls ->
  forall (self : DomainRateLimiter) (w : World),
    let gap := self.(min_interval) - eps in
    let ts := times_of h (run self w calls) in
    spaced gap ts
    /\ spaced 0 ts
    /\ (forall t, head ts = Some t ->
               last self h + gap <= t /\ w.(clock) <= t).
Proof.
  intros He Hall. induction Hall as [|[d t] calls Ht Hall IH]; intros self w.
  - cbn. repeat split; intros; discriminate.
  - cbv zeta. cbn [run].
    pose proof (acquire_step eps self d t w He Ht) as Hstep.
    destruct (acquire self d t w) as [self' w'].
    destruct Hstep as (Hclk & Hlast & Hgap & Hmin & Hother).
    specialize (IH self' w'). cbv zeta in IH. rewrite Hmin in IH.
    destruct IH as (IHs & IH0 & IHh).
    unfold times_of in *. cbn [List.filter fst snd map].
    destruct (String.eqb_spec d h) as [->|Hne].
    + cbn [map snd head].
      destruct (map snd (List.filter _ (run self' w' calls))) as [|b ts] eqn:E.
      * split; [exact I|]. split; [exact I|].
        intros t0 [= <-]. split; [exact Hgap|exact Hclk].
      * destruct (IHh b eq_refl) as [Hb Hb'].
        rewrite Hlast in Hb.
        split; [split; [exact Hb|exact IHs]|].
        split; [split; [lra|exact IH0]|].
        intros t0 [= <-]. split; [exact Hgap|exact Hclk].
    + split; [exact IHs|]. split; [exact IH0|].
      intros t0 Ht0. destruct (IHh t0 Ht0) as [H1 H2].
      rewrite (Hother h) in H1 by congruence. split; lra.
Qed.

(** C8.  A limiter built for [rps] requests per second, called one call
    after the other under a clock that never runs backwards and timers that
    fire at most [eps] early: for any host the completion times of its
    calls are non-decreasing and at least 1/rps - eps apart; each call ends
    no earlier than 1/rps - eps after the host's previous request, records
    its completion time as the host's new last request, and leaves the
    other hosts' records alone. *)
Theorem acquire_paces_each_host (eps rps : Q) (self : DomainRateLimiter)
    (w : World) (calls : list (string * Timing)) (h : string) :
  0 <= eps ->
  init rps = Some self ->
  Forall (fun c => admissible eps (snd c)) calls ->
  let ts := times_of h (run self w calls) in
  spaced 0 ts
  /\ spaced (1 / rps - eps) ts
  /\ (forall (s : DomainRateLimiter) (w0 : World) (t : Timing),
        s.(min_interval) = 1 / rps -> admissible eps t ->
        let s' := fst (acquire s h t w0) in
        let w' := snd (acquire s h t w0) in
        last s h + (1 / rps - eps) <= w'.(clock)
        /\ last s' h = w'.(clock)
        /\ (forall h', h' <> h -> last s' h' = last s h')).
Proof.
  intros He Hinit Hall. cbv zeta.
  assert (Hmin : self.(min_interval) = 1 / rps).
  { unfold init in Hinit. destruct (Qeq_bool rps 0); [discriminate|].
    injection Hinit as <-. reflexivity. }
  destruct (run_spaced eps h calls He Hall self w) as (Hs & H0 & _).
  rewrite Hmin in Hs.
  split; [exact H0|]. split; [exact Hs|].
  intros s w0 t Hs' Ht.
  pose proof (acquire_step eps s h t w0 He Ht) as Hstep.
  destruct (acquire s h t w0) as [s' w']. cbn [fst snd].
  destruct Hstep as (Hclk & Hlast & Hgap & _ & Hother).
  rewrite Hs' in Hgap. tauto.
Qed.

Lemma acquire_paces_each_host_witness :
  0 <= 1 # 100
  /\ init 2 = Some Examples.two_per_second
  /\ Forall (fun c => admissible (1 # 100) (snd c)) Examples.three_calls
  /\ spaced (1 / 2 - (1 # 100))
       (times_of "a.test"
          (run Examples.two_per_second Examples.at_ten Examples.three_calls)).
Proof.
  assert (He : 0 <= 1 # 100) by discriminate.
  assert (Hi : init 2 = Some Examples.two_per_second) by reflexivity.
  assert (Hc : Forall (fun c => admissible (1 # 100) (snd c))
                 Examples.three_calls).
  { repeat constructor; discriminate. }
  split; [exact He|]. split; [exact Hi|]. split; [exact Hc|].
  exact (proj1 (proj2 (acquire_paces_each_host (1 # 100) 2
                         Examples.two_per_second Examples.at_ten
                         Examples.three_calls "a.test" He Hi Hc))).
Defined.

End RateLimiterProps.

(** * Properties of the crawler *)

Section CrawlerProps.
Import Crawler.
Local Open Scope string_scope.
Local Open Scope Z_scope.

Lemma size_add_fresh (url : string) (visited : gset string) :
  url ∉ visited -> size (visited ∪ {[ url ]}) = S (size visited).
Proof.
  intros H. rewrite size_union by set_solver. rewrite size_singleton. lia.
Qed.

(** The batch never outgrows [max_concurrent], and every URL put in it is
    new in [visited]. *)
Lemma fill_batch_counts (mc : Z) (queue : list (string * Z))
    (visited : gset string) (batch : list (string * Z)) :
  let '(b, _, v) := fill_batch mc queue visited batch in
  Z.of_nat (length b) <= Z.max (Z.of_nat (length batch)) mc
  /\ (length batch <= length b)%nat
  /\ (size v = size visited + (length b - length batch))%nat.
Proof.
  revert visited batch.
  induction queue as [|[url depth] queue IH]; intros visited batch; cbn [fill_batch].
  - split; [lia|]. split; lia.
  - destruct (Z.ltb_spec (Z.of_nat (length batch)) mc) as [Hlt|Hge].
    + destruct (bool_decide_reflect (url ∈ visited)) as [Hin|Hout].
      * apply IH.
      * specialize (IH (visited ∪ {[ url ]}) (app batch [(url, depth)])).
        destruct (fill_batch mc queue _ _) as [[b q] v].
        rewrite length_app in IH. cbn [length] in IH.
        rewrite size_add_fresh in IH by exact Hout.
        destruct IH as (H1 & H2 & H3). split; [lia|]. split; lia.
    + split; [lia|]. split; lia.
Qed.

Lemma enqueue_links_counts (L : Libs) (depth : Z) (links : list string) (st : State) :
  counters_step st
    (fold_left
       (fun st link =>
          match normalize_url L link with
          | Some normalized =>
              if Py.truthy normalized
                 && negb (bool_decide (normalized ∈ st.(queued_urls)))
                 && negb (bool_decide (normalized ∈ st.(visited_urls)))
              then enqueue st normalized (depth + 1) else st
          | None => st
          end)
       links st) 0.
Proof.
  revert st. induction links as [|link links IH]; intros st; cbn [fold_left].
  - unfold counters_step. repeat split; lia.
  - match goal with
    | |- counters_step _ (fold_left _ _ ?st1) _ =>
        assert (H1 : counters_step st st1 0)
    end.
    { destruct (normalize_url L link) as [n|];
        [destruct (_ && _)|]; unfold counters_step; cbn; repeat split; lia. }
    match goal with
    | |- counters_step _ (fold_left ?f _ ?st1) _ => specialize (IH st1)
    end.
    unfold counters_step in *.
    destruct H1 as (A1 & A2 & A3 & A4), IH as (B1 & B2 & B3 & B4).
    split; [congruence|]. split; [lia|]. split; lia.
Qed.

Lemma handle_result_counts (L : Libs) (self : Crawler) (st : State)
    (item : string * Z) (r : Outcome) :
  counters_step st (handle_result L self st item r) 1.
Proof.
  destruct item as [url depth]. unfold handle_result.
  destruct r as [|[cr|] links].
  - unfold counters_step; cbn; repeat split; lia.
  - set (st1 := if Fetch.is_success cr then count_crawled st else count_failed st url).
    assert (H1 : counters_step st st1 1).
    { unfold st1. destruct (Fetch.is_success cr);
        unfold counters_step; cbn; repeat split; lia. }
    destruct (depth <? max_depth self); [|exact H1].
    pose proof (enqueue_links_counts L depth links st1) as H2.
    unfold counters_step in *.
    destruct H1 as (A1 & A2 & A3 & A4), H2 as (B1 & B2 & B3 & B4).
    split; [congruence|]. split; [lia|]. split; lia.
  - unfold counters_step; repeat split; lia.
Qed.

Lemma handle_results_counts (L : Libs) (self : Crawler)
    (batch : list (string * Z)) (results : list Outcome) (st : State) :
  counters_step st (handle_results L self st batch results)
    (Z.of_nat (length batch)).
Proof.
  revert results st. induction batch as [|item batch IH]; intros results st.
  - cbn. unfold counters_step. repeat split; lia.
  - destruct results as [|r results]; cbn [handle_results].
    + unfold counters_step. cbn [length]. repeat split; lia.
    + pose proof (handle_result_counts L self st item r) as H1.
      specialize (IH results (handle_result L self st item r)).
      unfold counters_step in *. cbn [length].
      destruct H1 as (A1 & A2 & A3 & A4), IH as (B1 & B2 & B3 & B4).
      split; [congruence|]. split; [lia|]. split; lia.
Qed.

Lemma iteration_counters (L : Libs) (self : Crawler) (st : State) :
  counters_ok self st ->
  match iteration L self st with
  | Continue st' => st.(pages_crawled) < self.(max_pages) /\ counters_ok self st'
  | Stop st' => counters_ok self st'
                /\ st'.(pages_crawled) = st.(pages_crawled)
                /\ st'.(pages_failed) = st.(pages_failed)
  end.
Proof.
  intros (H0 & H1 & H2 & H3). unfold iteration.
  destruct (url_queue st) as [|q0 queue] eqn:Hq.
  { repeat split; assumption. }
  destruct (Z.ltb_spec (pages_crawled st) (max_pages self)) as [Hlt|Hge].
  2: { repeat split; assumption. }
  pose proof (fill_batch_counts (max_concurrent self) (q0 :: queue)
                (visited_urls st) []) as Hfill.
  destruct (fill_batch _ _ _ _) as [[batch q] v].
  cbn [length] in Hfill. destruct Hfill as (F1 & F2 & F3).
  destruct batch as [|b0 batch].
  - unfold counters_ok, visited_count in *. cbn in *. repeat split; lia.
  - split; [exact Hlt|].
    match goal with
    | |- counters_ok _ (handle_results _ _ ?st1 ?b ?r) =>
        pose proof (handle_results_counts L self b r st1) as Hc
    end.
    unfold counters_step in Hc. cbn [visited_urls pages_crawled pages_failed] in Hc.
    destruct Hc as (C1 & C2 & C3 & C4).
    unfold counters_ok, visited_count in *. rewrite C1.
    cbn [length] in *. repeat split; lia.
Qed.

Lemma iterate_counters (L : Libs) (self : Crawler) (n : nat) (st : State) :
  counters_ok self st -> counters_ok self (iterate L self n st).
Proof.
  revert st. induction n as [|n IH]; intros st Hst; [exact Hst|].
  cbn [iterate]. pose proof (iteration_counters L self st Hst) as Hi.
  destruct (iteration L self st) as [st'|st'].
  - apply IH, Hi.
  - apply Hi.
Qed.

Lemma seed_counters (L : Libs) (self : Crawler) : counters_ok self (seed L self).
Proof.
  unfold seed.
  match goal with
  | |- counters_ok _ (fold_left ?f ?l ?s) =>
      assert (H : forall l' s', pages_crawled s' = 0 /\ pages_failed s' = 0
                                /\ visited_urls s' = ∅ ->
                  let r := fold_left f l' s' in
                  pages_crawled r = 0 /\ pages_failed r = 0 /\ visited_urls r = ∅)
  end.
  { induction l' as [|o l' IH]; intros s' Hs; [exact Hs|].
    cbn [fold_left]. apply IH.
    destruct o as [url|]; [|exact Hs].
    destruct (_ && _); [|exact Hs]. cbn. exact Hs. }
  match goal with
  | |- counters_ok _ (fold_left ?f ?l ?s) =>
      destruct (H l s) as (A & B & C); [repeat split|]
  end.
  unfold counters_ok, visited_count. rewrite A, B, C.
  rewrite size_empty. repeat split; lia.
Qed.

Lemma loop_iterate (L : Libs) (self : Crawler) (fuel : nat) (st st' : State) :
  loop L self fuel st = Some st' -> iterate L self fuel st = st'.
Proof.
  revert st. induction fuel as [|fuel IH]; intros st H; [discriminate|].
  cbn [loop] in H. cbn [iterate].
  destruct (iteration L self st); [apply IH, H|congruence].
Qed.
(** *** Termination of the main loop *)

Lemma fill_batch_pops (mc : Z) (queue : list (string * Z))
    (visited : gset string) (batch : list (string * Z)) :
  let '(b, q, _) := fill_batch mc queue visited batch in
  (length q + (length b - length batch) <= length queue)%nat.
Proof.
  revert visited batch.
  induction queue as [|[url depth] queue IH]; intros visited batch; cbn [fill_batch].
  - cbn. lia.
  - destruct (Z.of_nat (length batch) <? mc).
    + destruct (bool_decide (url ∈ visited)).
      * specialize (IH visited batch).
        destruct (fill_batch mc queue visited batch) as [[b q] v].
        cbn [length]. lia.
      * specialize (IH (visited ∪ {[ url ]}) (app batch [(url, depth)])).
        destruct (fill_batch mc queue _ _) as [[b q] v].
        rewrite length_app in IH. cbn [length] in *. lia.
    + cbn [length]. lia.
Qed.

Lemma crawl_page_quiet (L : Libs) (self : Crawler) (url : string) (depth : Z) :
  quiet_on_failure (_crawl_page L self url depth).
Proof.
  unfold _crawl_page.
  destruct (robots_allows L url); cbn [negb]; [|exact I].
  destruct (_fetch_url L url) as [result|]; [|exact I].
  destruct (Fetch.is_success result) eqn:Hs; cbn [andb].
  - destruct (Py.truthy (Fetch.html result)); cbn; congruence.
  - cbn. reflexivity.
Qed.

Lemma handle_result_progress (L : Libs) (self : Crawler) (st : State)
    (item : string * Z) (r : Outcome) :
  quiet_on_failure r -> progress st (handle_result L self st item r).
Proof.
  intros Hq. pose proof (handle_result_counts L self st item r) as Hc.
  destruct item as [url depth]. unfold handle_result in *.
  destruct r as [|[cr|] links]; try (right; split; reflexivity).
  cbn in Hq. destruct (Fetch.is_success cr) eqn:Hs.
  - left. destruct (depth <? max_depth self).
    + pose proof (enqueue_links_counts L depth links (count_crawled st)) as He.
      unfold counters_step in He. cbn [count_crawled pages_crawled] in He. lia.
    + cbn. lia.
  - right. rewrite (Hq eq_refl).
    destruct (depth <? max_depth self); cbn; split; reflexivity.
Qed.

Lemma handle_results_progress (L : Libs) (self : Crawler)
    (batch : list (string * Z)) (results : list Outcome) (st : State) :
  Forall quiet_on_failure results ->
  progress st (handle_results L self st batch results).
Proof.
  revert results st. induction batch as [|item batch IH]; intros results st Hq.
  - right. split; reflexivity.
  - destruct results as [|r results]; cbn [handle_results].
    + right. split; reflexivity.
    + inversion Hq as [|? ? Hr Hrs]; subst.
      pose proof (handle_result_progress L self st item r Hr) as H1.
      specialize (IH results (handle_result L self st item r) Hrs).
      unfold progress in *. destruct H1 as [H1|[H1 H1']], IH as [H2|[H2 H2']].
      * left. lia.
      * left. lia.
      * left. lia.
      * right. split; congruence.
Qed.

Lemma iteration_progress (L : Libs) (self : Crawler) (st st' : State) :
  iteration L self st = Continue st' ->
  st.(pages_crawled) < self.(max_pages)
  /\ (st.(pages_crawled) < st'.(pages_crawled)
      \/ (st'.(pages_crawled) = st.(pages_crawled)
          /\ (length st'.(url_queue) < length st.(url_queue))%nat)).
Proof.
  unfold iteration. destruct (url_queue st) as [|q0 queue] eqn:Hq; [discriminate|].
  destruct (Z.ltb_spec (pages_crawled st) (max_pages self)) as [Hlt|]; [|discriminate].
  pose proof (fill_batch_pops (max_concurrent self) (q0 :: queue)
                (visited_urls st) []) as Hpop.
  destruct (fill_batch _ _ _ _) as [[batch q] v].
  set (st1 := {| visited_urls := v;
                 queued_urls := queued_urls st;
                 failed_urls := failed_urls st;
                 url_queue := q;
                 pages_crawled := pages_crawled st;
                 pages_failed := pages_failed st |}).
  set (results := map (fun item => _crawl_page L self (fst item) (snd item)) batch).
  assert (Hp : progress st1 (handle_results L self st1 batch results)).
  { apply handle_results_progress. apply Forall_forall. intros r Hin.
    apply list_elem_of_In, in_map_iff in Hin. destruct Hin as [item [<- _]].
    apply crawl_page_quiet. }
  destruct batch as [|b0 batch]; [discriminate|].
  intros Heq.
  assert (Hst : st' = handle_results L self st1 (b0 :: batch) results)
    by congruence.
  rewrite Hst. split; [exact Hlt|].
  unfold progress in Hp.
  destruct Hp as [Hp|[Hp Hp']]; [left; exact Hp|right].
  split; [exact Hp|]. rewrite Hp'. cbn [length url_queue st1] in *. lia.
Qed.

(** The loop ends: with enough fuel it returns its statistics. *)
Lemma loop_terminates (L : Libs) (self : Crawler) (st : State) :
  exists fuel st', loop L self fuel st = Some st'.
Proof.
  remember (Z.to_nat (self.(max_pages) - st.(pages_crawled))) as a eqn:Ha.
  revert st Ha. induction a as [a IHa] using lt_wf_ind. intros st Ha.
  remember (length st.(url_queue)) as q eqn:Hq.
  revert st Ha Hq. induction q as [q IHq] using lt_wf_ind. intros st Ha Hq.
  destruct (iteration L self st) as [st1|st1] eqn:Hit.
  - destruct (iteration_progress L self st st1 Hit) as [Hlt [Hup|[Hsame Hshort]]].
    + destruct (IHa (Z.to_nat (self.(max_pages) - st1.(pages_crawled))))
        with (st := st1) as (fuel & st' & Hl); [lia|reflexivity|].
      exists (S fuel), st'. cbn [loop]. rewrite Hit. exact Hl.
    + destruct (IHq (length st1.(url_queue))) with (st := st1)
        as (fuel & st' & Hl); [lia|rewrite Hsame; exact Ha|reflexivity|].
      exists (S fuel), st'. cbn [loop]. rewrite Hit. exact Hl.
  - exists 1%nat, st1. cbn [loop]. rewrite Hit. reflexivity.
Qed.

(** C3, as the code has it.  At every point of a crawl (and so in the
    statistics it returns) each visited URL is counted at most once:
    pages_crawled + pages_failed <= len(visited_urls); failed pages are not
    held against max_pages.  A batch is fetched only while
    pages_crawled < max_pages, and when a batch holds a single URL
    (max_concurrent = 1) pages_crawled <= max_pages.  The loop ends, and the
    state it ends in is one of these points. *)
Theorem crawl_counters (L : Libs) (self : Crawler) (n : nat) :
  let st := iterate L self n (seed L self) in
  0 <= st.(pages_crawled)
  /\ 0 <= st.(pages_failed)
  /\ st.(pages_crawled) + st.(pages_failed) <= visited_count st
  /\ (forall st', iteration L self st = Continue st' ->
                 st.(pages_crawled) < self.(max_pages))
  /\ (self.(max_concurrent) = 1 -> 0 <= self.(max_pages) ->
      st.(pages_crawled) <= self.(max_pages))
  /\ (forall final, crawl L self n = Some final -> final = st)
  /\ (exists fuel final, crawl L self fuel = Some final).
Proof.
  cbv zeta.
  pose proof (iterate_counters L self n _ (seed_counters L self)) as Hok.
  pose proof (iteration_counters L self _ Hok) as Hit.
  destruct Hok as (H0 & H1 & H2 & H3).
  split; [exact H0|]. split; [exact H1|]. split; [exact H2|].
  split; [|split; [|split]].
  - intros st' Hc. rewrite Hc in Hit. apply Hit.
  - intros Hmc Hmp. lia.
  - intros final Hf. symmetry. apply loop_iterate, Hf.
  - apply loop_terminates.
Qed.

Lemma crawl_counters_witness :
  (Examples.crawler_for Examples.broken_home 1 1).(max_concurrent) = 1
  /\ 0 <= (Examples.crawler_for Examples.broken_home 1 1).(max_pages)
  /\ (iterate Examples.broken_home
        (Examples.crawler_for Examples.broken_home 1 1) 5
        (seed Examples.broken_home
           (Examples.crawler_for Examples.broken_home 1 1))).(pages_crawled)
     <= (Examples.crawler_for Examples.broken_home 1 1).(max_pages).
Proof.
  assert (Hmc : (Examples.crawler_for Examples.broken_home 1 1).(max_concurrent)
                = 1) by reflexivity.
  assert (Hmp : 0 <= (Examples.crawler_for Examples.broken_home 1 1).(max_pages))
    by (cbn; lia).
  split; [exact Hmc|]. split; [exact Hmp|].
  exact (proj1 (proj2 (proj2 (proj2 (proj2
           (crawl_counters Examples.broken_home
              (Examples.crawler_for Examples.broken_home 1 1) 5)))))
           Hmc Hmp).
Defined.

(** C3 as stated fails even with batches of one URL: with max_pages = 1
    the home page answers 500 and is counted as failed, the loop goes on
    (pages_crawled is still 0), and /a from the sitemap is crawled; the
    crawl returns pages_crawled = 1 and pages_failed = 1. *)
Lemma failed_pages_are_not_limited :
  exists st,
    crawl Examples.broken_home (Examples.crawler_for Examples.broken_home 1 1) 5
    = Some st
    /\ st.(pages_crawled) = 1
    /\ st.(pages_failed) = 1
    /\ ~ (st.(pages_crawled) + st.(pages_failed)
          <= (Examples.crawler_for Examples.broken_home 1 1).(max_pages)).
Proof.
  eexists. split; [vm_compute; reflexivity|]. cbn. repeat split; lia.
Qed.

(** With larger batches pages_crawled itself passes max_pages: the limit is
    tested before a batch is drained from the queue, not while the batch is
    filled.  With max_pages = 2 the home page is crawled, its two links
    form the next batch, and the crawl returns pages_crawled = 3. *)
Lemma batch_overshoots_max_pages :
  exists st,
    crawl Examples.healthy_site (Examples.crawler_for Examples.healthy_site 2 20) 5
    = Some st
    /\ st.(pages_crawled) = 3
    /\ (Examples.crawler_for Examples.healthy_site 2 20).(max_pages) = 2.
Proof.
  eexists. split; [vm_compute; reflexivity|]. cbn. split; reflexivity.
Qed.

(** The overshoot is bounded by the batch size. *)
Lemma crawl_overshoot_bound (L : Libs) (self : Crawler) (n : nat) :
  1 <= self.(max_pages) -> 1 <= self.(max_concurrent) ->
  (iterate L self n (seed L self)).(pages_crawled)
  <= self.(max_pages) - 1 + self.(max_concurrent).
Proof.
  intros Hp Hc.
  destruct (iterate_counters L self n _ (seed_counters L self))
    as (_ & _ & _ & H). lia.
Qed.

End CrawlerProps.

(** * Invariants of the analyzed page *)

Section AnalyzerInvariants.
Import Analyzer AnalyzerFacts.
Local Open Scope string_scope.
Local Open Scope Z_scope.

(** The steps that follow [_extract_links] leave the fields of the earlier
    steps alone. *)
Lemma tail_steps_keep (L : Libs) (p : AnalyzedPage) (soup : Soup)
    (raw final : string) :
  let q := _compute_keyword_frequencies
             (_extract_technical_signals
                (_extract_social_meta
                   (_extract_structured_data L p soup raw final) soup) soup) in
  q.(title) = p.(title)
  /\ q.(title_length) = p.(title_length)
  /\ q.(meta_description) = p.(meta_description)
  /\ q.(meta_description_length) = p.(meta_description_length)
  /\ q.(language) = p.(language)
  /\ q.(h1_tags) = p.(h1_tags) /\ q.(h2_tags) = p.(h2_tags)
  /\ q.(h3_tags) = p.(h3_tags) /\ q.(h4_tags) = p.(h4_tags)
  /\ q.(h5_tags) = p.(h5_tags) /\ q.(h6_tags) = p.(h6_tags)
  /\ q.(total_images) = p.(total_images)
  /\ q.(images_missing_alt) = p.(images_missing_alt)
  /\ q.(images_with_alt) = p.(images_with_alt)
  /\ q.(internal_links) = p.(internal_links)
  /\ q.(external_links) = p.(external_links)
  /\ q.(internal_links_count) = p.(internal_links_count)
  /\ q.(external_links_count) = p.(external_links_count).
Proof.
  cbv zeta.
  unfold _compute_keyword_frequencies, _extract_structured_data.
  repeat match goal with
         | |- context [match ?x with _ => _ end] => destruct x
         end; repeat split; reflexivity.
Qed.

Lemma filter_split_length {A} (f : A -> bool) (l : list A) :
  (length (List.filter f l) + length (List.filter (fun a => negb (f a)) l)
   = length l)%nat.
Proof.
  induction l as [|a l IH]; [reflexivity|].
  cbn [List.filter]. destruct (f a); cbn [negb length]; lia.
Qed.

Lemma analyze_images (L : Libs) (cr : Fetch.CrawlResult) :
  let page := analyze L cr in
  0 <= page.(images_missing_alt)
  /\ 0 <= page.(images_with_alt)
  /\ page.(images_with_alt) + page.(images_missing_alt) = page.(total_images).
Proof.
  cbv zeta. unfold analyze.
  destruct (Py.truthy (Fetch.html cr)); cbn [negb].
  2: { cbn. lia. }
  match goal with
  | |- context [_compute_keyword_frequencies
                  (_extract_technical_signals
                     (_extract_social_meta
                        (_extract_structured_data L ?p ?s ?r ?f) ?s) ?s)] =>
      pose proof (tail_steps_keep L p s r f) as H; cbv zeta in H;
      destruct H as (_ & _ & _ & _ & _ & _ & _ & _ & _ & _ & _ & Ht & Hm & Hw & _)
  end.
  rewrite Ht, Hm, Hw. clear Ht Hm Hw.
  cbn [total_images images_missing_alt images_with_alt _extract_links
       _extract_images].
  set (imgs := img_alts _).
  pose proof (filter_split_length alt_missing imgs). lia.
Qed.

(** X1.  Every page [analyze] returns counts each image once: the images
    with an alt text and the images without one add up to total_images, and
    neither count is negative. *)
Theorem analyzed_image_counts (L : Libs) (cr : Fetch.CrawlResult) :
  let page := analyze L cr in
  0 <= page.(images_missing_alt)
  /\ 0 <= page.(images_with_alt)
  /\ page.(images_with_alt) + page.(images_missing_alt) = page.(total_images).
Proof. exact (analyze_images L cr). Qed.


Ltac through_tail L :=
  match goal with
  | |- context [_compute_keyword_frequencies
                  (_extract_technical_signals
                     (_extract_social_meta
                        (_extract_structured_data L ?p ?s ?r ?f) ?s) ?s)] =>
      let H := fresh "Htail" in
      pose proof (tail_steps_keep L p s r f) as H; cbv zeta in H;
      destruct H as (Ht & Htl & Hd & Hdl & Hlang & Hh1 & Hh2 & Hh3 & Hh4 & Hh5
                     & Hh6 & Hti & Hma & Hwa
                     & Hil & Hel & Hic & Hec)
  end.

Lemma take_length (n : nat) (s : string) :
  String.length (Py.take n s) = Nat.min n (String.length s).
Proof.
  unfold Py.take. revert s.
  induction n as [|n IH]; intros [|c s]; cbn; try reflexivity.
  rewrite IH. reflexivity.
Qed.

Lemma take_truthy (n : nat) (s : string) :
  Py.truthy s = true -> Py.truthy (Py.take (S n) s) = true.
Proof. destruct s; [discriminate|reflexivity]. Qed.

(** X2.  On every analyzed page title_length is the length of the stored
    title (0 without one) and is at most 512, meta_description_length is
    the length of the stored description (0 without one), and the language
    code has at most 10 characters: the values fit the columns the page
    table gives them. *)
Theorem analyzed_title_and_description (L : Libs) (cr : Fetch.CrawlResult) :
  let page := analyze L cr in
  page.(title_length) = opt_len page.(title)
  /\ page.(title_length) <= 512
  /\ page.(meta_description_length) = opt_len page.(meta_description)
  /\ opt_len page.(language) <= 10.
Proof.
  cbv zeta. unfold analyze.
  destruct (Py.truthy (Fetch.html cr)); cbn [negb].
  2: { cbn. lia. }
  through_tail L. rewrite Ht, Htl, Hd, Hdl, Hlang. clear - L.
  cbn [title title_length meta_description meta_description_length language
       _extract_links _extract_images _extract_content _extract_headings
       _extract_basic_seo AnalyzedPage_init].
  set (soup := BeautifulSoup L _).
  destruct (title_string soup) as [t|], (meta_description_content soup) as [d|],
    (html_lang soup) as [l|]; cbn [Py.truthy_opt];
    repeat match goal with
           | |- context [Py.truthy ?x] => destruct (Py.truthy x)
           end;
    cbn [option_map opt_len]; unfold Py.len; rewrite ?take_length; lia.
Qed.

Lemma heading_level_ok (soup : Soup) (level : Z) :
  Forall heading_ok (heading_level soup level).
Proof.
  unfold heading_level. apply List.Forall_forall. intros h Hin.
  apply in_map_iff in Hin as (t & <- & Hin).
  apply filter_In in Hin as [_ Ht]. split.
  - apply take_truthy, Ht.
  - unfold Py.len. rewrite take_length. lia.
Qed.

(** X3.  Every heading [analyze] stores in h1_tags ... h6_tags is a
    non-empty text of at most 255 characters. *)
Theorem analyzed_headings (L : Libs) (cr : Fetch.CrawlResult) :
  let page := analyze L cr in
  Forall heading_ok
    (page.(h1_tags) ++ page.(h2_tags) ++ page.(h3_tags) ++ page.(h4_tags)
     ++ page.(h5_tags) ++ page.(h6_tags))%list.
Proof.
  cbv zeta. unfold analyze.
  destruct (Py.truthy (Fetch.html cr)); cbn [negb].
  2: { cbn. constructor. }
  through_tail L. rewrite Hh1, Hh2, Hh3, Hh4, Hh5, Hh6. clear - L.
  cbn [h1_tags h2_tags h3_tags h4_tags h5_tags h6_tags
       _extract_links _extract_images _extract_content _extract_headings].
  repeat (apply Forall_app; split); apply heading_level_ok.
Qed.

Lemma link_of_anchor_ok (L : Libs) (page_url : string) (tag : Anchor)
    (l : LinkData) :
  link_of_anchor L page_url tag = Some l -> link_ok L l.
Proof.
  unfold link_of_anchor.
  destruct (skipped_href _); [discriminate|].
  destruct (Py.mem _ _) eqn:Hs; cbn [negb]; [|discriminate].
  intros [= <-]. split; cbn [link_url anchor_text]; [exact Hs|].
  unfold Py.len. rewrite take_length. lia.
Qed.

Lemma omap_length_le {A B} (f : A -> option B) (l : list A) :
  (length (omap f l) <= length l)%nat.
Proof.
  induction l as [|a l IH]; [reflexivity|].
  cbn. destruct (f a); cbn; lia.
Qed.

(** X4.  On every analyzed page internal_links_count and
    external_links_count are the lengths of the two link lists; every
    internal link has is_internal true and every external link false; each
    stored link has an http or https URL and an anchor text of at most 255
    characters; and the two counts together never exceed the number of
    [<a href>] tags of the document. *)
Theorem analyzed_links (L : Libs) (cr : Fetch.CrawlResult) :
  let page := analyze L cr in
  page.(internal_links_count) = Z.of_nat (length page.(internal_links))
  /\ page.(external_links_count) = Z.of_nat (length page.(external_links))
  /\ Forall (fun l => l.(is_internal) = true /\ link_ok L l)
       page.(internal_links)
  /\ Forall (fun l => l.(is_internal) = false /\ link_ok L l)
       page.(external_links)
  /\ page.(internal_links_count) + page.(external_links_count)
     <= Z.of_nat (length (L.(BeautifulSoup) cr.(Fetch.html)).(anchors)).
Proof.
  cbv zeta. unfold analyze.
  destruct (Py.truthy (Fetch.html cr)); cbn [negb].
  2: { cbn. repeat split; try constructor. lia. }
  through_tail L. rewrite Hil, Hel, Hic, Hec. clear - L.
  cbn [internal_links external_links internal_links_count
       external_links_count _extract_links _extract_images _extract_content
       _extract_headings _extract_basic_seo AnalyzedPage_init app].
  set (soup := BeautifulSoup L _).
  set (links := omap _ (anchors soup)).
  assert (Hok : Forall (link_ok L) links).
  { apply List.Forall_forall. intros l Hin.
    apply list_elem_of_In, list_elem_of_omap in Hin as (tag & _ & Htag).
    eapply link_of_anchor_ok, Htag. }
  split; [reflexivity|]. split; [reflexivity|].
  split; [|split].
  - apply List.Forall_forall. intros l Hin. apply filter_In in Hin as [Hin Hi].
    split; [exact Hi|]. rewrite List.Forall_forall in Hok. apply Hok, Hin.
  - apply List.Forall_forall. intros l Hin. apply filter_In in Hin as [Hin Hi].
    split; [destruct (is_internal l); [discriminate|reflexivity]|].
    rewrite List.Forall_forall in Hok. apply Hok, Hin.
  - pose proof (filter_split_length (fun l => is_internal l) links).
    pose proof (omap_length_le (link_of_anchor L (Fetch.final_url cr))
                  (anchors soup)).
    fold links in H0. lia.
Qed.

End AnalyzerInvariants.

(** * The keyword map of a page *)

Section KeywordMap.
Import Analyzer AnalyzerFacts.
Local Open Scope string_scope.
Local Open Scope Z_scope.

Lemma chars_str (l : list ascii) : Py.chars (Py.str l) = l.
Proof. apply list_ascii_of_string_of_list_ascii. Qed.

Lemma chars_append (a b : string) :
  Py.chars (String.append a b) = (Py.chars a ++ Py.chars b)%list.
Proof.
  unfold Py.chars. induction a as [|c a IH]; [reflexivity|].
  change (String.append (String c a) b) with (String c (String.append a b)).
  cbn [list_ascii_of_string app]. f_equal. exact IH.
Qed.

Lemma existsb_rev {A} (f : A -> bool) (l : list A) :
  existsb f (rev l) = existsb f l.
Proof.
  induction l as [|a l IH]; [reflexivity|].
  cbn [rev existsb]. rewrite existsb_app, IH. cbn [existsb].
  rewrite orb_false_r. apply orb_comm.
Qed.

(** Tokens of [split] hold no whitespace. *)
Lemma split_aux_no_space (cur l : list ascii) :
  existsb Py.is_space cur = false ->
  Forall (fun t => has_space t = false) (Py.split_aux cur l).
Proof.
  revert cur. induction l as [|c l IH]; intros cur Hcur; cbn [Py.split_aux].
  - destruct cur as [|c0 cur0]; constructor; [|constructor].
    unfold has_space. rewrite chars_str, existsb_rev. exact Hcur.
  - destruct (Py.is_space c) eqn:Hc.
    + destruct cur as [|c0 cur0]; [apply IH; reflexivity|].
      constructor; [|apply IH; reflexivity].
      unfold has_space. rewrite chars_str, existsb_rev. exact Hcur.
    + apply IH. cbn [existsb]. rewrite Hc, Hcur. reflexivity.
Qed.

Lemma lstrip_by_no_space (p : ascii -> bool) (l : list ascii) :
  existsb Py.is_space l = false ->
  existsb Py.is_space (Py.lstrip_by p l) = false.
Proof.
  induction l as [|c l IH]; [reflexivity|]. cbn [Py.lstrip_by].
  destruct (p c); [|tauto].
  cbn [existsb]. intros H. apply orb_false_elim in H as [_ H]. apply IH, H.
Qed.

Lemma strip_by_no_space (p : ascii -> bool) (t : string) :
  has_space t = false -> has_space (Py.strip_by p t) = false.
Proof.
  unfold has_space, Py.strip_by. intros H.
  rewrite chars_str, existsb_rev. apply lstrip_by_no_space.
  rewrite existsb_rev. apply lstrip_by_no_space, H.
Qed.

Lemma meaningful_no_space (tokens : list string) :
  Forall (fun t => has_space t = false) tokens ->
  Forall (fun t => has_space t = false) (meaningful tokens).
Proof.
  unfold meaningful. intros H. apply List.Forall_forall. intros t Hin.
  apply in_map_iff in Hin as (t0 & <- & Hin).
  apply filter_In in Hin as [Hin _].
  rewrite List.Forall_forall in H. apply strip_by_no_space, H, Hin.
Qed.

Lemma bigrams_have_space (ts : list string) :
  Forall (fun k => has_space k = true) (bigrams_of ts).
Proof.
  induction ts as [|a [|b rest] IH]; try constructor.
  - unfold has_space. rewrite !chars_append, !existsb_app. cbn.
    apply orb_true_r.
  - exact IH.
Qed.


(** *** Dictionaries *)

Lemma dict_get_in {V} (d : Py.dict V) (k : string) (v : V) :
  Py.dict_get d k = Some v -> In (k, v) d.
Proof.
  induction d as [|[k' v'] d IH]; [discriminate|]. cbn [Py.dict_get].
  destruct (String.eqb k k') eqn:E.
  - apply String.eqb_eq in E as ->. intros [= ->]. left. reflexivity.
  - intros H. right. apply IH, H.
Qed.

Lemma dict_set_in {V} (d : Py.dict V) (k : string) (v : V) (e : string * V) :
  In e (Py.dict_set d k v) -> e = (k, v) \/ In e d.
Proof.
  induction d as [|[k' v'] d IH]; cbn [Py.dict_set].
  - intros [<-|[]]. left. reflexivity.
  - destruct (String.eqb k k') eqn:E.
    + apply String.eqb_eq in E as ->.
      intros [<-|H]; [left; reflexivity|right; right; exact H].
    + intros [<-|H]; [right; left; reflexivity|].
      destruct (IH H) as [->|H']; [left; reflexivity|right; right; exact H'].
Qed.

Lemma dict_set_length {V} (d : Py.dict V) (k : string) (v : V) :
  (length (Py.dict_set d k v) <= S (length d))%nat.
Proof.
  induction d as [|[k' v'] d IH]; cbn [Py.dict_set]; [cbn; lia|].
  destruct (String.eqb k k'); cbn [length]; lia.
Qed.

Lemma dict_set_Forall {V} (P : string * V -> Prop) (d : Py.dict V)
    (k : string) (v : V) :
  Forall P d -> P (k, v) -> Forall P (Py.dict_set d k v).
Proof.
  intros Hd Hk. apply List.Forall_forall. intros e Hin.
  apply dict_set_in in Hin as [->|Hin]; [exact Hk|].
  rewrite List.Forall_forall in Hd. apply Hd, Hin.
Qed.

(** Every entry of a [Counter] counts an element of the list, at least
    once. *)
Lemma Counter_entries (Q : string -> Prop) (l : list string) :
  Forall Q l ->
  Forall (fun e => Q (fst e) /\ 1 <= snd e) (Py.Counter l).
Proof.
  unfold Py.Counter.
  assert (Hgen : forall d,
            Forall (fun e => Q (fst e) /\ 1 <= snd e) d -> Forall Q l ->
            Forall (fun e => Q (fst e) /\ 1 <= snd e)
              (fold_left Py.counter_incr l d)).
  { induction l as [|k l IH]; intros d Hd Hl; [exact Hd|].
    cbn [fold_left]. apply Forall_cons_1 in Hl as [Hk Hl].
    apply IH; [|exact Hl]. unfold Py.counter_incr.
    destruct (Py.dict_get d k) as [n|] eqn:Hget.
    - apply dict_set_Forall; [exact Hd|]. split; [exact Hk|]. cbn [snd].
      apply dict_get_in in Hget. rewrite List.Forall_forall in Hd.
      apply Hd in Hget. cbn [snd] in Hget. lia.
    - apply dict_set_Forall; [exact Hd|]. split; [exact Hk|]. cbn [snd]. lia. }
  intros Hl. apply Hgen; [constructor|exact Hl].
Qed.

Lemma insert_desc_in (e e0 : string * Z) (l : list (string * Z)) :
  In e0 (Py.insert_desc e l) -> e0 = e \/ In e0 l.
Proof.
  induction l as [|e' l IH]; cbn [Py.insert_desc].
  - intros [<-|[]]. left. reflexivity.
  - destruct (snd e <? snd e').
    + intros [<-|H]; [right; left; reflexivity|].
      destruct (IH H) as [->|H']; [left; reflexivity|right; right; exact H'].
    + intros [<-|H]; [left; reflexivity|right; exact H].
Qed.

Lemma firstn_in {A} (n : nat) (l : list A) (x : A) :
  In x (firstn n l) -> In x l.
Proof.
  revert l. induction n as [|n IH]; intros [|a l]; cbn; try tauto.
  intros [->|H]; [left; reflexivity|right; apply IH, H].
Qed.

Lemma most_common_in (n : nat) (d : Py.dict Z) (e : string * Z) :
  In e (Py.most_common n d) -> In e d.
Proof.
  unfold Py.most_common. intros H. apply firstn_in in H.
  revert H. unfold Py.sort_desc. induction d as [|e' d IH]; [tauto|].
  cbn [fold_right]. intros H. apply insert_desc_in in H as [->|H].
  - left. reflexivity.
  - right. apply IH, H.
Qed.

Lemma most_common_length (n : nat) (d : Py.dict Z) :
  (length (Py.most_common n d) <= n)%nat.
Proof. unfold Py.most_common. apply firstn_le_length. Qed.

Lemma most_common_Forall (P : string * Z -> Prop) (n : nat) (d : Py.dict Z) :
  Forall P d -> Forall P (Py.most_common n d).
Proof.
  intros H. apply List.Forall_forall. intros e Hin.
  rewrite List.Forall_forall in H. apply H, most_common_in with n, Hin.
Qed.

Lemma combine_counts_ok (u b : Py.dict Z) :
  Forall (fun e => has_space (fst e) = false /\ 1 <= snd e) u ->
  Forall (fun e => True /\ 1 <= snd e) b ->
  (length (combine_counts u b) <= 200)%nat
  /\ Forall keyword_entry_ok (combine_counts u b).
Proof.
  intros Hu Hb. unfold combine_counts.
  apply (most_common_Forall _ 150) in Hu.
  apply (most_common_Forall _ 50) in Hb.
  pose proof (most_common_length 150 u) as Lu.
  pose proof (most_common_length 50 b) as Lb.
  revert Hu Hb Lu Lb.
  generalize (Py.most_common 150 u) (Py.most_common 50 b).
  intros lu lb Hu Hb Lu Lb.
  assert (H1 : forall d,
            Forall keyword_entry_ok d ->
            let d' := fold_left
                        (fun d tc => Py.dict_set d (fst tc) (snd tc)) lu d in
            (length d' <= length d + length lu)%nat
            /\ Forall keyword_entry_ok d').
  { clear Lu. induction Hu as [|e lu [He1 He2] Hu IH]; intros d Hd;
      cbn [fold_left].
    - cbn. split; [lia|exact Hd].
    - destruct (IH (Py.dict_set d (fst e) (snd e))) as [Hl Hf].
      + apply dict_set_Forall; [exact Hd|]. split; cbn [fst snd]; [exact He2|].
        rewrite He1. discriminate.
      + split; [|exact Hf].
        pose proof (dict_set_length d (fst e) (snd e)). cbn [length]. lia. }
  assert (H2 : forall d,
            Forall keyword_entry_ok d ->
            let d' := fold_left
                        (fun d tc => if 2 <=? snd tc
                                     then Py.dict_set d (fst tc) (snd tc)
                                     else d) lb d in
            (length d' <= length d + length lb)%nat
            /\ Forall keyword_entry_ok d').
  { clear Lb. induction Hb as [|e lb [_ He2] Hb IH]; intros d Hd;
      cbn [fold_left].
    - cbn. split; [lia|exact Hd].
    - destruct (2 <=? snd e) eqn:E.
      + destruct (IH (Py.dict_set d (fst e) (snd e))) as [Hl Hf].
        * apply dict_set_Forall; [exact Hd|]. split; cbn [fst snd]; lia.
        * split; [|exact Hf].
          pose proof (dict_set_length d (fst e) (snd e)). cbn [length]. lia.
      + destruct (IH d Hd) as [Hl Hf]. split; [|exact Hf].
        cbn [length]. lia. }
  destruct (H1 [] (List.Forall_nil _)) as [L1 F1]. cbv zeta in L1, F1.
  destruct (H2 _ F1) as [L2 F2]. cbv zeta in L2, F2.
  split; [|exact F2]. cbn [length] in L1. lia.
Qed.

Lemma keyword_frequencies_of_ok (content : string) :
  (length (keyword_frequencies_of content) <= 200)%nat
  /\ Forall keyword_entry_ok (keyword_frequencies_of content).
Proof.
  unfold keyword_frequencies_of. apply combine_counts_ok.
  - apply (Counter_entries (fun k => has_space k = false)).
    apply meaningful_no_space, split_aux_no_space. reflexivity.
  - apply (Counter_entries (fun _ => True)).
    apply List.Forall_forall. intros; exact I.
Qed.

Lemma analyze_keywords (L : Libs) (cr : Fetch.CrawlResult) :
  let kf := (analyze L cr).(keyword_frequencies) in
  (length kf <= 200)%nat /\ Forall keyword_entry_ok kf.
Proof.
  cbv zeta. unfold analyze.
  destruct (Py.truthy (Fetch.html cr)); cbn [negb].
  2: { cbn. split; [lia|constructor]. }
  unfold _compute_keyword_frequencies.
  match goal with
  | |- context [if negb (Py.truthy ?c) then _ else _] =>
      destruct (Py.truthy c)
  end; cbn [negb].
  - cbn [keyword_frequencies]. apply keyword_frequencies_of_ok.
  - unfold _extract_structured_data.
    repeat match goal with
           | |- context [match ?x with _ => _ end] => destruct x
           end; cbn; (split; [lia|constructor]).
Qed.

(** X5.  The keyword map of every analyzed page has at most 200 entries;
    every count is at least 1, and a key that holds a space (a bigram) has a
    count of at least 2. *)
Theorem analyzed_keyword_map (L : Libs) (cr : Fetch.CrawlResult) :
  let kf := (analyze L cr).(keyword_frequencies) in
  (length kf <= 200)%nat /\ Forall keyword_entry_ok kf.
Proof. exact (analyze_keywords L cr). Qed.

End KeywordMap.

(** * Breakdowns and site scores *)

Section ScorerBreakdowns.
Import Analyzer SiteScore Scorer Breakdowns.
Local Open Scope string_scope.
Local Open Scope Z_scope.

Lemma flag_range (b : bool) (pts : Z) : 0 <= pts -> 0 <= flag b pts <= pts.
Proof. destruct b; cbn; lia. Qed.

Lemma status_pts_range (sc : Z) : 0 <= status_pts sc <= 10.
Proof. unfold status_pts. repeat destruct (_ : bool); lia. Qed.

Lemma load_time_pts_range (lt : Z) : 0 <= load_time_pts lt <= 10.
Proof.
  unfold load_time_pts.
  repeat match goal with |- context [if ?c then _ else _] => destruct c end;
    lia.
Qed.

Lemma page_size_pts_range (n : Z) : 0 <= page_size_pts n <= 10.
Proof.
  unfold page_size_pts. cbv zeta.
  repeat match goal with |- context [if ?c then _ else _] => destruct c end;
    lia.
Qed.

Lemma percent_range (t m : Z) :
  0 < m -> 0 <= t <= m ->
  (0 <= inject_Z t / inject_Z m * 100 <= 100)%Q.
Proof.
  intros Hm [H0 H1].
  assert (Hm' : (0 < inject_Z m)%Q) by (rewrite <- (Zlt_Qlt 0); exact Hm).
  assert (H0' : (0 <= inject_Z t)%Q) by (rewrite <- (Zle_Qle 0); exact H0).
  assert (H1' : (inject_Z t <= inject_Z m)%Q) by (rewrite <- Zle_Qle; exact H1).
  assert (Hl : (0 <= inject_Z t / inject_Z m)%Q).
  { apply Qle_shift_div_l; [exact Hm'|]. lra. }
  assert (Hr : (inject_Z t / inject_Z m <= 1)%Q).
  { apply Qle_shift_div_r; [exact Hm'|]. lra. }
  lra.
Qed.

Lemma round_half_even_between (x : Q) (a b : Z) :
  (inject_Z a <= x <= inject_Z b)%Q -> a <= Py.round_half_even x <= b.
Proof.
  intros [Ha Hb]. unfold Py.round_half_even. cbv zeta.
  assert (Hfa : a <= Qfloor x).
  { rewrite <- (Qfloor_Z a). apply Qfloor_resp_le, Ha. }
  assert (Hfb : Qfloor x <= b).
  { rewrite <- (Qfloor_Z b). apply Qfloor_resp_le, Hb. }
  assert (Hup : (1 # 2 <= x - inject_Z (Qfloor x))%Q -> Qfloor x + 1 <= b).
  { intros Hhalf.
    destruct (Z.eq_dec (Qfloor x) b) as [E|E]; [|lia].
    rewrite E in Hhalf. lra. }
  destruct (x - inject_Z (Qfloor x) ?= 1 # 2)%Q eqn:E.
  - apply Qeq_alt in E.
    destruct (Z.even (Qfloor x)); [lia|].
    assert (Qfloor x + 1 <= b) by (apply Hup; rewrite E; apply Qle_refl). lia.
  - lia.
  - apply Qgt_alt in E.
    assert (Qfloor x + 1 <= b) by (apply Hup, Qlt_le_weak, E). lia.
Qed.

Lemma title_pts_range (p : AnalyzedPage) : 0 <= title_pts p <= 20.
Proof.
  unfold title_pts. cbv zeta.
  repeat match goal with |- context [if ?c then _ else _] => destruct c end;
    lia.
Qed.

Lemma desc_pts_range (p : AnalyzedPage) : 0 <= desc_pts p <= 15.
Proof.
  unfold desc_pts. cbv zeta.
  repeat match goal with |- context [if ?c then _ else _] => destruct c end;
    lia.
Qed.

Lemma h1_pts_range (p : AnalyzedPage) : 0 <= h1_pts p <= 15.
Proof.
  unfold h1_pts. cbv zeta.
  repeat match goal with |- context [if ?c then _ else _] => destruct c end;
    lia.
Qed.

Lemma h2_pts_range (p : AnalyzedPage) : 0 <= h2_pts p <= 5.
Proof.
  unfold h2_pts. cbv zeta.
  repeat match goal with |- context [if ?c then _ else _] => destruct c end;
    lia.
Qed.

Lemma word_count_pts_range (wc : Z) : 0 <= word_count_pts wc <= 20.
Proof.
  unfold word_count_pts.
  repeat match goal with |- context [if ?c then _ else _] => destruct c end;
    lia.
Qed.

Lemma ratio_pts_range (r : Q) : 0 <= ratio_pts r <= 10.
Proof.
  unfold ratio_pts.
  repeat match goal with |- context [if ?c then _ else _] => destruct c end;
    lia.
Qed.

Lemma alt_pts_range (p : AnalyzedPage) :
  0 <= p.(images_with_alt) <= p.(total_images) -> 0 <= alt_pts p <= 10.
Proof.
  intros [H0 H1]. unfold alt_pts.
  destruct (0 <? total_images p) eqn:E; [|lia].
  apply Z.ltb_lt in E. cbv zeta. apply round_half_even_between.
  pose proof (percent_range _ _ E (conj H0 H1)) as Hp.
  change (inject_Z 0) with 0%Q. change (inject_Z 10) with 10%Q.
  lra.
Qed.

Lemma out_pts_range (n : Z) : 0 <= out_pts n <= 30.
Proof.
  unfold out_pts.
  repeat match goal with |- context [if ?c then _ else _] => destruct c end;
    lia.
Qed.

Lemma link_quality_pts_range (n : Z) : 0 <= link_quality_pts n <= 20.
Proof.
  unfold link_quality_pts.
  repeat match goal with |- context [if ?c then _ else _] => destruct c end;
    lia.
Qed.

Lemma in_pts_range (n : Z) : 0 <= in_pts n <= 50.
Proof.
  unfold in_pts.
  repeat match goal with |- context [if ?c then _ else _] => destruct c end;
    lia.
Qed.

Lemma percent_of_100 (a : Z) :
  (inject_Z a == inject_Z a / inject_Z 100 * 100)%Q.
Proof. change (inject_Z 100) with 100%Q. field. Qed.

Ltac name_points :=
  repeat match goal with
         | H : 0 <= ?t <= _ |- _ =>
             lazymatch t with
             | context [_ _] => let x := fresh "x" in
                                set (x := t) in *; clearbody x
             end
         end.

Ltac close_breakdown :=
  split; [repeat constructor; unfold component_ok;
          cbn [snd score max_score]; lia|];
  split; [reflexivity|];
  unfold percentage, points, max_points;
  cbn [fold_right snd score max_score];
  rewrite clamp_fixes;
  [ match goal with
    | |- (inject_Z ?a / _ * _ == inject_Z ?b / _ * _)%Q =>
        replace a with b by lia; reflexivity
    | |- (inject_Z ?a == inject_Z ?b / _ * _)%Q =>
        replace b with a by lia;
        transitivity (inject_Z a / inject_Z 100 * 100)%Q;
        [apply percent_of_100|reflexivity]
    end
  | first [ apply percent_range; lia
          | split; [rewrite <- (Zle_Qle 0)|rewrite <- (Zle_Qle _ 100)]; lia ] ].

(** X6.  For every page and inbound link count, each component of the
    technical and of the linking breakdown holds between 0 and its maximum;
    the maxima add up to 90 and to 100; and the technical and the linking
    score are exactly 100 * points / maximum of their breakdown, so the
    clamp never changes them. *)
Theorem technical_and_linking_breakdowns (page : AnalyzedPage) (n : Z) :
  let s := score_page page n in
  (Forall component_ok s.(technical_breakdown)
   /\ max_points s.(technical_breakdown) = 90
   /\ (s.(technical_score) == percentage s.(technical_breakdown))%Q)
  /\ (Forall component_ok s.(linking_breakdown)
      /\ max_points s.(linking_breakdown) = 100
      /\ (s.(linking_score) == percentage s.(linking_breakdown))%Q).
Proof.
  cbv zeta. unfold score_page.
  destruct (_score_content page) as [c cb].
  unfold _score_technical, _score_linking. cbv zeta.
  cbn [technical_breakdown technical_score linking_breakdown linking_score].
  pose proof (flag_range page.(is_https) 10 ltac:(lia)).
  pose proof (status_pts_range page.(status_code)).
  pose proof (flag_range page.(is_indexable) 15 ltac:(lia)).
  pose proof (flag_range page.(has_viewport_meta) 5 ltac:(lia)).
  pose proof (load_time_pts_range page.(load_time_ms)).
  pose proof (page_size_pts_range page.(page_size_bytes)).
  pose proof (flag_range (Py.truthy_opt page.(canonical_tag)) 5 ltac:(lia)).
  pose proof (flag_range page.(has_schema_markup) 10 ltac:(lia)).
  pose proof (flag_range page.(has_open_graph) 5 ltac:(lia)).
  pose proof (flag_range page.(has_twitter_card) 5 ltac:(lia)).
  pose proof (flag_range page.(has_hreflang) 5 ltac:(lia)).
  pose proof (out_pts_range page.(internal_links_count)).
  pose proof (link_quality_pts_range page.(internal_links_count)).
  pose proof (in_pts_range n).
  name_points.
  cbn -[Qeq Qdiv Qmult inject_Z clamp Z.add].
  split; close_breakdown.
Qed.


Lemma clamp_mono (x y : Q) : (x <= y)%Q -> (clamp x <= clamp y)%Q.
Proof.
  intros H. unfold clamp, clamp_between, py_max, py_min.
  destruct (Qltb_spec x 100), (Qltb_spec y 100), (Qltb_spec 0 x),
    (Qltb_spec 0 y), (Qltb_spec 0 100); lra.
Qed.

Lemma in_pts_mono (n n' : Z) : n <= n' -> in_pts n <= in_pts n'.
Proof.
  intros H. unfold in_pts.
  repeat match goal with
         | |- context [?a <=? ?b] => destruct (Z.leb_spec a b)
         end; lia.
Qed.

Lemma _score_authority_mono (n n' : Z) :
  n <= n' -> (_score_authority n <= _score_authority n')%Q.
Proof.
  intros H. unfold _score_authority.
  repeat match goal with
         | |- context [?a <=? ?b] => destruct (Z.leb_spec a b)
         end; try lia; try lra.
Qed.

(** X7.  More inbound links never lower a score: for n <= n' the
    authority, linking and overall scores of a page with n' inbound links
    are at least those with n, and its technical, content and AI-visibility
    scores are the same. *)
Theorem inbound_links_never_lower_a_score (page : AnalyzedPage) (n n' : Z) :
  n <= n' ->
  let s := score_page page n in
  let s' := score_page page n' in
  (s.(authority_score) <= s'.(authority_score))%Q
  /\ (s.(linking_score) <= s'.(linking_score))%Q
  /\ (s.(overall_score) <= s'.(overall_score))%Q
  /\ s'.(technical_score) = s.(technical_score)
  /\ s'.(content_score) = s.(content_score)
  /\ s'.(ai_visibility_score) = s.(ai_visibility_score).
Proof.
  intros H. cbv zeta. unfold score_page.
  destruct (_score_technical page) as [t tb].
  destruct (_score_content page) as [c cb].
  unfold _score_linking. cbv zeta.
  cbn [authority_score linking_score overall_score technical_score
       content_score ai_visibility_score].
  assert (Ha : (clamp (_score_authority n) <= clamp (_score_authority n'))%Q)
    by (apply clamp_mono, _score_authority_mono, H).
  set (o := out_pts _). set (q := link_quality_pts _).
  assert (Hl : (clamp (inject_Z (o + q + in_pts n))
                <= clamp (inject_Z (o + q + in_pts n')))%Q).
  { apply clamp_mono. rewrite <- Zle_Qle.
    pose proof (in_pts_mono n n' H). lia. }
  repeat split; try assumption.
  apply clamp_mono. unfold weighted. cbn [Config.settings
    Config.SCORE_TECHNICAL_WEIGHT Config.SCORE_CONTENT_WEIGHT
    Config.SCORE_AUTHORITY_WEIGHT Config.SCORE_LINKING_WEIGHT
    Config.SCORE_AI_VISIBILITY_WEIGHT].
  lra.
Qed.


(** X8.  For every page that comes out of [analyze], each component of
    the content breakdown holds between 0 and its maximum, the maxima add
    up to 95, and the content score is exactly 100 * points / 95 (the
    image-alt component stays within 10 because the analyzer never counts
    more images with alt text than images). *)
Theorem content_breakdown_consistent (L : Analyzer.Libs)
    (cr : Fetch.CrawlResult) (n : Z) :
  let s := score_page (analyze L cr) n in
  Forall component_ok s.(content_breakdown)
  /\ max_points s.(content_breakdown) = 95
  /\ (s.(content_score) == percentage s.(content_breakdown))%Q.
Proof.
  cbv zeta. pose proof (analyze_images L cr) as Himg. cbv zeta in Himg.
  set (page := analyze L cr) in *. unfold score_page.
  destruct (_score_technical page) as [t tb].
  destruct (_score_linking page n) as [l lb].
  unfold _score_content. cbv zeta.
  cbn [content_breakdown content_score].
  pose proof (title_pts_range page).
  pose proof (desc_pts_range page).
  pose proof (h1_pts_range page).
  pose proof (h2_pts_range page).
  pose proof (word_count_pts_range page.(word_count)).
  pose proof (alt_pts_range page ltac:(lia)).
  pose proof (ratio_pts_range page.(text_html_ratio)).
  clear Himg. name_points.
  cbn -[Qeq Qdiv Qmult inject_Z clamp Z.add].
  close_breakdown.
Qed.


Lemma inbound_links_never_lower_a_score_witness :
  0 <= 12
  /\ ((score_page Cases.perfect_page 0).(overall_score)
      <= (score_page Cases.perfect_page 12).(overall_score))%Q.
Proof.
  split; [lia|].
  destruct (inbound_links_never_lower_a_score Cases.perfect_page 0 12
              ltac:(lia)) as (_ & _ & H & _).
  exact H.
Defined.

(** *** Site scores *)

Lemma sum_range (xs : list Q) (acc : Q) :
  Forall (fun x => 0 <= x <= 100)%Q xs ->
  (acc <= fold_left Qplus xs acc
   <= acc + 100 * inject_Z (Z.of_nat (length xs)))%Q.
Proof.
  intros H. revert acc. induction H as [|x xs [H0 H1] Hxs IH]; intros acc.
  - cbn [fold_left length]. change (inject_Z (Z.of_nat 0)) with 0%Q. lra.
  - cbn [fold_left length]. specialize (IH (acc + x)%Q).
    rewrite Nat2Z.inj_succ, <- Z.add_1_r, inject_Z_plus.
    change (inject_Z 1) with 1%Q. lra.
Qed.

Lemma mean_range (xs : list Q) :
  xs <> [] -> Forall (fun x => 0 <= x <= 100)%Q xs ->
  (0 <= mean xs <= 100)%Q.
Proof.
  intros Hne H. unfold mean, sum.
  pose proof (sum_range xs 0%Q H) as [Hl Hr].
  assert (Hn : (0 < inject_Z (Z.of_nat (length xs)))%Q).
  { rewrite <- (Zlt_Qlt 0). destruct xs; [congruence|cbn; lia]. }
  split.
  - apply Qle_shift_div_l; [exact Hn|]. lra.
  - apply Qle_shift_div_r; [exact Hn|]. lra.
Qed.

Lemma round_digits_range (x : Q) (d : nat) (m : Z) :
  (0 <= x <= inject_Z m)%Q ->
  (0 <= Py.round_digits x d <= inject_Z m)%Q.
Proof.
  intros [H0 H1]. unfold Py.round_digits.
  set (k := 10 ^ Z.of_nat d).
  assert (Hk : 0 < k) by (apply Z.pow_pos_nonneg; lia).
  assert (Hk' : (0 < inject_Z k)%Q) by (rewrite <- (Zlt_Qlt 0); exact Hk).
  assert (Hr : 0 <= Py.round_half_even (x * inject_Z k) <= m * k).
  { apply round_half_even_between. rewrite inject_Z_mult.
    change (inject_Z 0) with 0%Q. split.
    - apply Qmult_le_0_compat; lra.
    - apply Qmult_le_compat_r; lra. }
  destruct Hr as [Hr0 Hr1].
  rewrite Zle_Qle in Hr0, Hr1.
  rewrite inject_Z_mult in Hr1. change (inject_Z 0) with 0%Q in Hr0.
  split.
  - apply Qle_shift_div_l; [exact Hk'|]. lra.
  - apply Qle_shift_div_r; [exact Hk'|]. lra.
Qed.

Lemma site_average_range (f : PageScore -> Q) (scores : list PageScore) :
  scores <> [] -> Forall (fun s => 0 <= f s <= 100)%Q scores ->
  (0 <= Py.round_digits (mean (map f scores)) 2 <= 100)%Q.
Proof.
  intros Hne H. apply (round_digits_range _ 2 100), mean_range.
  - destruct scores; [congruence|discriminate].
  - apply List.Forall_forall. intros x Hin.
    apply in_map_iff in Hin as (s & <- & Hin).
    rewrite List.Forall_forall in H. apply H, Hin.
Qed.


Lemma score_page_range (page : AnalyzedPage) (n : Z) :
  let s := score_page page n in
  (0 <= s.(overall_score) <= 100)%Q
  /\ (0 <= s.(technical_score) <= 100)%Q
  /\ (0 <= s.(content_score) <= 100)%Q
  /\ (0 <= s.(authority_score) <= 100)%Q
  /\ (0 <= s.(linking_score) <= 100)%Q
  /\ (0 <= s.(ai_visibility_score) <= 100)%Q.
Proof.
  cbv zeta. unfold score_page.
  destruct (_score_technical page) as [t tb].
  destruct (_score_content page) as [c cb].
  destruct (_score_linking page n) as [l lb].
  cbn [overall_score technical_score content_score authority_score
       linking_score ai_visibility_score].
  repeat split; apply clamp_range.
Qed.

(** X9.  [aggregate_site_score] on the scores [score_page] gives any
    list of pages: the six site scores lie between 0 and 100 and page_count
    is the number of pages. *)
Theorem site_scores_in_range (pages : list (AnalyzedPage * Z)) :
  let site := score_site pages in
  (0 <= site.(SiteScore.overall_score) <= 100)%Q
  /\ (0 <= site.(SiteScore.technical_score) <= 100)%Q
  /\ (0 <= site.(SiteScore.content_score) <= 100)%Q
  /\ (0 <= site.(SiteScore.authority_score) <= 100)%Q
  /\ (0 <= site.(SiteScore.linking_score) <= 100)%Q
  /\ (0 <= site.(SiteScore.ai_visibility_score) <= 100)%Q
  /\ site.(page_count) = Z.of_nat (length pages).
Proof.
  cbv zeta. unfold score_site, aggregate_site_score.
  destruct (map _ pages) as [|s0 scores] eqn:E.
  { destruct pages; [|discriminate]. cbn. repeat split; discriminate. }
  rewrite <- E.
  cbn [SiteScore.overall_score SiteScore.technical_score SiteScore.content_score
       SiteScore.authority_score SiteScore.linking_score SiteScore.ai_visibility_score
       page_count].
  assert (Hne : map (fun pn => score_page (fst pn) (snd pn)) pages <> [])
    by (rewrite E; discriminate).
  assert (Hall : forall f : PageScore -> Q,
            (forall p n, 0 <= f (score_page p n) <= 100)%Q ->
            (0 <= Py.round_digits
                    (mean (map f (map (fun pn => score_page (fst pn) (snd pn))
                                    pages))) 2 <= 100)%Q).
  { intros f Hf. apply site_average_range; [exact Hne|].
    apply List.Forall_forall. intros s Hin.
    apply in_map_iff in Hin as ([p n] & <- & _). apply Hf. }
  repeat split; try (apply Hall; intros p n; apply (score_page_range p n)).
  rewrite length_map. reflexivity.
Qed.


(** *** Aggregated breakdowns *)

Lemma collect_under (M : string -> Z) (agg : Py.dict (list Z * Z))
    (e : string * Component) :
  Forall (collected_under M) agg -> entry_under M e ->
  Forall (collected_under M) (collect agg e).
Proof.
  intros Hagg [Hmax Hs]. destruct e as [key data]. cbn [fst snd] in *.
  unfold collect.
  destruct (Py.dict_get agg key) as [[scores mx]|] eqn:Hget.
  - apply dict_get_in in Hget. rewrite List.Forall_forall in Hagg.
    pose proof (Hagg _ Hget) as (Hmx & Hne & Hall). cbn [fst snd] in *.
    apply dict_set_Forall; [apply List.Forall_forall, Hagg|].
    repeat split; cbn [fst snd].
    + exact Hmx.
    + destruct scores; discriminate.
    + apply Forall_app. split; [exact Hall|]. repeat constructor; lia.
  - apply dict_set_Forall; [exact Hagg|].
    repeat split; cbn [fst snd]; [exact Hmax|discriminate|].
    repeat constructor; lia.
Qed.

Lemma collect_all_under (M : string -> Z) (breakdowns : list Breakdown)
    (agg : Py.dict (list Z * Z)) :
  Forall (collected_under M) agg ->
  Forall (Forall (entry_under M)) breakdowns ->
  Forall (collected_under M)
    (fold_left (fun agg breakdown => fold_left collect breakdown agg)
       breakdowns agg).
Proof.
  intros Hagg H. revert agg Hagg.
  induction H as [|b bs Hb Hbs IH]; intros agg Hagg; [exact Hagg|].
  cbn [fold_left]. apply IH. clear IH Hbs. revert agg Hagg.
  induction Hb as [|e b He Hb IH]; intros agg Hagg; [exact Hagg|].
  cbn [fold_left]. apply IH, collect_under; assumption.
Qed.

Lemma isum_range (m : Z) (xs : list Z) (acc : Z) :
  Forall (fun s => 0 <= s <= m) xs ->
  acc <= fold_left Z.add xs acc <= acc + m * Z.of_nat (length xs).
Proof.
  intros H. revert acc. induction H as [|x xs Hx Hxs IH]; intros acc.
  - cbn. lia.
  - cbn [fold_left length]. specialize (IH (acc + x)). lia.
Qed.

Lemma summarize_ok (M : string -> Z) (kv : string * (list Z * Z)) :
  collected_under M kv -> aggregated_ok (fst kv, summarize (snd kv)).
Proof.
  destruct kv as [key [scores mx]]. intros (Hmx & Hne & Hall).
  cbn [fst snd] in *. subst mx. set (m := M key) in *.
  unfold aggregated_ok, summarize. cbn [snd avg_score max pct].
  pose proof (isum_range m scores 0 Hall) as [Hs0 Hs1].
  fold (isum scores) in Hs0, Hs1. rewrite Z.add_0_l in Hs1.
  set (n := Z.of_nat (length scores)) in *.
  assert (Hn : 0 < n) by (destruct scores; [congruence|subst n; cbn; lia]).
  assert (Hm : 0 <= m).
  { destruct scores as [|s0 ?]; [congruence|].
    apply Forall_cons_1 in Hall as [? _]. lia. }
  assert (Hn' : (0 < inject_Z n)%Q) by (rewrite <- (Zlt_Qlt 0); exact Hn).
  rewrite Zle_Qle in Hs0, Hs1, Hm. rewrite inject_Z_mult in Hs1.
  change (inject_Z 0) with 0%Q in *.
  set (avg := (inject_Z (isum scores) / inject_Z n)%Q).
  assert (Havg : (0 <= avg <= inject_Z m)%Q).
  { subst avg. split.
    - apply Qle_shift_div_l; [exact Hn'|]. lra.
    - apply Qle_shift_div_r; [exact Hn'|]. lra. }
  split; [apply round_digits_range, Havg|].
  apply (round_digits_range _ 1 100).
  assert (Hd : (0 < inject_Z (Z.max m 1))%Q) by (rewrite <- (Zlt_Qlt 0); lia).
  assert (Hle : (inject_Z m <= inject_Z (Z.max m 1))%Q)
    by (rewrite <- Zle_Qle; lia).
  assert (H0 : (0 <= avg / inject_Z (Z.max m 1))%Q).
  { apply Qle_shift_div_l; [exact Hd|]. lra. }
  assert (H1 : (avg / inject_Z (Z.max m 1) <= 1)%Q).
  { apply Qle_shift_div_r; [exact Hd|]. lra. }
  change (inject_Z 100) with 100%Q. lra.
Qed.

Lemma aggregate_breakdowns_ok (M : string -> Z) (breakdowns : list Breakdown) :
  Forall (Forall (entry_under M)) breakdowns ->
  Forall aggregated_ok (_aggregate_breakdowns breakdowns).
Proof.
  intros H. unfold _aggregate_breakdowns. cbv zeta.
  pose proof (collect_all_under M breakdowns [] (List.Forall_nil _) H) as Hc.
  apply List.Forall_forall. intros e Hin.
  apply in_map_iff in Hin as (kv & <- & Hin).
  rewrite List.Forall_forall in Hc. apply (summarize_ok M), Hc, Hin.
Qed.


Ltac close_entries :=
  repeat constructor; cbn; lia.

Lemma technical_entries (page : AnalyzedPage) (n : Z) :
  Forall (entry_under (max_of technical_weights))
    (score_page page n).(technical_breakdown).
Proof.
  unfold score_page.
  destruct (_score_content page) as [c cb].
  destruct (_score_linking page n) as [l lb].
  unfold _score_technical. cbv zeta. cbn [technical_breakdown].
  pose proof (flag_range page.(is_https) 10 ltac:(lia)).
  pose proof (status_pts_range page.(status_code)).
  pose proof (flag_range page.(is_indexable) 15 ltac:(lia)).
  pose proof (flag_range page.(has_viewport_meta) 5 ltac:(lia)).
  pose proof (load_time_pts_range page.(load_time_ms)).
  pose proof (page_size_pts_range page.(page_size_bytes)).
  pose proof (flag_range (Py.truthy_opt page.(canonical_tag)) 5 ltac:(lia)).
  pose proof (flag_range page.(has_schema_markup) 10 ltac:(lia)).
  pose proof (flag_range page.(has_open_graph) 5 ltac:(lia)).
  pose proof (flag_range page.(has_twitter_card) 5 ltac:(lia)).
  pose proof (flag_range page.(has_hreflang) 5 ltac:(lia)).
  name_points. close_entries.
Qed.

Lemma linking_entries (page : AnalyzedPage) (n : Z) :
  Forall (entry_under (max_of linking_weights))
    (score_page page n).(linking_breakdown).
Proof.
  unfold score_page.
  destruct (_score_content page) as [c cb].
  destruct (_score_technical page) as [t tb].
  unfold _score_linking. cbv zeta. cbn [linking_breakdown].
  pose proof (out_pts_range page.(internal_links_count)).
  pose proof (link_quality_pts_range page.(internal_links_count)).
  pose proof (in_pts_range n).
  name_points. close_entries.
Qed.

Lemma content_entries (page : AnalyzedPage) (n : Z) :
  0 <= page.(images_with_alt) <= page.(total_images) ->
  Forall (entry_under (max_of content_weights))
    (score_page page n).(content_breakdown).
Proof.
  intros Himg. unfold score_page.
  destruct (_score_technical page) as [t tb].
  destruct (_score_linking page n) as [l lb].
  unfold _score_content. cbv zeta. cbn [content_breakdown].
  pose proof (title_pts_range page).
  pose proof (desc_pts_range page).
  pose proof (h1_pts_range page).
  pose proof (h2_pts_range page).
  pose proof (word_count_pts_range page.(word_count)).
  pose proof (alt_pts_range page Himg).
  pose proof (ratio_pts_range page.(text_html_ratio)).
  clear Himg. name_points. close_entries.
Qed.

(** X10.  For a site of analyzed pages, every entry of the three
    aggregated breakdowns has an average between 0 and its maximum and a
    percentage between 0 and 100. *)
Theorem site_breakdowns_in_range (L : Analyzer.Libs)
    (fetched : list (Fetch.CrawlResult * Z)) :
  let site :=
    score_site (map (fun cn => (analyze L (fst cn), snd cn)) fetched) in
  Forall aggregated_ok site.(SiteScore.technical_breakdown)
  /\ Forall aggregated_ok site.(SiteScore.content_breakdown)
  /\ Forall aggregated_ok site.(SiteScore.linking_breakdown).
Proof.
  cbv zeta. unfold score_site, aggregate_site_score.
  rewrite map_map. cbn [fst snd].
  destruct (map _ fetched) as [|s0 scores] eqn:E.
  { cbn. repeat split; constructor. }
  rewrite <- E. clear E s0 scores.
  cbn [SiteScore.technical_breakdown SiteScore.content_breakdown
       SiteScore.linking_breakdown].
  rewrite !map_map.
  split; [|split].
  - apply (aggregate_breakdowns_ok (max_of technical_weights)).
    apply List.Forall_forall. intros b Hin.
    apply in_map_iff in Hin as ([cr n] & <- & _). apply technical_entries.
  - apply (aggregate_breakdowns_ok (max_of content_weights)).
    apply List.Forall_forall. intros b Hin.
    apply in_map_iff in Hin as ([cr n] & <- & _). apply content_entries.
    pose proof (analyze_images L cr) as Himg. cbv zeta in Himg.
    cbn [fst]. lia.
  - apply (aggregate_breakdowns_ok (max_of linking_weights)).
    apply List.Forall_forall. intros b Hin.
    apply in_map_iff in Hin as ([cr n] & <- & _). apply linking_entries.
Qed.

End ScorerBreakdowns.

(** * The keyword engine: CTR curve, estimates, site keywords *)

Section KeywordsProps.
Import KeywordEngine Keywords.
Local Open Scope string_scope.
Local Open Scope Z_scope.

Lemma Qleb_le (x y : Q) : Py.Qleb x y = true -> (x <= y)%Q.
Proof.
  unfold Py.Qleb. destruct (x ?= y)%Q eqn:E; try discriminate; intros _.
  - apply Qeq_alt in E. rewrite E. apply Qle_refl.
  - apply Qlt_alt in E. apply Qlt_le_weak, E.
Qed.

Lemma Qltb_lt (x y : Q) : Py.Qltb x y = true -> (x < y)%Q.
Proof. destruct (Qltb_spec x y); [tauto|discriminate]. Qed.

Lemma ctr_checked_in_table (p : Z) : 1 <= p <= 50 -> ctr_checked p = true.
Proof.
  intros H.
  assert (Hall : forallb ctr_checked (seqZ 1 50) = true)
    by (vm_compute; reflexivity).
  rewrite forallb_forall in Hall. apply Hall.
  apply list_elem_of_In, elem_of_seqZ. lia.
Qed.

Lemma ctr_beyond_table (p : Z) : 50 < p -> get_ctr_for_position p = 0.0005%Q.
Proof.
  intros H. unfold get_ctr_for_position.
  destruct (Z.leb_spec p 0); [lia|].
  unfold POSITION_CTR_MAP, ctr_at.
  repeat match goal with
         | |- context [p =? ?k] => destruct (Z.eqb_spec p k); [lia|]
         end.
  destruct (Z.ltb_spec 50 p); [reflexivity|lia].
Qed.

Lemma ctr_not_positive (p : Z) : p <= 0 -> get_ctr_for_position p = 0%Q.
Proof.
  intros H. unfold get_ctr_for_position.
  destruct (Z.leb_spec p 0); [reflexivity|lia].
Qed.

Lemma ctr_step (p : Z) :
  1 <= p -> (get_ctr_for_position (p + 1) <= get_ctr_for_position p)%Q.
Proof.
  intros H. destruct (Z.le_gt_cases p 50) as [Hle|Hgt].
  - pose proof (ctr_checked_in_table p (conj H Hle)) as Hc.
    unfold ctr_checked in Hc.
    apply andb_prop in Hc as [Hc _]. apply andb_prop in Hc as [Hc _].
    apply andb_prop in Hc as [Hc _]. apply Qleb_le, Hc.
  - rewrite !ctr_beyond_table by lia. apply Qle_refl.
Qed.

(** X11.  [get_ctr_for_position] returns a value between 0 and 0.284; it
    is positive exactly for the positions from 1 on; and the final
    [return 0.001] is never reached: every position from 1 to 50 is in the
    table or between two of its keys. *)
Theorem ctr_curve_range (p : Z) :
  (0 <= get_ctr_for_position p <= 0.284)%Q
  /\ ((0 < get_ctr_for_position p)%Q <-> 0 < p)
  /\ falls_through p = false.
Proof.
  destruct (Z.le_gt_cases p 0) as [H0|H0].
  { rewrite ctr_not_positive by exact H0. unfold falls_through.
    destruct (Z.ltb_spec 0 p); [lia|]. cbn [andb].
    split; [split; discriminate|]. split; [|reflexivity].
    split; [intros Hq; inversion Hq|lia]. }
  destruct (Z.le_gt_cases p 50) as [H1|H1].
  - pose proof (ctr_checked_in_table p ltac:(lia)) as Hc.
    unfold ctr_checked in Hc.
    apply andb_prop in Hc as [Hc Hf]. apply andb_prop in Hc as [Hc Hhi].
    apply andb_prop in Hc as [_ Hpos].
    apply Qleb_le in Hhi. apply Qltb_lt in Hpos.
    split; [split; [apply Qlt_le_weak, Hpos|exact Hhi]|].
    split; [tauto|]. destruct (falls_through p); [discriminate|reflexivity].
  - rewrite ctr_beyond_table by exact H1. unfold falls_through.
    destruct (Z.leb_spec p 50); [lia|]. rewrite andb_false_r. cbn [andb].
    split; [split; discriminate|]. split; [|reflexivity].
    split; [lia|reflexivity].
Qed.

(** X12.  The click-through rate never rises with the position: for
    1 <= p <= q, get_ctr_for_position(q) <= get_ctr_for_position(p). *)
Theorem ctr_curve_monotone (p q : Z) :
  1 <= p -> p <= q ->
  (get_ctr_for_position q <= get_ctr_for_position p)%Q.
Proof.
  intros Hp Hq.
  assert (Hn : forall n : nat,
            (get_ctr_for_position (p + Z.of_nat n)
             <= get_ctr_for_position p)%Q).
  { induction n as [|n IH].
    - rewrite Z.add_0_r. apply Qle_refl.
    - rewrite Nat2Z.inj_succ, <- Z.add_1_r, Z.add_assoc.
      eapply Qle_trans; [apply ctr_step; lia|exact IH]. }
  replace q with (p + Z.of_nat (Z.to_nat (q - p))) by lia. apply Hn.
Qed.

Lemma ctr_curve_monotone_witness :
  1 <= 4 /\ 4 <= 17
  /\ (get_ctr_for_position 17 <= get_ctr_for_position 4)%Q.
Proof.
  split; [lia|]. split; [lia|]. apply (ctr_curve_monotone 4 17); lia.
Defined.


Lemma estimate_rank_cases (kw : string) (f : Z) :
  exists r, _estimate_current_rank kw f = Some r
            /\ 8 <= r <= 60
            /\ (50 <= f -> r = 8).
Proof.
  unfold _estimate_current_rank.
  repeat match goal with
         | |- context [?a <=? ?b] => destruct (Z.leb_spec a b)
         end; eexists; (split; [reflexivity|]); split; lia.
Qed.

(** X13.  For site frequencies 0 <= f <= f', the estimated volume lies
    between 1000 and 15000 and does not fall from f to f', and the estimated
    rank lies between 8 and 60 and does not get worse (larger) from f to
    f'. *)
Theorem estimates_follow_frequency (kw : string) (f f' : Z) :
  0 <= f -> f <= f' ->
  1000 <= _estimate_volume kw f
  /\ _estimate_volume kw f <= _estimate_volume kw f'
  /\ _estimate_volume kw f' <= 15000
  /\ 8 <= rank_of kw f' <= rank_of kw f
  /\ rank_of kw f <= 60.
Proof.
  intros H0 Hle. unfold _estimate_volume, rank_of, _estimate_current_rank.
  cbv zeta.
  set (m := if _ =? 1 then 10 else _).
  assert (Hm : 1 <= m <= 10).
  { subst m.
    repeat match goal with
           | |- context [if ?c then _ else _] => destruct c
           end; lia. }
  repeat match goal with
         | |- context [?a <=? ?b] => destruct (Z.leb_spec a b)
         end; lia.
Qed.

Lemma estimates_follow_frequency_witness :
  0 <= 4 /\ 4 <= 60
  /\ 1000 <= _estimate_volume "seo audit" 4
  /\ _estimate_volume "seo audit" 4 <= _estimate_volume "seo audit" 60
  /\ _estimate_volume "seo audit" 60 <= 15000
  /\ 8 <= rank_of "seo audit" 60 <= rank_of "seo audit" 4
  /\ rank_of "seo audit" 4 <= 60.
Proof.
  split; [lia|]. split; [lia|].
  apply (estimates_follow_frequency "seo audit" 4 60); lia.
Defined.


(** *** The opportunities of a site *)

Lemma opportunity_of_total (target : Z) (t : Totals) (kw : string) (f : Z) :
  exists o, opportunity_of target t kw f = Some o
            /\ o.(keyword) = kw
            /\ o.(frequency) = f
            /\ (length o.(page_urls) <= 5)%nat
            /\ (0 <= o.(opportunity_score) <= 100)%R.
Proof.
  unfold opportunity_of. cbv zeta.
  set (gap := match _estimate_current_rank kw f with
              | Some r => _ | None => None end).
  set (score := match gap with Some g => _ | None => _ end).
  assert (Hs : exists s, score = Some s /\ (0 <= s <= 100)%R).
  { subst score. destruct gap as [g|].
    - destruct (negb (g =? 0) && (0 <? g)).
      + rewrite compute_returns. eexists. split; [reflexivity|].
        apply returned_range.
      + exists 0%R. split; [reflexivity|lra].
    - exists 0%R. split; [reflexivity|lra]. }
  destruct Hs as (s & -> & Hs). eexists. split; [reflexivity|].
  cbn [keyword frequency page_urls opportunity_score].
  repeat split; try apply Hs. apply firstn_le_length.
Qed.

Lemma insert_by_score_in (o x : KeywordOpportunity)
    (l : list KeywordOpportunity) :
  In x (insert_by_score o l) <-> x = o \/ In x l.
Proof.
  induction l as [|o' l IH]; cbn [insert_by_score In].
  - intuition.
  - destruct (Rlt_dec _ _); cbn [In]; [rewrite IH|]; intuition.
Qed.

Lemma sort_by_score_in (x : KeywordOpportunity) (l : list KeywordOpportunity) :
  In x (sort_by_score l) <-> In x l.
Proof.
  unfold sort_by_score. induction l as [|o l IH]; cbn [fold_right In].
  - tauto.
  - rewrite insert_by_score_in, IH. intuition.
Qed.





(** What [opportunities_of] returns: one opportunity for each ranked
    keyword that passes the filter. *)
Lemma opportunities_of_total (target : Z) (t : Totals)
    (ranked : list (string * Z)) :
  exists opps,
    opportunities_of target t ranked = Some opps
    /\ (length opps <= length ranked)%nat
    /\ Forall (fun o => In (o.(keyword), o.(frequency)) ranked
                        /\ opportunity_of target t o.(keyword) o.(frequency)
                           = Some o
                        /\ skipped o.(keyword) = false) opps.
Proof.
  induction ranked as [|[kw f] ranked (opps & Hopps & Hlen & Hall)].
  - exists []. repeat split; [cbn; lia|constructor].
  - cbn [opportunities_of]. destruct (skipped kw) eqn:Hskip.
    + exists opps. split; [exact Hopps|]. split; [cbn [length]; lia|].
      eapply Forall_impl; [exact Hall|]. cbn beta.
      intros o (Hin & Ho & Hs). repeat split; try assumption.
      right. exact Hin.
    + destruct (opportunity_of_total target t kw f)
        as (o & Ho & Hk & Hf & _).
      rewrite Ho, Hopps. exists (o :: opps). split; [reflexivity|].
      split; [cbn [length]; lia|]. constructor.
      * rewrite Hk, Hf. repeat split; try assumption. left. reflexivity.
      * eapply Forall_impl; [exact Hall|]. cbn beta.
        intros o' (Hin & Ho' & Hs). repeat split; try assumption.
        right. exact Hin.
Qed.



(** *** Opportunities with the default target rank *)

Lemma exp_2_le_9 : (exp 2 <= 9)%R.
Proof.
  replace 2%R with (1 + 1)%R by lra. rewrite exp_plus.
  pose proof exp_le_3. pose proof (exp_pos 1). nra.
Qed.

Lemma round2_16 : round2 16 = 16%R.
Proof.
  unfold round2. replace (16 * 100)%R with (IZR 1600) by (simpl; lra).
  rewrite round_half_even_IZR. lra.
Qed.

Lemma normalize_at_least_16 (raw : R) : (8 <= raw)%R -> (16 <= normalize raw)%R.
Proof.
  intros H.
  apply Rle_trans with (normalize 8); [|apply normalize_mono; lra].
  unfold normalize. rewrite <- round2_16 at 1. apply round2_mono.
  assert (Hln : (2 <= log1p 8)%R).
  { unfold log1p. replace (1 + 8)%R with 9%R by lra.
    rewrite <- (ln_exp 2) at 1.
    destruct (Rle_lt_or_eq_dec _ _ exp_2_le_9) as [Hlt| ->]; [|lra].
    left. apply ln_increasing; [apply exp_pos|exact Hlt]. }
  unfold min_100. destruct (Rlt_dec _ 100); lra.
Qed.

Lemma opportunity_of_flagged (t : Totals) (kw : string) (f : Z) :
  1 <= f ->
  exists o, opportunity_of 3 t kw f = Some o
            /\ o.(is_opportunity) = true
            /\ (16 <= o.(opportunity_score))%R.
Proof.
  intros Hf. unfold opportunity_of. cbv zeta.
  change (get_ctr_for_position 3) with 0.099%Q.
  destruct (estimate_rank_cases kw f) as (r & -> & Hr & _).
  destruct (Z.eqb_spec r 0); [lia|]. destruct (Z.ltb_spec 3 r); [|lia].
  cbn [negb andb].
  destruct (Z.eqb_spec (r - 3) 0); [lia|].
  destruct (Z.ltb_spec 0 (r - 3)); [|lia]. cbn [negb andb].
  rewrite compute_returns.
  assert (Hscore : (16 <= returned (_estimate_volume kw f) (Q2R 0.099)
                           (r - 3) (Q2R (_estimate_difficulty kw)))%R).
  { unfold returned, _estimate_volume, _estimate_difficulty. cbv zeta.
    set (wc := Z.of_nat (length (Py.split kw))).
    set (bonus := Z.min (f * 50) 5000).
    assert (Hb : 50 <= bonus) by (subst bonus; lia).
    assert (Hc : Q2R 0.099 = (99 / 1000)%R) by (unfold Q2R; cbn; lra).
    rewrite Hc.
    assert (Hg : (5 <= IZR (r - 3))%R) by (apply IZR_le; lia).
    assert (Hraw : forall m d : Z,
              1 <= m -> 0 < d -> 8 * d <= 495 * m ->
              (8 <= raw_of (1000 * m + bonus) (99 / 1000) (r - 3)
                      (Q2R (inject_Z d)))%R).
    { intros m d Hm Hd Hmd. unfold raw_of, effective_difficulty.
      assert (Hq : Q2R (inject_Z d) = IZR d) by (unfold Q2R; cbn; lra).
      rewrite Hq.
      assert (Hd' : (0 < IZR d)%R) by (apply IZR_lt; lia).
      destruct (Rle_dec (IZR d) 0); [lra|].
      assert (Hv : (IZR (1000 * m + 50) <= IZR (1000 * m + bonus))%R)
        by (apply IZR_le; lia).
      assert (Hdm : (IZR (8 * d) <= IZR (495 * m))%R) by (apply IZR_le; lia).
      rewrite !plus_IZR, !mult_IZR in *.
      assert (Hm' : (1 <= IZR m)%R) by (apply IZR_le; lia).
      unfold Rdiv. apply Rmult_le_reg_r with (IZR d); [exact Hd'|].
      rewrite Rmult_assoc, Rinv_l, Rmult_1_r by lra. nra. }
    assert (Hv0 : forall m, 1 <= m -> (1000 * m + bonus <=? 0) = false)
      by (intros m Hm; apply Z.leb_gt; lia).
    assert (Hfin : forall m d : Z,
              1 <= m -> 0 < d -> 8 * d <= 495 * m ->
              (16 <= (if 1000 * m + bonus <=? 0 then 0
                      else if Rle_dec (99 / 1000) 0 then 0
                      else if r - 3 <=? 0 then 0
                      else normalize
                             (raw_of (1000 * m + bonus) (99 / 1000) (r - 3)
                                (Q2R (inject_Z d))))%R)%R).
    { intros m d Hm Hd Hmd. rewrite (Hv0 m Hm).
      destruct (Rle_dec (99 / 1000) 0); [lra|].
      destruct (Z.leb_spec (r - 3) 0); [lia|].
      apply normalize_at_least_16, Hraw; assumption. }
    destruct (wc =? 1); [apply (Hfin 10 75); lia|].
    destruct (wc =? 2); [apply (Hfin 4 55); lia|].
    destruct (wc =? 3); [apply (Hfin 2 40); lia|].
    apply (Hfin 1 25); lia. }
  eexists. split; [reflexivity|].
  cbn [is_opportunity opportunity_score]. split; [|exact Hscore].
  destruct (Rlt_dec 15 _); [reflexivity|lra].
Qed.


Lemma add_count_counts (url : string) (t : Totals) (kc : string * Z) :
  Forall (fun e => 1 <= snd e) t.(total_freq) -> 1 <= snd kc ->
  Forall (fun e => 1 <= snd e) (add_count url t kc).(total_freq).
Proof.
  intros Ht Hc. destruct kc as [kw count]. cbn [snd] in Hc.
  unfold add_count. cbn [total_freq].
  apply dict_set_Forall; [exact Ht|]. cbn [snd].
  destruct (Py.dict_get (total_freq t) kw) as [old|] eqn:Hget;
    cbn [default]; [|cbn; lia].
  apply dict_get_in in Hget. rewrite List.Forall_forall in Ht.
  apply Ht in Hget. cbn [snd] in Hget. cbn. lia.
Qed.

Lemma totals_counts (data : list (string * Py.dict Z)) :
  Forall (fun page => Forall (fun kc => 1 <= snd kc) (snd page)) data ->
  Forall (fun e => 1 <= snd e) (totals data).(total_freq).
Proof.
  unfold totals.
  set (t0 := {| keyword_pages := []; total_freq := []; total_words := 0 |}).
  assert (H0 : Forall (fun e => 1 <= snd e) t0.(total_freq)) by constructor.
  clearbody t0. intros H. revert t0 H0.
  induction H as [|page data Hp Hd IH]; intros t Ht; [exact Ht|].
  cbn [fold_left]. apply IH. clear IH Hd. unfold add_page.
  destruct page as [url kcs0]. cbn [fst snd] in *.
  revert t Ht. induction Hp as [|kc kcs Hkc Hkcs IH]; intros t Ht;
    [exact Ht|].
  cbn [fold_left]. apply IH, add_count_counts; assumption.
Qed.

Lemma counted_keywords_are_flagged (data : list (string * Py.dict Z)) :
  Forall (fun page => Forall (fun kc => 1 <= snd kc) (snd page)) data ->
  exists opps, aggregate_site_keywords 3 data = Some opps
               /\ Forall flagged opps.
Proof.
  intros Hdata. apply totals_counts in Hdata.
  unfold aggregate_site_keywords. cbv zeta.
  set (t := totals data) in *.
  destruct (opportunities_of_total 3 t (Py.most_common 500 t.(total_freq)))
    as (opps & -> & _ & Hall).
  exists (sort_by_score opps). split; [reflexivity|].
  apply List.Forall_forall. intros o Hin. rewrite sort_by_score_in in Hin.
  rewrite List.Forall_forall in Hall.
  destruct (Hall o Hin) as (Hrk & Ho & _).
  apply most_common_in in Hrk. rewrite List.Forall_forall in Hdata.
  apply Hdata in Hrk. cbn [snd] in Hrk.
  destruct (opportunity_of_flagged t o.(keyword) o.(frequency) Hrk)
    as (o' & Ho' & Hflag & Hlow).
  destruct (opportunity_of_total 3 t o.(keyword) o.(frequency))
    as (o'' & Ho'' & _ & _ & _ & Hhigh).
  rewrite Ho in Ho', Ho''. injection Ho' as <-. injection Ho'' as <-.
  split; [exact Hflag|]. split; [exact Hlow|apply Hhigh].
Qed.

(** X15.  As the worker calls the engine (default target rank 3, the
    keyword maps of the analyzed pages), every keyword opportunity it
    returns has a score of at least 16 and is flagged is_opportunity: the
    threshold of 15 never tells two keywords of a crawled site apart. *)
Theorem every_site_keyword_is_flagged (L : Analyzer.Libs)
    (results : list Fetch.CrawlResult) :
  exists opps,
    Worker.keyword_opportunities (Worker.analyzed_pages L results)
    = Some opps
    /\ Forall flagged opps.
Proof.
  unfold Worker.keyword_opportunities. apply counted_keywords_are_flagged.
  unfold Worker.page_kw_data, Worker.analyzed_pages.
  apply List.Forall_forall. intros page Hin.
  apply in_map_iff in Hin as (p & <- & Hin).
  apply filter_In in Hin as [Hin _].
  apply in_map_iff in Hin as (cr & <- & _). cbn [snd].
  destruct (analyze_keywords L cr) as [_ Hok].
  eapply Forall_impl; [exact Hok|]. intros e [H1 _]. exact H1.
Qed.

End KeywordsProps.

(** * Recommendations *)

Section RecommendationProps.
Import Analyzer Scorer Recommendations.
Local Open Scope string_scope.
Local Open Scope Z_scope.

(** X16.  Scorer and recommendations agree: a title worth the full 20
    points raises no title issue, a description worth the full 15 points
    no description issue, the first heading earns its full 15 points
    exactly when no heading issue is raised, a word count worth at least
    10 points raises no thin-content issue, and a technical score of 100
    raises no technical issue. *)
Theorem full_marks_raise_no_issue (page : AnalyzedPage) :
  (title_pts page = 20 -> _check_title page = [])
  /\ (desc_pts page = 15 -> _check_meta_description page = [])
  /\ (h1_pts page = 15 <-> _check_headings page = [])
  /\ (10 <= word_count_pts page.(word_count) -> _check_content page = [])
  /\ (fst (_score_technical page) == 100 -> _check_technical page = [])%Q.
Proof.
  split; [|split; [|split; [|split]]].
  - unfold title_pts, _check_title. cbv zeta.
    destruct (Py.truthy_opt (title page)); cbn [negb]; [|discriminate].
    destruct (Z.leb_spec 50 (title_length page)),
      (Z.leb_spec (title_length page) 60),
      (Z.leb_spec 30 (title_length page)),
      (Z.leb_spec (title_length page) 70),
      (Z.ltb_spec 0 (title_length page)),
      (Z.ltb_spec 60 (title_length page)),
      (Z.ltb_spec (title_length page) 30);
      cbn [andb]; try lia; try discriminate; reflexivity.
  - unfold desc_pts, _check_meta_description. cbv zeta.
    destruct (Py.truthy_opt (meta_description page)); cbn [negb];
      [|discriminate].
    destruct (Z.leb_spec 150 (meta_description_length page)),
      (Z.leb_spec (meta_description_length page) 160),
      (Z.leb_spec 100 (meta_description_length page)),
      (Z.leb_spec (meta_description_length page) 180),
      (Z.ltb_spec 160 (meta_description_length page));
      cbn [andb]; try lia; try discriminate; reflexivity.
  - unfold h1_pts, _check_headings. cbv zeta.
    destruct (Z.eqb_spec (Z.of_nat (length (h1_tags page))) 1),
      (Z.eqb_spec (Z.of_nat (length (h1_tags page))) 0),
      (Z.ltb_spec 1 (Z.of_nat (length (h1_tags page))));
      try lia; split; try discriminate; try reflexivity; lia.
  - unfold word_count_pts, _check_content.
    destruct (Z.leb_spec 1500 (word_count page)),
      (Z.leb_spec 800 (word_count page)),
      (Z.leb_spec 400 (word_count page)),
      (Z.leb_spec 200 (word_count page)),
      (Z.ltb_spec (word_count page) 300);
      cbn [andb]; try lia; reflexivity.
  - unfold _score_technical, _check_technical. cbv zeta. cbn [fst].
    intros H.
    set (total := (_ + _)%Z) in H.
    assert (Ht : (inject_Z total == inject_Z 90)%Q).
    { change (inject_Z 90) with 90%Q.
      transitivity ((inject_Z total / 90 * 100) * (9 # 10))%Q; [field|].
      rewrite H. reflexivity. }
    assert (Ht' : total = 90)
      by (unfold Qeq in Ht; cbn [inject_Z Qnum Qden] in Ht; lia).
    clear Ht H. subst total.
    pose proof (flag_range page.(is_https) 10 ltac:(lia)).
    pose proof (status_pts_range page.(status_code)).
    pose proof (flag_range page.(is_indexable) 15 ltac:(lia)).
    pose proof (flag_range page.(has_viewport_meta) 5 ltac:(lia)).
    pose proof (load_time_pts_range page.(load_time_ms)).
    pose proof (page_size_pts_range page.(page_size_bytes)).
    pose proof (flag_range (Py.truthy_opt page.(canonical_tag)) 5 ltac:(lia)).
    pose proof (flag_range page.(has_schema_markup) 10 ltac:(lia)).
    pose proof (flag_range page.(has_open_graph) 5 ltac:(lia)).
    pose proof (flag_range page.(has_twitter_card) 5 ltac:(lia)).
    pose proof (flag_range page.(has_hreflang) 5 ltac:(lia)).
    assert (Hh : flag page.(is_https) 10 = 10) by lia.
    assert (Hv : flag page.(has_viewport_meta) 5 = 5) by lia.
    assert (Hl : load_time_pts page.(load_time_ms) = 10) by lia.
    destruct (is_https page); [|discriminate].
    destruct (has_viewport_meta page); [|discriminate].
    unfold load_time_pts in Hl.
    destruct (Z.leb_spec (load_time_ms page) 1000).
    + destruct (Z.ltb_spec 3000 (load_time_ms page)); [lia|reflexivity].
    + repeat match type of Hl with
             | (if ?c then _ else _) = _ => destruct c; try discriminate
             end.
Qed.

Lemma full_marks_raise_no_issue_witness :
  title_pts Cases.perfect_page = 20
  /\ desc_pts Cases.perfect_page = 15
  /\ 10 <= word_count_pts Cases.perfect_page.(word_count)
  /\ (fst (_score_technical Cases.perfect_page) == 100)%Q
  /\ _check_title Cases.perfect_page = []
  /\ _check_meta_description Cases.perfect_page = []
  /\ _check_content Cases.perfect_page = []
  /\ _check_technical Cases.perfect_page = [].
Proof.
  destruct (full_marks_raise_no_issue Cases.perfect_page)
    as (Ht & Hd & _ & Hc & Htech).
  assert (H1 : title_pts Cases.perfect_page = 20) by reflexivity.
  assert (H2 : desc_pts Cases.perfect_page = 15) by reflexivity.
  assert (H3 : 10 <= word_count_pts Cases.perfect_page.(word_count))
    by (vm_compute; discriminate).
  assert (H4 : (fst (_score_technical Cases.perfect_page) == 100)%Q)
    by reflexivity.
  split; [exact H1|]. split; [exact H2|]. split; [exact H3|].
  split; [exact H4|]. split; [exact (Ht H1)|]. split; [exact (Hd H2)|].
  split; [exact (Hc H3)|exact (Htech H4)].
Defined.


Ltac pick_sublist :=
  repeat first [ apply sublist_nil
               | apply sublist_skip
               | apply sublist_cons ].

Ltac split_check :=
  repeat match goal with
         | |- context [if ?c then _ else _] => destruct c
         end;
  cbn [issues map issue_type rec length app]; (split; [pick_sublist|lia]).

Lemma check_title_issues (p : AnalyzedPage) :
  issues (_check_title p)
    `sublist_of` ["missing_title"; "title_too_long"; "title_too_short"]
  /\ (length (_check_title p) <= 1)%nat.
Proof. unfold _check_title. split_check. Qed.

Lemma check_meta_description_issues (p : AnalyzedPage) :
  issues (_check_meta_description p)
    `sublist_of` ["missing_meta_description"; "meta_description_too_long"]
  /\ (length (_check_meta_description p) <= 1)%nat.
Proof. unfold _check_meta_description. split_check. Qed.

Lemma check_headings_issues (p : AnalyzedPage) :
  issues (_check_headings p) `sublist_of` ["missing_h1"; "multiple_h1"]
  /\ (length (_check_headings p) <= 1)%nat.
Proof. unfold _check_headings. cbv zeta. split_check. Qed.

Lemma check_content_issues (p : AnalyzedPage) :
  issues (_check_content p) `sublist_of` ["thin_content"]
  /\ (length (_check_content p) <= 1)%nat.
Proof. unfold _check_content. cbv zeta. split_check. Qed.

Lemma check_images_issues (p : AnalyzedPage) :
  issues (_check_images p) `sublist_of` ["images_missing_alt"]
  /\ (length (_check_images p) <= 1)%nat.
Proof. unfold _check_images. cbv zeta. split_check. Qed.

Lemma check_technical_issues (p : AnalyzedPage) :
  issues (_check_technical p)
    `sublist_of` ["not_https"; "missing_viewport"; "slow_page_load"]
  /\ (length (_check_technical p) <= 3)%nat.
Proof. unfold _check_technical. split_check. Qed.

Lemma check_structured_data_issues (p : AnalyzedPage) :
  issues (_check_structured_data p)
    `sublist_of` ["missing_schema"; "missing_open_graph"]
  /\ (length (_check_structured_data p) <= 2)%nat.
Proof. unfold _check_structured_data. split_check. Qed.

Lemma check_links_issues (p : AnalyzedPage) :
  issues (_check_links p) `sublist_of` ["no_internal_links"]
  /\ (length (_check_links p) <= 1)%nat.
Proof. unfold _check_links. split_check. Qed.

Lemma NoDup_page_issue_types : NoDup page_issue_types.
Proof. apply (bool_decide_unpack _). vm_compute. exact I. Qed.

(** X17.  The recommendations of a page name each issue type at most
    once, in the fixed order of the checks; there are at most 11 of them;
    and every one is tagged with the URL of the page. *)
Theorem page_recommendations_are_distinct (page : AnalyzedPage) :
  let recs := generate_page_recommendations page in
  issues recs `sublist_of` page_issue_types
  /\ NoDup (issues recs)
  /\ (length recs <= 11)%nat
  /\ Forall (fun r => r.(page_url) = Some page.(url)) recs.
Proof.
  cbv zeta. unfold generate_page_recommendations. cbv zeta.
  destruct (check_title_issues page) as [S1 L1].
  destruct (check_meta_description_issues page) as [S2 L2].
  destruct (check_headings_issues page) as [S3 L3].
  destruct (check_content_issues page) as [S4 L4].
  destruct (check_images_issues page) as [S5 L5].
  destruct (check_technical_issues page) as [S6 L6].
  destruct (check_structured_data_issues page) as [S7 L7].
  destruct (check_links_issues page) as [S8 L8].
  assert (Hsub : issues
                   (map (tag page.(url))
                      (_check_title page ++ _check_meta_description page
                       ++ _check_headings page ++ _check_content page
                       ++ _check_images page ++ _check_technical page
                       ++ _check_structured_data page
                       ++ _check_links page)%list)
                 `sublist_of` page_issue_types).
  { unfold issues in *. rewrite map_map. cbn [tag issue_type].
    rewrite !map_app.
    change page_issue_types
      with (["missing_title"; "title_too_long"; "title_too_short"]
            ++ ["missing_meta_description"; "meta_description_too_long"]
            ++ ["missing_h1"; "multiple_h1"] ++ ["thin_content"]
            ++ ["images_missing_alt"]
            ++ ["not_https"; "missing_viewport"; "slow_page_load"]
            ++ ["missing_schema"; "missing_open_graph"]
            ++ ["no_internal_links"])%list.
    repeat (apply sublist_app; [assumption|]). assumption. }
  split; [exact Hsub|].
  split; [exact (sublist_NoDup _ _ NoDup_page_issue_types Hsub)|].
  split.
  - rewrite length_map, !length_app. lia.
  - apply List.Forall_forall. intros r Hin.
    apply in_map_iff in Hin as (r0 & <- & _). reflexivity.
Qed.


(** *** Pages without a body *)

Lemma empty_page_recommendations_aux (L : Analyzer.Libs)
    (cr : Fetch.CrawlResult) :
  cr.(Fetch.html) = "" ->
  let recs := generate_page_recommendations (analyze L cr) in
  map issue_of recs
  = ([ ("missing_title", CRITICAL); ("missing_meta_description", HIGH);
       ("missing_h1", HIGH); ("thin_content", HIGH) ]
     ++ (if Py.startswith "https://" cr.(Fetch.url)
         then [] else [("not_https", CRITICAL)])
     ++ [ ("missing_viewport", HIGH) ]
     ++ (if 3000 <? cr.(Fetch.load_time_ms)
         then [("slow_page_load", HIGH)] else [])
     ++ [ ("missing_schema", MEDIUM); ("missing_open_graph", LOW) ])%list
  /\ Forall (fun r => r.(page_url) = Some cr.(Fetch.url)) recs.
Proof.
  intros Hhtml. cbv zeta. unfold analyze. rewrite Hhtml. cbn [Py.truthy negb].
  unfold generate_page_recommendations, _check_title,
    _check_meta_description, _check_headings, _check_content, _check_images,
    _check_technical, _check_structured_data, _check_links.
  cbn [title meta_description h1_tags word_count is_indexable
       images_missing_alt is_https has_viewport_meta load_time_ms
       has_schema_markup has_open_graph internal_links_count url
       AnalyzedPage_init Py.truthy_opt negb length Z.of_nat Z.eqb Z.ltb
       Z.compare Pos.compare Pos.compare_cont andb].
  destruct (Py.startswith "https://" (Fetch.url cr));
    destruct (Z.ltb_spec 3000 (Fetch.load_time_ms cr)) as [Hl|Hl];
    cbn [negb andb];
    try (destruct (Z.ltb_spec 0 (Fetch.load_time_ms cr)); [|lia]);
    cbn [app map tag issue_of rec issue_type severity page_url];
    (split; [reflexivity|repeat constructor]).
Qed.

(** X18.  A crawl result without html (an empty body, or a failed fetch)
    is still analyzed and reported: its recommendations are missing_title
    (critical), missing_meta_description (high), missing_h1 (high),
    thin_content (high), not_https (critical) unless the URL starts with
    https://, missing_viewport (high), slow_page_load (high) when the load
    time is above 3000 ms, missing_schema (medium) and missing_open_graph
    (low), in this order, each tagged with the URL. *)
Theorem empty_page_recommendations (L : Analyzer.Libs)
    (cr : Fetch.CrawlResult) :
  cr.(Fetch.html) = "" ->
  let recs := generate_page_recommendations (analyze L cr) in
  map issue_of recs
  = ([ ("missing_title", CRITICAL); ("missing_meta_description", HIGH);
       ("missing_h1", HIGH); ("thin_content", HIGH) ]
     ++ (if Py.startswith "https://" cr.(Fetch.url)
         then [] else [("not_https", CRITICAL)])
     ++ [ ("missing_viewport", HIGH) ]
     ++ (if 3000 <? cr.(Fetch.load_time_ms)
         then [("slow_page_load", HIGH)] else [])
     ++ [ ("missing_schema", MEDIUM); ("missing_open_graph", LOW) ])%list
  /\ Forall (fun r => r.(page_url) = Some cr.(Fetch.url)) recs.
Proof. exact (empty_page_recommendations_aux L cr). Qed.

Lemma empty_page_recommendations_witness :
  Examples.empty_page.(Fetch.html) = ""
  /\ map issue_of
       (generate_page_recommendations
          (analyze Examples.six_words Examples.empty_page))
     = [ ("missing_title", CRITICAL); ("missing_meta_description", HIGH);
         ("missing_h1", HIGH); ("thin_content", HIGH);
         ("missing_viewport", HIGH); ("missing_schema", MEDIUM);
         ("missing_open_graph", LOW) ].
Proof.
  split; [reflexivity|].
  destruct (empty_page_recommendations Examples.six_words Examples.empty_page
              eq_refl) as [H _].
  exact H.
Defined.


(** X19.  When the HTTP request for a URL raises, [_fetch_with_http]
    returns a result that is not a success; [_crawl_page] returns it with
    no link; the main loop counts the URL as failed (pages_failed + 1, the
    URL in failed_urls) and leaves the queue and pages_crawled alone; and
    the analysis of that result has word_count 0 and recommendations that
    begin with missing_title, missing_meta_description, missing_h1 and
    thin_content. *)
Theorem failed_request_is_counted_and_reported
    (C : Crawler.Libs) (A : Analyzer.Libs) (self : Crawler.Crawler)
    (st : Crawler.State) (get : string -> Fetcher.Response + string)
    (load_time depth : Z) (url e : string) :
  get url = inr e ->
  C.(Crawler.robots_allows) url = true ->
  C.(Crawler._fetch_url) url
  = Some (Fetcher._fetch_with_http get load_time url) ->
  let cr := Fetcher._fetch_with_http get load_time url in
  Fetch.is_success cr = false
  /\ Crawler._crawl_page C self url depth = Crawler.Returned (Some cr) []
  /\ Crawler.handle_result C self st (url, depth)
       (Crawler._crawl_page C self url depth)
     = Crawler.count_failed st url
  /\ (analyze A cr).(word_count) = 0
  /\ firstn 4 (map issue_of (generate_page_recommendations (analyze A cr)))
     = [ ("missing_title", CRITICAL); ("missing_meta_description", HIGH);
         ("missing_h1", HIGH); ("thin_content", HIGH) ].
Proof.
  intros Hget Hrobots Hfetch. cbv zeta.
  assert (Hcr : Fetcher._fetch_with_http get load_time url
                = {| Fetch.url := url; Fetch.final_url := url;
                     Fetch.status_code := 0; Fetch.html := "";
                     Fetch.headers := []; Fetch.load_time_ms := load_time;
                     Fetch.page_size_bytes := 0; Fetch.error := Some e |}).
  { unfold Fetcher._fetch_with_http. rewrite Hget. reflexivity. }
  assert (Hpage : Crawler._crawl_page C self url depth
                  = Crawler.Returned
                      (Some (Fetcher._fetch_with_http get load_time url)) []).
  { unfold Crawler._crawl_page. rewrite Hrobots, Hfetch. cbn [negb].
    rewrite Hcr. reflexivity. }
  split; [rewrite Hcr; reflexivity|]. split; [exact Hpage|].
  split.
  { rewrite Hpage. unfold Crawler.handle_result. rewrite Hcr.
    cbn [Fetch.is_success Fetch.error].
    destruct (depth <? Crawler.max_depth self); reflexivity. }
  destruct (empty_page_recommendations_aux A
              (Fetcher._fetch_with_http get load_time url)) as [Hrecs _].
  { rewrite Hcr. reflexivity. }
  split; [rewrite Hcr; reflexivity|].
  cbv zeta in Hrecs. rewrite Hrecs. reflexivity.
Qed.

Lemma failed_request_is_counted_and_reported_witness :
  Cases.timing_out Examples.home = inr "timed out"
  /\ Cases.unreachable_site.(Crawler.robots_allows) Examples.home = true
  /\ Crawler.handle_result Cases.unreachable_site
       (Examples.crawler_for Cases.unreachable_site 10 2)
       Crawler.initial_state (Examples.home, 0)
       (Crawler._crawl_page Cases.unreachable_site
          (Examples.crawler_for Cases.unreachable_site 10 2)
          Examples.home 0)
     = Crawler.count_failed Crawler.initial_state Examples.home.
Proof.
  split; [reflexivity|]. split; [reflexivity|].
  destruct (failed_request_is_counted_and_reported Cases.unreachable_site
              Examples.six_words
              (Examples.crawler_for Cases.unreachable_site 10 2)
              Crawler.initial_state Cases.timing_out 5000 0 Examples.home
              "timed out" eq_refl eq_refl eq_refl) as (_ & _ & H & _).
  exact H.
Defined.


(** *** Site recommendations *)

Lemma count_positive (cond : AnalyzedPage -> bool) (pages : list AnalyzedPage) :
  0 < count cond pages <-> exists p, In p pages /\ cond p = true.
Proof.
  unfold count. split.
  - intros H. destruct (List.filter cond pages) as [|p l] eqn:E;
      [cbn in H; lia|].
    exists p. apply filter_In. rewrite E. left. reflexivity.
  - intros (p & Hin & Hc).
    assert (Hf : In p (List.filter cond pages)) by (apply filter_In; tauto).
    destruct (List.filter cond pages); [contradiction|cbn; lia].
Qed.

Lemma sublist_in {A} (x : A) (l k : list A) :
  l `sublist_of` k -> In x l -> In x k.
Proof.
  intros Hs Hin. apply list_elem_of_In.
  eapply elem_of_sublist; [|exact Hs]. apply list_elem_of_In, Hin.
Qed.

Lemma check_technical_not_https (p : AnalyzedPage) :
  In "not_https" (issues (_check_technical p)) <-> p.(is_https) = false.
Proof.
  unfold _check_technical.
  destruct (is_https p), (has_viewport_meta p),
    ((3000 <? load_time_ms p) && (0 <? load_time_ms p));
    cbn [negb app issues map issue_type rec In];
    (split; [intros H; repeat destruct H as [H|H]; try discriminate H;
             try reflexivity; try destruct H
            |intros H; try discriminate H; left; reflexivity]).
Qed.

Lemma not_https_elsewhere (l k : list string) :
  l `sublist_of` k -> forallb (fun t => negb (String.eqb t "not_https")) k
                      = true ->
  ~ In "not_https" l.
Proof.
  intros Hs Hk Hl. apply (sublist_in _ l k Hs) in Hl.
  rewrite forallb_forall in Hk. specialize (Hk _ Hl). discriminate.
Qed.

Lemma not_https_reported (p : AnalyzedPage) :
  In "not_https" (issues (generate_page_recommendations p))
  <-> p.(is_https) = false.
Proof.
  unfold generate_page_recommendations. cbv zeta. unfold issues.
  rewrite map_map. cbn [tag issue_type]. rewrite !map_app, !in_app_iff.
  fold (issues (_check_title p)) (issues (_check_meta_description p))
    (issues (_check_headings p)) (issues (_check_content p))
    (issues (_check_images p)) (issues (_check_technical p))
    (issues (_check_structured_data p)) (issues (_check_links p)).
  rewrite <- check_technical_not_https.
  pose proof (not_https_elsewhere _ _ (proj1 (check_title_issues p))
                eq_refl) as N1.
  pose proof (not_https_elsewhere _ _
                (proj1 (check_meta_description_issues p)) eq_refl) as N2.
  pose proof (not_https_elsewhere _ _ (proj1 (check_headings_issues p))
                eq_refl) as N3.
  pose proof (not_https_elsewhere _ _ (proj1 (check_content_issues p))
                eq_refl) as N4.
  pose proof (not_https_elsewhere _ _ (proj1 (check_images_issues p))
                eq_refl) as N5.
  pose proof (not_https_elsewhere _ _
                (proj1 (check_structured_data_issues p)) eq_refl) as N7.
  pose proof (not_https_elsewhere _ _ (proj1 (check_links_issues p))
                eq_refl) as N8.
  tauto.
Qed.

(** X20.  The site recommendations name issue types in the fixed order
    https_mixed, missing_titles_bulk, missing_meta_bulk, thin_content_bulk,
    missing_schema_bulk, each at most once (none for a site without pages),
    and carry no page URL; https_mixed is among them exactly when some page
    of the site gets the page-level issue not_https. *)
Theorem site_recommendations_shape (pages : list AnalyzedPage) :
  let recs := generate_site_recommendations pages in
  issues recs `sublist_of` site_issue_types
  /\ Forall (fun r => r.(page_url) = None) recs
  /\ (In "https_mixed" (issues recs)
      <-> exists p, In p pages
                    /\ In "not_https"
                         (issues (generate_page_recommendations p))).
Proof.
  cbv zeta. unfold generate_site_recommendations. cbv zeta.
  destruct (Z.of_nat (length pages) =? 0) eqn:Hn.
  { apply Z.eqb_eq in Hn. destruct pages; [|cbn in Hn; lia].
    split; [unfold site_issue_types; pick_sublist|].
    split; [constructor|]. cbn. split; [tauto|]. intros (p & [] & _). }
  set (c1 := float_gt _ _). set (c2 := float_gt _ _).
  set (c3 := float_gt _ _). set (c4 := float_gt _ _).
  clearbody c1 c2 c3 c4.
  assert (Hex : 0 < count (fun p => negb (is_https p)) pages
                <-> exists p, In p pages
                              /\ In "not_https"
                                   (issues (generate_page_recommendations p))).
  { rewrite count_positive. split; intros (p & Hin & Hp); exists p;
      (split; [exact Hin|]).
    - apply not_https_reported. destruct (is_https p); [discriminate|].
      reflexivity.
    - apply not_https_reported in Hp. rewrite Hp. reflexivity. }
  rewrite <- Hex. clear Hex.
  destruct (Z.ltb_spec 0 (count (fun p => negb (is_https p)) pages)),
    c1, c2, c3, c4;
    cbn [app issues map issue_type rec];
    (split; [unfold site_issue_types; pick_sublist|]);
    (split; [repeat constructor|]);
    cbn [In]; intuition (try discriminate; try lia).
Qed.

End RecommendationProps.

(** * The frontier of a crawl *)

Section FrontierProps.
Import Crawler Frontier.
Local Open Scope string_scope.
Local Open Scope Z_scope.

Lemma fill_batch_fresh (mc : Z) (queue : list (string * Z))
    (visited : gset string) (acc : list (string * Z)) :
  NoDup (map fst queue) ->
  (forall u, In u (map fst queue) -> u ∉ visited) ->
  exists k,
    fill_batch mc queue visited acc
    = (app acc (firstn k queue), skipn k queue,
       visited ∪ list_to_set (map fst (firstn k queue))).
Proof.
  revert visited acc.
  induction queue as [|[u d] queue IH]; intros visited acc Hnd Hfresh.
  - exists 0%nat. cbn. rewrite app_nil_r. f_equal. set_solver.
  - cbn [fill_batch].
    destruct (Z.of_nat (length acc) <? mc).
    + destruct (bool_decide_reflect (u ∈ visited)) as [Hin|Hout].
      { exfalso. apply (Hfresh u); [left; reflexivity|exact Hin]. }
      cbn [map fst] in Hnd. apply NoDup_cons in Hnd as [Hu Hnd].
      destruct (IH (visited ∪ {[ u ]}) (app acc [(u, d)]) Hnd) as [k Hk].
      { intros v Hv. specialize (Hfresh v (or_intror Hv)).
        assert (v <> u).
        { intros ->. apply Hu, list_elem_of_In, Hv. }
        set_solver. }
      exists (S k). rewrite Hk. cbn [firstn skipn map fst].
      rewrite <- app_assoc. cbn [app]. f_equal. set_solver.
    + exists 0%nat. cbn. rewrite app_nil_r. f_equal. set_solver.
Qed.

Lemma enqueue_frontier (self : Crawler) (st : State) (url : string)
    (depth : Z) :
  frontier_ok self st -> url ∉ st.(queued_urls) ->
  0 <= depth <= Z.max 0 self.(max_depth) ->
  frontier_ok self (enqueue st url depth).
Proof.
  intros (Hnd & Hall & Hsub) Hnew Hd. unfold frontier_ok, enqueue.
  cbn [url_queue queued_urls visited_urls].
  rewrite List.Forall_forall in Hall.
  split; [|split].
  - rewrite map_app. cbn [map fst]. apply NoDup_app. split; [exact Hnd|].
    split; [|apply NoDup_singleton].
    intros u Hu Hu'. apply list_elem_of_In in Hu.
    apply in_map_iff in Hu as (item & Heq & Hitem).
    apply list_elem_of_In in Hu'. destruct Hu' as [Hu'|[]].
    apply Hnew. rewrite Hu', <- Heq. apply (Hall item Hitem).
  - apply Forall_app. split.
    + apply List.Forall_forall. intros item Hitem.
      destruct (Hall item Hitem) as (H1 & H2 & H3).
      split; [set_solver|]. split; assumption.
    + constructor; [|constructor]. cbn [fst snd].
      split; [set_solver|]. split; [set_solver|exact Hd].
  - set_solver.
Qed.

Lemma enqueue_links_frontier (L : Libs) (self : Crawler) (depth : Z)
    (links : list string) (st : State) :
  frontier_ok self st -> 0 <= depth < self.(max_depth) ->
  frontier_ok self
    (fold_left
       (fun st link =>
          match normalize_url L link with
          | Some normalized =>
              if Py.truthy normalized
                 && negb (bool_decide (normalized ∈ st.(queued_urls)))
                 && negb (bool_decide (normalized ∈ st.(visited_urls)))
              then enqueue st normalized (depth + 1) else st
          | None => st
          end)
       links st).
Proof.
  intros Hst Hd. revert st Hst.
  induction links as [|link links IH]; intros st Hst; [exact Hst|].
  cbn [fold_left]. apply IH.
  destruct (normalize_url L link) as [normalized|]; [|exact Hst].
  destruct (Py.truthy normalized); cbn [andb]; [|exact Hst].
  destruct (bool_decide_reflect (normalized ∈ queued_urls st));
    cbn [negb andb]; [exact Hst|].
  destruct (bool_decide (normalized ∈ visited_urls st)); cbn [negb];
    [exact Hst|].
  apply enqueue_frontier; [exact Hst|assumption|lia].
Qed.

Lemma counting_keeps_frontier (self : Crawler) (st st' : State) :
  frontier_ok self st ->
  st'.(url_queue) = st.(url_queue) ->
  st'.(queued_urls) = st.(queued_urls) ->
  st'.(visited_urls) = st.(visited_urls) ->
  frontier_ok self st'.
Proof.
  unfold frontier_ok. intros H -> -> ->. exact H.
Qed.

Lemma handle_result_frontier (L : Libs) (self : Crawler) (st : State)
    (item : string * Z) (r : Outcome) :
  frontier_ok self st -> 0 <= snd item ->
  frontier_ok self (handle_result L self st item r).
Proof.
  intros Hst Hd. destruct item as [url depth]. cbn [snd] in Hd.
  unfold handle_result. destruct r as [|[cr|] links].
  - eapply counting_keeps_frontier; [exact Hst|reflexivity..].
  - set (st1 := if Fetch.is_success cr then count_crawled st
                else count_failed st url).
    assert (H1 : frontier_ok self st1).
    { subst st1. destruct (Fetch.is_success cr);
        (eapply counting_keeps_frontier; [exact Hst|reflexivity..]). }
    destruct (Z.ltb_spec depth (max_depth self)); [|exact H1].
    apply enqueue_links_frontier; [exact H1|lia].
  - exact Hst.
Qed.

Lemma handle_results_frontier (L : Libs) (self : Crawler)
    (batch : list (string * Z)) (results : list Outcome) (st : State) :
  frontier_ok self st -> Forall (fun item => 0 <= snd item) batch ->
  frontier_ok self (handle_results L self st batch results).
Proof.
  intros Hst Hb. revert results st Hst.
  induction Hb as [|item batch Hitem Hb IH]; intros results st Hst;
    [exact Hst|].
  destruct results as [|r results]; cbn [handle_results]; [exact Hst|].
  apply IH, handle_result_frontier; assumption.
Qed.


Lemma firstn_skipn_disjoint {A} (k : nat) (l : list A) (x : A) :
  NoDup l -> In x (firstn k l) -> In x (skipn k l) -> False.
Proof.
  intros Hnd H1 H2. rewrite <- (firstn_skipn k l) in Hnd.
  apply NoDup_app in Hnd as (_ & Hd & _).
  apply (Hd x); apply list_elem_of_In; assumption.
Qed.

(** The state after the batch is drawn, under the invariant: the batch is a
    prefix of the queue. *)
Lemma draw_frontier (self : Crawler) (st : State) :
  frontier_ok self st ->
  exists k,
    let batch := firstn k st.(url_queue) in
    fill_batch self.(max_concurrent) st.(url_queue) st.(visited_urls) []
    = (batch, skipn k st.(url_queue),
       st.(visited_urls) ∪ list_to_set (map fst batch))
    /\ NoDup (map fst batch)
    /\ (forall u, In u (map fst batch) -> u ∉ st.(visited_urls))
    /\ Forall (fun item => 0 <= snd item) batch
    /\ frontier_ok self
         {| visited_urls := st.(visited_urls) ∪ list_to_set (map fst batch);
            queued_urls := st.(queued_urls);
            failed_urls := st.(failed_urls);
            url_queue := skipn k st.(url_queue);
            pages_crawled := st.(pages_crawled);
            pages_failed := st.(pages_failed) |}.
Proof.
  intros (Hnd & Hall & Hsub). rewrite List.Forall_forall in Hall.
  assert (Hfresh : forall u, In u (map fst st.(url_queue)) ->
                             u ∉ st.(visited_urls)).
  { intros u Hu. apply in_map_iff in Hu as (item & <- & Hitem).
    apply (Hall item Hitem). }
  destruct (fill_batch_fresh self.(max_concurrent) st.(url_queue)
              st.(visited_urls) [] Hnd Hfresh) as [k Hk].
  cbn [app] in Hk. exists k. cbv zeta.
  assert (Hpre : forall item, In item (firstn k st.(url_queue)) ->
                              In item st.(url_queue)).
  { intros item Hin. rewrite <- (firstn_skipn k st.(url_queue)).
    apply in_or_app. left. exact Hin. }
  assert (Hpost : forall item, In item (skipn k st.(url_queue)) ->
                               In item st.(url_queue)).
  { intros item Hin. rewrite <- (firstn_skipn k st.(url_queue)).
    apply in_or_app. right. exact Hin. }
  assert (Hnd' : NoDup (map fst (firstn k st.(url_queue)))
                 /\ NoDup (map fst (skipn k st.(url_queue)))
                 /\ forall u, In u (map fst (firstn k st.(url_queue))) ->
                              In u (map fst (skipn k st.(url_queue))) ->
                              False).
  { rewrite <- (firstn_skipn k st.(url_queue)), map_app in Hnd.
    apply NoDup_app in Hnd as (H1 & H2 & H3).
    split; [exact H1|]. split; [exact H3|].
    intros u Hu Hu'. apply (H2 u); apply list_elem_of_In; assumption. }
  destruct Hnd' as (Hnd1 & Hnd2 & Hdis).
  split; [exact Hk|]. split; [exact Hnd1|].
  split.
  { intros u Hu. apply in_map_iff in Hu as (item & <- & Hitem).
    apply (Hall item (Hpre item Hitem)). }
  split.
  { apply List.Forall_forall. intros item Hitem.
    destruct (Hall item (Hpre item Hitem)) as (_ & _ & Hd). lia. }
  unfold frontier_ok. cbn [url_queue queued_urls visited_urls].
  split; [exact Hnd2|]. split.
  - apply List.Forall_forall. intros item Hitem.
    destruct (Hall item (Hpost item Hitem)) as (H1 & H2 & H3).
    split; [exact H1|]. split; [|exact H3].
    intros Hin. apply elem_of_union in Hin as [Hin|Hin]; [exact (H2 Hin)|].
    apply elem_of_list_to_set, list_elem_of_In in Hin.
    apply (Hdis (fst item) Hin). apply in_map, Hitem.
  - intros u Hu. apply elem_of_union in Hu as [Hu|Hu]; [apply Hsub, Hu|].
    apply elem_of_list_to_set, list_elem_of_In in Hu.
    apply in_map_iff in Hu as (item & <- & Hitem).
    apply (Hall item (Hpre item Hitem)).
Qed.

Lemma iteration_frontier (L : Libs) (self : Crawler) (st : State) :
  frontier_ok self st ->
  match iteration L self st with
  | Continue st' =>
      frontier_ok self st'
      /\ NoDup (map fst (batch_of self st))
      /\ (forall u, In u (map fst (batch_of self st)) ->
                    (u ∉ st.(visited_urls)) /\ (u ∈ st'.(visited_urls)))
      /\ st.(visited_urls) ⊆ st'.(visited_urls)
  | Stop st' => frontier_ok self st'
  end.
Proof.
  intros Hst. unfold iteration, batch_of.
  destruct (url_queue st) as [|item0 queue0] eqn:Hq; [exact Hst|].
  destruct (pages_crawled st <? max_pages self); [|exact Hst].
  destruct (draw_frontier self st Hst) as (k & Hk & Hnd & Hfresh & Hd & Hst1).
  cbv zeta in Hk. rewrite Hq in Hk, Hnd, Hfresh, Hd, Hst1. rewrite Hk.
  cbn [fst].
  destruct (firstn k (item0 :: queue0)) as [|b batch'] eqn:Hb;
    [exact Hst1|].
  set (batch := b :: batch') in *.
  set (st1 := {| visited_urls := _ |}) in *.
  set (results := map _ batch).
  pose proof (handle_results_counts L self batch results st1) as [Hv _].
  split; [apply handle_results_frontier; assumption|].
  split; [exact Hnd|]. rewrite Hv. subst st1. cbn [visited_urls].
  split.
  - intros u Hu. split; [apply Hfresh, Hu|].
    apply elem_of_union. right.
    apply elem_of_list_to_set, list_elem_of_In, Hu.
  - set_solver.
Qed.

Lemma seed_frontier (L : Libs) (self : Crawler) : frontier_ok self (seed L self).
Proof.
  unfold seed. cbv zeta.
  set (urls := _ :: _).
  assert (H0 : frontier_ok self initial_state).
  { unfold frontier_ok, initial_state. cbn.
    split; [constructor|]. split; [constructor|set_solver]. }
  revert H0. generalize initial_state. clearbody urls.
  induction urls as [|o urls IH]; intros st Hst; [exact Hst|].
  cbn [fold_left]. apply IH. destruct o as [url|]; [|exact Hst].
  destruct (Py.truthy url); cbn [andb]; [|exact Hst].
  destruct (bool_decide_reflect (url ∈ queued_urls st)); cbn [negb];
    [exact Hst|].
  apply enqueue_frontier; [exact Hst|assumption|lia].
Qed.

Lemma iterate_frontier (L : Libs) (self : Crawler) (n : nat) (st : State) :
  frontier_ok self st -> frontier_ok self (iterate L self n st).
Proof.
  revert st. induction n as [|n IH]; intros st Hst; [exact Hst|].
  cbn [iterate]. pose proof (iteration_frontier L self st Hst) as H.
  destruct (iteration L self st) as [st'|st']; [apply IH, H|exact H].
Qed.

(** X21.  At every point of the main loop of a crawl: no URL is in the
    queue twice; every queued item is registered in queued_urls, is not yet
    visited and has a depth between 0 and max_depth; every visited URL was
    queued; and the batch drawn next is a prefix of the queue, so the test
    [url not in self.visited_urls] never skips an item. *)
Theorem crawl_frontier (L : Libs) (self : Crawler) (n : nat) :
  let st := iterate L self n (seed L self) in
  frontier_ok self st
  /\ exists k, batch_of self st = firstn k st.(url_queue).
Proof.
  cbv zeta. pose proof (iterate_frontier L self n _ (seed_frontier L self))
    as Hst.
  split; [exact Hst|].
  destruct (draw_frontier self _ Hst) as (k & Hk & _).
  exists k. unfold batch_of. cbv zeta in Hk. rewrite Hk. reflexivity.
Qed.

Lemma requested_fresh (L : Libs) (self : Crawler) (n : nat) (st : State) :
  frontier_ok self st ->
  NoDup (requested L self n st)
  /\ forall u, In u (requested L self n st) -> u ∉ st.(visited_urls).
Proof.
  revert st. induction n as [|n IH]; intros st Hst; cbn [requested].
  { split; [constructor|]. intros u []. }
  pose proof (iteration_frontier L self st Hst) as H.
  destruct (iteration L self st) as [st'|st'].
  2: { split; [constructor|]. intros u []. }
  destruct H as (Hst' & Hnd & Hbatch & Hsub).
  destruct (IH st' Hst') as (Hnd' & Hfresh').
  split.
  - apply NoDup_app. split; [exact Hnd|]. split; [|exact Hnd'].
    intros u Hu Hu'. apply list_elem_of_In in Hu, Hu'.
    apply (Hfresh' u Hu'), (Hbatch u Hu).
  - intros u Hu. apply in_app_or in Hu as [Hu|Hu].
    + apply (Hbatch u Hu).
    + intros Hin. apply (Hfresh' u Hu), Hsub, Hin.
Qed.

(** X22.  During a crawl no URL is handed to [_crawl_page] twice. *)
Theorem no_url_is_requested_twice (L : Libs) (self : Crawler) (n : nat) :
  NoDup (requested L self n (seed L self)).
Proof. apply requested_fresh, seed_frontier. Qed.

End FrontierProps.

(** * More on the sitemap parser *)

Section SitemapMore.
Import Sitemap SitemapFacts.
Local Open Scope string_scope.
Local Open Scope Z_scope.

Lemma parse_sitemap_sound (L : Libs) (processed : gset string)
    (sitemap_url u : string) :
  In u (fst (_parse_sitemap L processed sitemap_url)) ->
  exists response,
    L.(http_client).(Http.get) sitemap_url = Some response
    /\ response.(Http.status_code) = 200
    /\ listed_in L response u.
Proof.
  unfold _parse_sitemap.
  destruct (bool_decide (sitemap_url ∈ processed)); [intros []|].
  destruct (Http.get (http_client L) sitemap_url) as [response|];
    [|intros []].
  destruct (Z.eqb_spec (Http.status_code response) 200) as [Hs|Hs];
    cbn [negb]; [|intros []].
  intros Hin. exists response. split; [reflexivity|]. split; [exact Hs|].
  destruct (_ || _).
  - destruct (gunzip L (Http.body response)) as [content|] eqn:Hz;
      [|destruct Hin].
    right. exists content. split; [exact Hz|exact Hin].
  - left. exact Hin.
Qed.

Lemma parse_each_sound (L : Libs) (processed : gset string)
    (sitemap_urls : list string) (u : string) :
  In u (parse_each L processed sitemap_urls) ->
  exists s, In s sitemap_urls
            /\ exists processed', In u (fst (_parse_sitemap L processed' s)).
Proof.
  revert processed.
  induction sitemap_urls as [|s rest IH]; intros processed; [intros []|].
  cbn [parse_each].
  destruct (_parse_sitemap L processed s) as [urls processed'] eqn:E.
  intros Hin. apply in_app_or in Hin as [Hin|Hin].
  - exists s. split; [left; reflexivity|]. exists processed.
    rewrite E. exact Hin.
  - destruct (IH processed' Hin) as (s' & Hs' & Hp).
    exists s'. split; [right; exact Hs'|exact Hp].
Qed.

(** X23.  Every URL [fetch_all] returns is a [<loc>] entry of a document
    that was downloaded with status 200 from one of the six well-known
    sitemap paths under the base URL, after a HEAD request to that path was
    answered with status 200 (so nothing is returned when no HEAD request
    succeeds). *)
Theorem fetch_all_sound (L : Libs) (base_url u : string) :
  u ∈ fetch_all L base_url ->
  exists path response,
    In path COMMON_SITEMAP_PATHS
    /\ let sitemap_url := String.append (rstrip_slash base_url) path in
       (exists answer, L.(http_client).(Http.head) sitemap_url = Some answer
                       /\ answer.(Http.status_code) = 200)
       /\ L.(http_client).(Http.get) sitemap_url = Some response
       /\ response.(Http.status_code) = 200
       /\ listed_in L response u.
Proof.
  unfold fetch_all. cbv zeta. intros Hu.
  apply elem_of_list_to_set, list_elem_of_In in Hu.
  apply parse_each_sound in Hu as (s & Hs & processed & Hu).
  unfold _discover_sitemaps in Hs. apply filter_In in Hs as [Hs Hhead].
  apply in_map_iff in Hs as (path & <- & Hpath).
  destruct (parse_sitemap_sound L processed _ u Hu) as (response & Hget & H200 & Hl).
  exists path, response. split; [exact Hpath|]. cbv zeta.
  split.
  { destruct (Http.head (http_client L) _) as [answer|]; [|discriminate].
    exists answer. split; [reflexivity|]. apply Z.eqb_eq, Hhead. }
  split; [exact Hget|]. split; assumption.
Qed.

Lemma fetch_all_sound_witness :
  "https://example.test/sitemap-pages.xml"
    ∈ fetch_all Examples.sitemap_libs Examples.home
  /\ exists path response,
       In path COMMON_SITEMAP_PATHS
       /\ let sitemap_url :=
            String.append (rstrip_slash Examples.home) path in
          (exists answer,
              Examples.sitemap_libs.(http_client).(Http.head) sitemap_url
              = Some answer
              /\ answer.(Http.status_code) = 200)
          /\ Examples.sitemap_libs.(http_client).(Http.get) sitemap_url
             = Some response
          /\ response.(Http.status_code) = 200
          /\ listed_in Examples.sitemap_libs response
               "https://example.test/sitemap-pages.xml".
Proof.
  assert (H : "https://example.test/sitemap-pages.xml"
                ∈ fetch_all Examples.sitemap_libs Examples.home).
  { unfold fetch_all. cbv zeta. apply elem_of_list_to_set, list_elem_of_In.
    vm_compute. left. reflexivity. }
  split; [exact H|].
  exact (fetch_all_sound Examples.sitemap_libs Examples.home _ H).
Defined.

(** X24.  [_parse_sitemap] records the URL it is given in the processed
    set, whatever the download does, and a second call with the same URL
    returns no URL and changes nothing. *)
Theorem parse_sitemap_once (L : Libs) (processed : gset string)
    (sitemap_url : string) :
  let first := _parse_sitemap L processed sitemap_url in
  snd first = processed ∪ {[ sitemap_url ]}
  /\ _parse_sitemap L (snd first) sitemap_url = ([], snd first).
Proof.
  cbv zeta.
  assert (H : snd (_parse_sitemap L processed sitemap_url)
              = processed ∪ {[ sitemap_url ]}).
  { unfold _parse_sitemap.
    destruct (bool_decide_reflect (sitemap_url ∈ processed)) as [Hin|Hout].
    - cbn [snd]. set_solver.
    - repeat match goal with
             | |- context [match ?x with _ => _ end] => destruct x
             end; reflexivity. }
  split; [exact H|]. rewrite H. unfold _parse_sitemap.
  destruct (bool_decide_reflect
              (sitemap_url ∈ processed ∪ {[ sitemap_url ]})) as [Hin|Hout];
    [reflexivity|]. exfalso. apply Hout. set_solver.
Qed.

End SitemapMore.

(** * More on robots.txt, the rate limiter and the worker *)

Section RobotsMore.
Import Robots.
Local Open Scope string_scope.
Local Open Scope Z_scope.

Lemma delay_of_line_nonneg (L : Libs) (delay : Q) (line : string) :
  (0 <= delay)%Q -> (0 <= delay_of_line L delay line)%Q.
Proof.
  intros H. unfold delay_of_line.
  destruct (Py.startswith _ _); [|exact H].
  destruct (float_of_string L _) as [d|]; [|exact H].
  unfold Scorer.py_max. destruct (Qltb_spec 0 d); lra.
Qed.

Lemma delays_nonneg (L : Libs) (lines : list string) (delay : Q) :
  (0 <= delay)%Q -> (0 <= fold_left (delay_of_line L) lines delay)%Q.
Proof.
  revert delay. induction lines as [|l lines IH]; intros delay H; [exact H|].
  cbn [fold_left]. apply IH, delay_of_line_nonneg, H.
Qed.

Lemma fetch_keeps (L : Libs) (client : Http.Client) (self : RobotsChecker L) :
  (0 <= self.(crawl_delay))%Q ->
  let '(self', sent) := fetch L client self in
  (0 <= self'.(crawl_delay))%Q
  /\ self'.(base_url) = self.(base_url)
  /\ self'.(_fetched) = true
  /\ sent = [String.append self.(base_url) "/robots.txt"].
Proof.
  intros H. unfold fetch. cbv zeta.
  destruct (Http.get client _) as [response|]; cbn.
  - destruct (Http.status_code response =? 200); cbn.
    + destruct (parse_raises L _); cbn; repeat split; try exact H.
      apply delays_nonneg, H.
    + repeat split. exact H.
  - repeat split. exact H.
Qed.

(** X25.  Whatever calls are made on a robots checker, in any order: its
    crawl delay is never negative, every request it sends goes to
    <base_url>/robots.txt, and it counts as fetched exactly when [fetch]
    was called at least once. *)
Theorem robots_checker_invariants {L : Libs} (client : Http.Client)
    (url : string) (calls : list call) :
  let st := fold_left (perform client) calls (init L url, []) in
  let robots_url :=
    String.append (Sitemap.rstrip_slash url) "/robots.txt" in
  (0 <= (fst st).(crawl_delay))%Q
  /\ Forall (fun sent => sent = robots_url) (snd st)
  /\ (fst st).(_fetched) = existsb (fun c => negb (is_query c)) calls.
Proof.
  cbv zeta.
  assert (Hgen : forall (st : RobotsChecker L * list string),
            (0 <= (fst st).(crawl_delay))%Q ->
            (fst st).(base_url) = Sitemap.rstrip_slash url ->
            Forall (fun sent => sent = String.append (Sitemap.rstrip_slash url)
                                         "/robots.txt") (snd st) ->
            let st' := fold_left (perform client) calls st in
            (0 <= (fst st').(crawl_delay))%Q
            /\ Forall (fun sent => sent = String.append
                                            (Sitemap.rstrip_slash url)
                                            "/robots.txt") (snd st')
            /\ (fst st').(_fetched)
               = (fst st).(_fetched)
                 || existsb (fun c => negb (is_query c)) calls).
  { induction calls as [|c calls IH]; intros st Hd Hb Hs; cbv zeta.
    - cbn. rewrite orb_false_r. repeat split; assumption.
    - cbn [fold_left existsb]. destruct c; cbn [perform is_query negb].
      + destruct st as [self sent0]. cbn [fst snd] in *.
        pose proof (fetch_keeps L client self Hd) as Hf.
        destruct (fetch L client self) as [self' sent].
        destruct Hf as (Hd' & Hb' & Hf' & ->).
        specialize (IH (self', app sent0 [String.append (base_url self)
                                            "/robots.txt"])).
        cbn [fst snd] in IH. cbv zeta in IH.
        destruct IH as (I1 & I2 & I3).
        * exact Hd'.
        * congruence.
        * apply Forall_app. split; [exact Hs|].
          constructor; [rewrite Hb; reflexivity|constructor].
        * rewrite Hf' in I3. rewrite orb_true_r. cbn [orb] in *.
          repeat split; assumption.
      + cbn [orb]. apply IH; assumption.
      + cbn [orb]. apply IH; assumption. }
  specialize (Hgen (init L url, [])). cbv zeta in Hgen. cbn [fst snd init] in Hgen.
  apply Hgen; [cbn; discriminate|reflexivity|constructor].
Qed.

End RobotsMore.

Section RateLimiterMore.
Import RateLimiter.
Local Open Scope Q_scope.

(** X26.  With a timer that fires on time, [acquire] ends exactly at the
    later of now and last request + min_interval (plus the time the second
    clock reading takes): it waits no longer than the interval requires and
    not at all when the interval has passed; it records that time for the
    host and leaves the other hosts alone. *)
Theorem acquire_is_exact (self : DomainRateLimiter) (h : string)
    (t : Timing) (w : World) :
  t.(over) == 0 ->
  let now := w.(clock) + t.(before) in
  let due := last self h + self.(min_interval) in
  let '(self', w') := acquire self h t w in
  w'.(clock) == (if Py.Qltb now due then due else now) + t.(after)
  /\ last self' h = w'.(clock)
  /\ (forall h', h' <> h -> last self' h' = last self h').
Proof.
  intros Ho. cbv zeta. unfold acquire. cbv zeta.
  split; [|split].
  - unfold sleep, elapse. cbn [clock].
    destruct (Qltb_spec 0 (min_interval self
                           - (clock w + before t - last self h))) as [Hw|Hw],
      (Qltb_spec (clock w + before t) (last self h + min_interval self))
        as [Hd|Hd]; cbn [clock]; try lra.
    destruct (Qltb_spec
                (min_interval self - (clock w + before t - last self h)
                 + over t) 0); cbn [clock]; lra.
  - unfold last. cbn [_last_request]. rewrite lookup_insert_eq. reflexivity.
  - intros h' Hne. unfold last. cbn [_last_request].
    rewrite lookup_insert_ne by congruence. reflexivity.
Qed.

Lemma acquire_is_exact_witness :
  Examples.punctual.(over) == 0
  /\ (snd (acquire Examples.two_per_second "a.test" Examples.punctual
             Examples.at_ten)).(clock) == 10.
Proof.
  split; [reflexivity|].
  pose proof (acquire_is_exact Examples.two_per_second "a.test"
                Examples.punctual Examples.at_ten (Qeq_refl 0)) as H.
  cbv zeta in H.
  destruct (acquire Examples.two_per_second "a.test" Examples.punctual
              Examples.at_ten) as [self' w'].
  destruct H as [H _]. cbn [snd]. rewrite H. reflexivity.
Defined.

End RateLimiterMore.

Section WorkerProps.
Import Analyzer Scorer.
Local Open Scope string_scope.
Local Open Scope Z_scope.

(** X27.  The worker scores every page with inbound_link_count 0, so
    the authority score of every stored page is 5, its linking score at
    most 50 and its overall score at most 76. *)
Theorem worker_page_score_is_capped (L : Analyzer.Libs)
    (cr : Fetch.CrawlResult) :
  let s := Worker.page_score L cr in
  (s.(authority_score) == 5)%Q
  /\ (s.(linking_score) <= 50)%Q
  /\ (s.(overall_score) <= 76)%Q.
Proof.
  cbv zeta. unfold Worker.page_score.
  set (page := analyze L cr).
  pose proof (score_page_range page 0) as (_ & Ht & Hc & _ & _ & Hv).
  cbv zeta in Ht, Hc, Hv. revert Ht Hc Hv. unfold score_page.
  destruct (_score_technical page) as [t tb].
  destruct (_score_content page) as [c cb].
  unfold _score_linking. cbv zeta.
  cbn [authority_score linking_score overall_score technical_score
       content_score ai_visibility_score].
  intros Ht Hc Hv.
  assert (Ha : (clamp (_score_authority 0) == 5)%Q) by reflexivity.
  pose proof (out_pts_range page.(internal_links_count)) as Ho.
  assert (Hq : out_pts page.(internal_links_count)
               + link_quality_pts page.(internal_links_count) <= 50).
  { unfold out_pts, link_quality_pts.
    repeat match goal with
           | |- context [?a <=? ?b] => destruct (Z.leb_spec a b)
           | |- context [?a <? ?b] => destruct (Z.ltb_spec a b)
           end; cbn [andb]; lia. }
  pose proof (link_quality_pts_range page.(internal_links_count)) as Hlq.
  set (o := out_pts _) in *. set (q := link_quality_pts _) in *.
  assert (Hl : (0 <= clamp (inject_Z (o + q + in_pts 0)) <= 50)%Q).
  { change (in_pts 0) with 0. rewrite Z.add_0_r.
    rewrite clamp_fixes.
    - split; [rewrite <- (Zle_Qle 0)|rewrite <- (Zle_Qle _ 50)]; lia.
    - split; [rewrite <- (Zle_Qle 0)|rewrite <- (Zle_Qle _ 100)]; lia. }
  split; [exact Ha|]. split; [apply Hl|].
  set (a := clamp (_score_authority 0)) in *.
  set (l := clamp (inject_Z (o + q + in_pts 0))) in *.
  assert (Hw : (0 <= weighted Config.settings (clamp t) (clamp c) a l
                       (clamp (_score_ai_visibility page)) <= 76)%Q).
  { unfold weighted. cbn [Config.settings Config.SCORE_TECHNICAL_WEIGHT
      Config.SCORE_CONTENT_WEIGHT Config.SCORE_AUTHORITY_WEIGHT
      Config.SCORE_LINKING_WEIGHT Config.SCORE_AI_VISIBILITY_WEIGHT]. lra. }
  rewrite clamp_fixes; lra.
Qed.

End WorkerProps.

(** * Sitemap directives and the start URL *)

Section RobotsTextProps.
Import Robots RobotsText.
Local Open Scope string_scope.
Local Open Scope Z_scope.

Lemma splitlines_aux_line (line : list ascii) (cur rest : list ascii) :
  forallb (fun c => negb (is_linebreak c)) line = true ->
  splitlines_aux false cur (line ++ "010"%char :: rest)
  = Py.str (rev cur ++ line) :: splitlines_aux false [] rest.
Proof.
  revert cur. induction line as [|c line IH]; intros cur H.
  - cbn [app splitlines_aux andb]. rewrite app_nil_r.
    change (is_linebreak "010") with true. cbn. reflexivity.
  - cbn [forallb] in H. apply andb_prop in H as [Hc H].
    cbn [app splitlines_aux andb].
    destruct (is_linebreak c); [discriminate|].
    rewrite IH by exact H. cbn [rev]. rewrite <- app_assoc. reflexivity.
Qed.

Lemma splitlines_robots_text (lines : list string) :
  Forall (fun l => forallb (fun c => negb (is_linebreak c)) (Py.chars l)
                   = true) lines ->
  splitlines (robots_text lines) = lines.
Proof.
  unfold splitlines. induction 1 as [|l lines Hl Hls IH]; [reflexivity|].
  cbn [robots_text fold_right]. rewrite chars_append.
  change (Py.chars (String "010" ?r)) with ("010"%char :: Py.chars r).
  rewrite (splitlines_aux_line _ [] _ Hl). cbn [rev app].
  fold (robots_text lines). rewrite IH. f_equal.
  unfold Py.str, Py.chars. apply string_of_list_ascii_of_string.
Qed.


Lemma sitemap_line_is_read (u : string) :
  Py.startswith "sitemap:" (Py.lower (sitemap_line u)) = true
  /\ after_colon (sitemap_line u) = String " " u.
Proof. split; vm_compute; reflexivity. Qed.

Lemma strip_after_space (u : string) : Py.strip (String " " u) = Py.strip u.
Proof. reflexivity. Qed.

Lemma sitemaps_of_lines (urls : list string) :
  Forall (fun u => plain_url u = true) urls ->
  map (fun line => Py.strip (after_colon line))
    (List.filter (fun line => Py.startswith "sitemap:" (Py.lower line))
       (map sitemap_line urls))
  = urls.
Proof.
  induction 1 as [|u urls Hu Hus IH]; [reflexivity|].
  cbn [map List.filter].
  destruct (sitemap_line_is_read u) as [-> Hc]. cbn [map].
  rewrite Hc, strip_after_space, IH. f_equal.
  unfold plain_url in Hu. apply andb_prop in Hu as [_ Hu].
  apply String.eqb_eq, Hu.
Qed.

Lemma sitemap_lines_have_no_break (urls : list string) :
  Forall (fun u => plain_url u = true) urls ->
  Forall (fun l => forallb (fun c => negb (is_linebreak c)) (Py.chars l)
                   = true) (map sitemap_line urls).
Proof.
  intros H. apply List.Forall_forall. intros l Hin.
  apply in_map_iff in Hin as (u & <- & Hin).
  rewrite List.Forall_forall in H. specialize (H u Hin).
  unfold plain_url in H. apply andb_prop in H as [H _].
  unfold sitemap_line. rewrite chars_append, forallb_app, H.
  reflexivity.
Qed.

(** X28.  Round trip of the [Sitemap:] directives: when robots.txt is
    answered with status 200 and its body holds one line "Sitemap: <url>"
    per URL (URLs without line breaks or surrounding white space), then
    after [fetch], [get_sitemaps] returns exactly these URLs, in order; the
    colon of "https:" does not cut them short. *)
Theorem sitemap_directives_round_trip (L : Libs) (client : Http.Client)
    (url : string) (urls : list string) (headers : Py.dict string) :
  Forall (fun u => plain_url u = true) urls ->
  client.(Http.get) (String.append (Sitemap.rstrip_slash url) "/robots.txt")
  = Some {| Http.status_code := 200;
            Http.body := robots_text (map sitemap_line urls);
            Http.headers := headers |} ->
  get_sitemaps (fst (fetch L client (init L url))) = urls.
Proof.
  intros Hurls Hget. unfold fetch. cbv zeta. cbn [init base_url].
  rewrite Hget. cbn [Http.status_code Http.body Z.eqb Pos.eqb].
  assert (Hs : forall self : RobotsChecker L,
            self.(raw_content) = Some (robots_text (map sitemap_line urls)) ->
            get_sitemaps self = urls).
  { intros self Hraw. unfold get_sitemaps. rewrite Hraw.
    destruct (Py.truthy (robots_text (map sitemap_line urls))) eqn:Ht.
    - rewrite splitlines_robots_text
        by (apply sitemap_lines_have_no_break, Hurls).
      apply sitemaps_of_lines, Hurls.
    - destruct urls as [|u urls']; [reflexivity|]. discriminate. }
  destruct (parse_raises L _); cbn [fst]; apply Hs; reflexivity.
Qed.

Lemma sitemap_directives_round_trip_witness :
  Forall (fun u => plain_url u = true) Cases.listed
  /\ get_sitemaps
       (fst (fetch Examples.strict_rules Cases.serves_robots
               (init Examples.strict_rules Examples.home)))
     = Cases.listed.
Proof.
  assert (H : Forall (fun u => plain_url u = true) Cases.listed)
    by (repeat constructor).
  split; [exact H|].
  apply (sitemap_directives_round_trip Examples.strict_rules Cases.serves_robots
           Examples.home Cases.listed [] H).
  reflexivity.
Defined.

End RobotsTextProps.

Section SchemasProps.
Import Schemas.
Local Open Scope string_scope.

Lemma lstrip_by_head (p : ascii -> bool) (l : list ascii) :
  match Py.lstrip_by p l with
  | [] => True
  | c :: _ => p c = false
  end.
Proof.
  induction l as [|c l IH]; [exact I|]. cbn [Py.lstrip_by].
  destruct (p c) eqn:E; [exact IH|exact E].
Qed.

Lemma lstrip_by_fixed (p : ascii -> bool) (l : list ascii) :
  match l with [] => True | c :: _ => p c = false end ->
  Py.lstrip_by p l = l.
Proof. destruct l as [|c l]; [reflexivity|]. cbn. intros ->. reflexivity. Qed.

Lemma rstrip_slash_ends (s : string) :
  Sitemap.endswith "/" (Sitemap.rstrip_slash s) = false.
Proof.
  unfold Sitemap.endswith, Sitemap.rstrip_slash, Py.str, Py.chars.
  rewrite list_ascii_of_string_of_list_ascii, rev_involutive.
  pose proof (lstrip_by_head (fun c => Ascii.eqb c "/")
                (rev (list_ascii_of_string s))) as H.
  destruct (Py.lstrip_by _ _) as [|c l]; [reflexivity|].
  cbn. destruct (Ascii.eqb_spec c "/") as [->|Hne]; [discriminate|].
  destruct c as [[] [] [] [] [] [] [] []]; try reflexivity.
  exfalso. apply Hne. reflexivity.
Qed.

Lemma rstrip_slash_fixed (s : string) :
  Sitemap.rstrip_slash (Sitemap.rstrip_slash s) = Sitemap.rstrip_slash s.
Proof.
  unfold Sitemap.rstrip_slash at 1. unfold Py.chars.
  unfold Sitemap.rstrip_slash, Py.str, Py.chars.
  rewrite list_ascii_of_string_of_list_ascii, rev_involutive.
  rewrite lstrip_by_fixed; [reflexivity|].
  apply lstrip_by_head.
Qed.

(** X29.  [validate_url] never returns a URL that ends with a slash, and
    when its result starts with http:// or https:// the result is a fixed
    point: validating it again changes nothing. *)
Theorem validate_url_normal_form (v : string) :
  Sitemap.endswith "/" (validate_url v) = false
  /\ (has_scheme (validate_url v) = true ->
      validate_url (validate_url v) = validate_url v).
Proof.
  split; [apply rstrip_slash_ends|]. intros H.
  unfold validate_url at 1. cbv zeta. rewrite H. cbn [negb].
  unfold validate_url. cbv zeta. apply rstrip_slash_fixed.
Qed.

Lemma validate_url_normal_form_witness :
  has_scheme (validate_url "example.test/shop//") = true
  /\ validate_url "example.test/shop//" = "https://example.test/shop"
  /\ Sitemap.endswith "/" (validate_url "example.test/shop//") = false
  /\ validate_url (validate_url "example.test/shop//")
     = validate_url "example.test/shop//".
Proof.
  split; [reflexivity|]. split; [reflexivity|].
  destruct (validate_url_normal_form "example.test/shop//") as [H1 H2].
  split; [exact H1|]. apply H2. reflexivity.
Defined.

(** Without the hypothesis the second application differs: a bare scheme
    loses its slashes and is then taken for a host name. *)
Example validate_url_bare_scheme :
  validate_url "http://" = "http:"
  /\ validate_url (validate_url "http://") = "https://http:".
Proof. split; reflexivity. Qed.

End SchemasProps.
